(** * Content indexing and hybrid retrieval: a shallow embedding

    This development embeds the chunker ([src/ingestion/chunker.py]), the
    lexical scorer and rank fusion ([src/services/retrieval.py]) and the
    batch embedding generator ([src/services/embeddings.py]) of the
    textbook question-answering backend, and states the properties of the
    design document over that embedding. It also embeds the section
    parser ([src/ingestion/parser.py]), the hybrid retriever, the
    question-answering pipeline ([src/services/rag.py]) and the upload of
    points ([src/ingestion/pipeline.py]), with properties read off the
    code.

    Conventions of the embedding:
    - a Python [str] is a [string]; every character stands for the code
      point of the same number (0..255);
    - a Python [int] is a [Z]; [len] results are converted with [Z.of_nat];
    - a Python [float] is a real number: arithmetic is exact, rounding is
      not modelled;
    - an exception is the [Raise] alternative of [result];
    - objects that the code mutates through shared references (the
      [RetrievedChunk]s handed to rank fusion) live in an explicit store;
    - the sub-word tokenizer (tiktoken), the vector index client and the
      embedding provider are external to the repository and enter as
      parameters. *)

From Stdlib Require Import ZArith Reals Lra Lia Bool Ascii String.
From Stdlib Require Import Sorted Permutation.
From stdpp Require Import gmap strings list fin_maps sorting pretty.

Open Scope Z_scope.

(* ===================================================================== *)
(** * Part I: the embedding                                               *)
(* ===================================================================== *)

(** ** Exceptions *)

Inductive exn : Type :=
  | ZeroDivisionError
  | KeyError
  | IndexError
  | ValueError
  | TypeError
  | TokenizerError
  | RateLimitError
  | APIError
  | OtherError.

Inductive result (A : Type) : Type :=
  | Ok (a : A)
  | Raise (e : exn).
Arguments Ok {A} a.
Arguments Raise {A} e.

#[global] Instance result_ret : MRet result := fun A a => Ok a.

#[global] Instance result_bind : MBind result := fun A B f m =>
  match m with
  | Ok a => f a
  | Raise e => Raise e
  end.

(** ** The fragments of the Python runtime that the code relies on *)

Module Py.

Definition code (c : ascii) : N := N_of_ascii c.

(** [str.isspace] on one character, as used by [strip], [split] and the
    regular-expression class [\s]. *)
Definition is_space (c : ascii) : bool :=
  let n := code c in
  ((9 <=? n) && (n <=? 13) || (28 <=? n) && (n <=? 32)
   || (n =? 133) || (n =? 160))%N.

Definition is_newline (c : ascii) : bool := (code c =? 10)%N.

(** The regular-expression class [\w] on one character. *)
Definition is_word (c : ascii) : bool :=
  let n := code c in
  ((48 <=? n) && (n <=? 57) || (65 <=? n) && (n <=? 90)
   || (97 <=? n) && (n <=? 122) || (n =? 95)
   || (n =? 170) || (n =? 178) || (n =? 179) || (n =? 181)
   || (n =? 185) || (n =? 186) || (188 <=? n) && (n <=? 190)
   || (192 <=? n) && (n <=? 214) || (216 <=? n) && (n <=? 246)
   || (248 <=? n) && (n <=? 255))%N.

(** [str.lower] on one character. *)
Definition lower_char (c : ascii) : ascii :=
  let n := code c in
  if ((65 <=? n) && (n <=? 90)
      || (192 <=? n) && (n <=? 222) && negb (n =? 215))%N
  then ascii_of_N (n + 32) else c.

Fixpoint lower (s : string) : string :=
  match s with
  | EmptyString => EmptyString
  | String c r => String (lower_char c) (lower r)
  end.

Definition is_empty (s : string) : bool :=
  match s with EmptyString => true | String _ _ => false end.

(** Truth value of a string in a condition. *)
Definition truthy (s : string) : bool := negb (is_empty s).

Fixpoint lstrip (s : string) : string :=
  match s with
  | EmptyString => EmptyString
  | String c r => if is_space c then lstrip r else s
  end.

Fixpoint rstrip (s : string) : string :=
  match s with
  | EmptyString => EmptyString
  | String c r =>
      let r' := rstrip r in
      if is_space c && is_empty r' then EmptyString else String c r'
  end.

Definition strip (s : string) : string := rstrip (lstrip s).

(** [str.split()] without argument: the maximal runs of characters that
    are not white space. [cur] is the run being read. *)
Fixpoint split_ws (cur : string) (s : string) : list string :=
  match s with
  | EmptyString => if is_empty cur then [] else [cur]
  | String c r =>
      if is_space c
      then (if is_empty cur then split_ws EmptyString r
            else cur :: split_ws EmptyString r)
      else split_ws (cur +:+ String c EmptyString) r
  end.

Definition split (s : string) : list string := split_ws EmptyString s.

(** [re.sub(r'[^\w\s]', ' ', s)]. *)
Fixpoint sub_nonword_space (s : string) : string :=
  match s with
  | EmptyString => EmptyString
  | String c r =>
      String (if is_word c || is_space c then c else " "%char)
             (sub_nonword_space r)
  end.

(** After a line feed, the regular expression [\s*\n] matches greedily:
    it takes the white-space run that follows and gives characters back
    until the last one it keeps is a line feed. [blank_span s] is the
    number of characters of [s] such a match consumes. *)
Fixpoint blank_span (s : string) : option nat :=
  match s with
  | EmptyString => None
  | String c r =>
      if is_space c then
        match blank_span r with
        | Some n => Some (S n)
        | None => if is_newline c then Some 1%nat else None
        end
      else None
  end.

(** [re.split(r'\n\s*\n', s)]: the pieces between the successive
    leftmost matches. [skip] counts the characters of the current match
    still to be passed over, [cur] is the piece being read. *)
Fixpoint re_split_blank (skip : nat) (cur : string) (s : string)
  : list string :=
  match s with
  | EmptyString => [cur]
  | String c r =>
      match skip with
      | S n => re_split_blank n cur r
      | O =>
          if is_newline c then
            match blank_span r with
            | Some n => cur :: re_split_blank n EmptyString r
            | None => re_split_blank 0 (cur +:+ String c EmptyString) r
            end
          else re_split_blank 0 (cur +:+ String c EmptyString) r
      end
  end.

(** [sep.join(l)]. *)
Fixpoint join (sep : string) (l : list string) : string :=
  match l with
  | [] => EmptyString
  | [x] => x
  | x :: r => x +:+ sep +:+ join sep r
  end.

(** [l[start:]] for a possibly negative [start]. *)
Definition slice_from {A : Type} (start : Z) (l : list A) : list A :=
  if start <? 0
  then drop (Z.to_nat (Z.max 0 (Z.of_nat (length l) + start))) l
  else drop (Z.to_nat start) l.

(** [l[:stop]] for a possibly negative [stop]. *)
Definition slice_to {A : Type} (stop : Z) (l : list A) : list A :=
  if stop <? 0
  then take (Z.to_nat (Z.max 0 (Z.of_nat (length l) + stop))) l
  else take (Z.to_nat stop) l.

(** [sorted(l, key=key, reverse=True)] and [l.sort(key=key,
    reverse=True)]: a stable sort into descending key order; elements
    with equal keys keep their relative order. *)
Section SortDesc.
Context {A : Type} (key : A -> R).

Fixpoint insert_desc (x : A) (l : list A) : list A :=
  match l with
  | [] => [x]
  | y :: r =>
      if Rle_dec (key y) (key x) then x :: y :: r
      else y :: insert_desc x r
  end.

Fixpoint sort_desc (l : list A) : list A :=
  match l with
  | [] => []
  | x :: r => insert_desc x (sort_desc r)
  end.
End SortDesc.

(** [l.sort(key=key)] on integer keys: a stable sort into ascending
    key order. *)
Section SortAsc.
Context {A : Type} (key : A -> nat).

Fixpoint insert_asc (x : A) (l : list A) : list A :=
  match l with
  | [] => [x]
  | y :: r =>
      if (key x <=? key y)%nat then x :: y :: r
      else y :: insert_asc x r
  end.

Fixpoint sort_asc (l : list A) : list A :=
  match l with
  | [] => []
  | x :: r => insert_asc x (sort_asc r)
  end.
End SortAsc.

(** A [for] loop whose body may raise: the state is threaded from left
    to right and the first exception ends the loop. *)
Fixpoint for_each {S A : Type} (body : S -> A -> result S) (l : list A)
    (st : S) : result S :=
  match l with
  | [] => Ok st
  | x :: r =>
      match body st x with
      | Ok st' => for_each body r st'
      | Raise e => Raise e
      end
  end.

(** Division [x / y] of floats, which raises for a zero divisor. The one
    division of the code whose dividend is a numpy scalar, the BM25 term,
    would yield an infinity or a NaN instead of raising; reals have
    neither, so it is embedded with this function too. Its divisor is
    positive whenever [0 <= k1] and [0 <= b <= 1]. *)
Definition div (x y : R) : result R :=
  if Req_dec_T y 0 then Raise ZeroDivisionError else Ok (x / y)%R.

(** [enumerate(l)]. *)
Fixpoint enumerate_from {A : Type} (i : nat) (l : list A) : list (nat * A) :=
  match l with
  | [] => []
  | x :: r => (i, x) :: enumerate_from (S i) r
  end.

Definition enumerate {A : Type} (l : list A) : list (nat * A) :=
  enumerate_from 0 l.

(** The line feed, as a character and as a string. *)
Definition LF : ascii := ascii_of_N 10.

Definition nl : string := String LF EmptyString.

(** [s.split(sep)] for a separator [sep] of one character: the pieces
    between the occurrences of [sep]. [cur] is the piece being read. *)
Fixpoint split_on (sep : ascii) (cur : string) (s : string) : list string :=
  match s with
  | EmptyString => [cur]
  | String c r =>
      if Ascii.eqb c sep then cur :: split_on sep EmptyString r
      else split_on sep (cur +:+ String c EmptyString) r
  end.

(** [s.count(c)] for one character [c]. *)
Fixpoint count (c : ascii) (s : string) : Z :=
  match s with
  | EmptyString => 0
  | String d r => (if Ascii.eqb d c then 1 else 0) + count c r
  end.

(** [len(s)]. *)
Definition len (s : string) : Z := Z.of_nat (String.length s).

(** [str(n)] and the formatting of an integer in an f-string. *)
Definition str (n : Z) : string := pretty n.

(** [zip(l, k)]: the pairs up to the end of the shorter list. *)
Fixpoint zip {A B : Type} (l : list A) (k : list B) : list (A * B) :=
  match l, k with
  | x :: l', y :: k' => (x, y) :: zip l' k'
  | _, _ => []
  end.

End Py.

(** ** [src/ingestion/parser.py]: the data the chunker consumes *)

Module Parser.

Module CodeBlock.
Record t : Type := mk {
  language : string;
  content : string;
  line_start : Z;
  line_end : Z
}.
End CodeBlock.

Record Section_ : Type := mkSection {
  heading : string;
  level : Z;
  content : string;
  line_start : Z;
  line_end : Z;
  code_blocks : list CodeBlock.t
}.

Record ParsedDocument : Type := mkDocument {
  file_path : string;
  metadata : list (string * string);
  sections : list Section_;
  title : string;
  chapter : string;
  description : string;
  keywords : list string;
  url_path : string
}.

End Parser.

(** ** [src/ingestion/parser.py]: [MarkdownParser] *)

Module MarkdownParser.
Import Parser.

(** The number of [#] characters that a line starts with, and the rest
    of the line. *)
Fixpoint leading_hashes (line : string) : nat * string :=
  match line with
  | EmptyString => (0%nat, EmptyString)
  | String c r =>
      if Ascii.eqb c "#"
      then let hr := leading_hashes r in (S hr.1, hr.2)
      else (0%nat, line)
  end.

(** [re.match(r'^(#{1,6})\s+(.+)$', line)] on a line without line feed,
    as the pair of [len(match.group(1))] and [match.group(2).strip()].
    The first group is the whole run of [#], which must have one to six
    characters since white space has to follow it. The rest of the line
    must start with white space and have a second character for [.+].
    The second group is what follows the white-space run, or the last
    white-space character if nothing follows; stripped, both are the
    stripped rest of the line. *)
Definition match_heading (line : string) : option (Z * string) :=
  let hr := leading_hashes line in
  match hr.2 with
  | String c (String _ _) =>
      if (1 <=? hr.1)%nat && (hr.1 <=? 6)%nat && Py.is_space c
      then Some (Z.of_nat hr.1, Py.strip hr.2)
      else None
  | _ => None
  end.

(** The opening line of a code block, [```(\w+)?] up to the end of the
    line: the word characters after the fence. *)
Definition opening_fence (line : string) : option string :=
  match line with
  | String "`" (String "`" (String "`" w)) =>
      if forallb Py.is_word (list_ascii_of_string w) then Some w else None
  | _ => None
  end.

(** The text that [(.*?)] matches: the lines between the fences, each
    with its line feed. *)
Definition body_text (body : list string) : string :=
  fold_right (fun line acc => line +:+ Py.nl +:+ acc) EmptyString body.

(** The matches of [CODE_BLOCK_PATTERN],
    [^```(\w+)?\n(.*?)^```$] with [MULTILINE] and [DOTALL], read line by
    line. Outside a block, a line that is an opening fence starts a
    match; inside, the first line that is exactly the fence ends it, and
    the search goes on after that line. An opening fence that is never
    closed matches nothing, and then no later line can start a match
    either. [i] is the number of the current line and [open] holds the
    line number, the language group and the lines read of the block
    being matched. *)
Fixpoint scan_blocks (offset : Z) (i : nat)
    (open : option (nat * string * list string)) (lines : list string)
  : list CodeBlock.t :=
  match lines with
  | [] => []
  | line :: rest =>
      match open with
      | None =>
          match opening_fence line with
          | Some w => scan_blocks offset (S i) (Some (i, w, [])) rest
          | None => scan_blocks offset (S i) None rest
          end
      | Some (start, w, body) =>
          if String.eqb line "```" then
            let language := if Py.is_empty w then "text"%string else w in
            let code_content := Py.strip (body_text body) in
            let line_start := offset + Z.of_nat start in
            let line_end := line_start + Py.count Py.LF code_content + 1 in
            CodeBlock.mk language code_content line_start line_end
              :: scan_blocks offset (S i) None rest
          else scan_blocks offset (S i) (Some (start, w, body ++ [line])) rest
      end
  end.

Definition _extract_code_blocks (content : string) (offset : Z)
  : list CodeBlock.t :=
  scan_blocks offset 0 None (Py.split_on Py.LF EmptyString content).

(** The first loop of [_parse_sections]: the line number, level and
    title of every heading line. *)
Definition headings_of (lines : list string) : list (nat * Z * string) :=
  omap (fun il : nat * string =>
          match match_heading il.2 with
          | Some lt => Some (il.1, lt.1, lt.2)
          | None => None
          end)
       (Py.enumerate lines).

(** The second loop: one section per heading, up to the next heading or
    the end of the text. *)
Fixpoint sections_of (lines : list string)
    (headings : list (nat * Z * string)) : list Section_ :=
  match headings with
  | [] => []
  | (line_num, level, title) :: rest =>
      let end_line :=
        match rest with
        | (next, _, _) :: _ => next
        | [] => length lines
        end in
      let section_content_lines := drop (S line_num) (take end_line lines) in
      let section_content :=
        Py.strip (Py.join Py.nl section_content_lines) in
      let code_blocks :=
        _extract_code_blocks section_content (Z.of_nat line_num + 1) in
      mkSection title level section_content (Z.of_nat line_num)
                (Z.of_nat end_line) code_blocks
        :: sections_of lines rest
  end.

Definition _parse_sections (content : string) : list Section_ :=
  let lines := Py.split_on Py.LF EmptyString content in
  match sections_of lines (headings_of lines) with
  | [] =>
      [mkSection "Introduction" 1 (Py.strip content) 0
                 (Z.of_nat (length lines)) (_extract_code_blocks content 0)]
  | sections => sections
  end.

End MarkdownParser.

(** ** [src/ingestion/chunker.py] *)

Module Chunker.
Import Parser.

Definition token := Z.

(** The interface of a tiktoken encoding. *)
Record Tokenizer : Type := mkTokenizer {
  encode : string -> list token;
  decode : list token -> string
}.

(** Values stored in the metadata dictionary of a chunk. *)
Inductive MetaValue : Type :=
  | MStr (s : string)
  | MInt (z : Z)
  | MList (l : list string).

Record ContentChunk : Type := mkChunk {
  text : string;
  metadata : list (string * MetaValue);
  token_count : Z;
  heading_path : list string;
  source_file : string;
  line_start : Z;
  line_end : Z
}.

Record SemanticChunker : Type := mkChunker {
  min_chunk_size : Z;
  max_chunk_size : Z;
  overlap_size : Z;
  tokenizer : Tokenizer
}.

(** [SemanticChunker.__init__]. [get_encoding] stands for
    [tiktoken.get_encoding], which raises for a name it cannot load. *)
Definition __init__ (get_encoding : string -> option Tokenizer)
    (min_chunk_size max_chunk_size overlap_size : Z)
    (encoding_name : string) : result SemanticChunker :=
  match get_encoding encoding_name with
  | Some t => Ok (mkChunker min_chunk_size max_chunk_size overlap_size t)
  | None =>
      match get_encoding "cl100k_base"%string with
      | Some t => Ok (mkChunker min_chunk_size max_chunk_size overlap_size t)
      | None => Raise TokenizerError
      end
  end.

Section WithChunker.
Variable self : SemanticChunker.

Definition count_tokens (text : string) : Z :=
  Z.of_nat (length (encode (tokenizer self) text)).

(** The [while] loop of [_update_heading_stack], on the stack read
    from its top. *)
Fixpoint pop_deeper (level : Z) (top_first : list (Z * string))
  : list (Z * string) :=
  match top_first with
  | [] => []
  | (l, h) :: r => if l >=? level then pop_deeper level r else top_first
  end.

Definition _update_heading_stack (heading_stack : list (Z * string))
    (section : Section_) : list (Z * string) :=
  rev (pop_deeper (level section) (rev heading_stack))
    ++ [(level section, heading section)].

Definition _split_into_paragraphs (text : string) : list string :=
  omap (fun p => if Py.truthy (Py.strip p) then Some (Py.strip p) else None)
       (Py.re_split_blank 0 EmptyString text).

Definition _get_overlap_text (text : string) : string :=
  let tokens := encode (tokenizer self) text in
  if Z.of_nat (length tokens) <=? overlap_size self then text
  else decode (tokenizer self)
         (Py.slice_from (- overlap_size self) tokens).

Definition _create_chunk (text : string) (heading_path : list string)
    (document : ParsedDocument) (section : Section_) (chunk_index : Z)
  : ContentChunk :=
  let token_count := count_tokens text in
  let metadata :=
    [ ("chapter"%string, MStr (chapter document));
      ("title"%string, MStr (title document));
      ("section"%string, MStr (heading section));
      ("heading_path"%string, MStr (Py.join " > " heading_path));
      ("url"%string, MStr (url_path document));
      ("description"%string, MStr (description document));
      ("keywords"%string, MList (keywords document));
      ("chunk_index"%string, MInt chunk_index);
      ("source_file"%string, MStr (file_path document));
      ("line_start"%string, MInt (Parser.line_start section));
      ("line_end"%string, MInt (Parser.line_end section)) ] in
  mkChunk text metadata token_count heading_path (file_path document)
          (Parser.line_start section) (Parser.line_end section).

(** The local variables of [_split_large_section] that its loop
    updates. *)
Record split_state : Type := mkSplit {
  chunks : list ContentChunk;
  current_chunk_text : string;
  current_tokens : Z;
  chunk_index : Z
}.

Definition split_init : split_state := mkSplit [] EmptyString 0 0.

Definition paragraph_sep : string :=
  String (ascii_of_N 10) (String (ascii_of_N 10) EmptyString).

(** One iteration of the loop over the paragraphs. *)
Definition split_step (heading_path : list string)
    (document : ParsedDocument) (section : Section_)
    (st : split_state) (para : string) : split_state :=
  let para_tokens := count_tokens para in
  if current_tokens st + para_tokens >? max_chunk_size self then
    if current_tokens st >=? min_chunk_size self then
      let chunk := _create_chunk (Py.strip (current_chunk_text st))
                     heading_path document section (chunk_index st) in
      let new_text := _get_overlap_text (current_chunk_text st)
                        +:+ paragraph_sep +:+ para in
      mkSplit (chunks st ++ [chunk]) new_text (count_tokens new_text)
              (chunk_index st + 1)
    else
      mkSplit (chunks st)
              (current_chunk_text st +:+ paragraph_sep +:+ para)
              (current_tokens st + para_tokens) (chunk_index st)
  else
    mkSplit (chunks st)
            (if Py.truthy (current_chunk_text st)
             then current_chunk_text st +:+ paragraph_sep +:+ para
             else para)
            (current_tokens st + para_tokens) (chunk_index st).

Definition split_loop (heading_path : list string)
    (document : ParsedDocument) (section : Section_)
    (paragraphs : list string) : split_state :=
  fold_left (split_step heading_path document section) paragraphs
            split_init.

(** The final flush after the loop. *)
Definition split_flush (heading_path : list string)
    (document : ParsedDocument) (section : Section_)
    (st : split_state) : list ContentChunk :=
  if Py.truthy (Py.strip (current_chunk_text st)) then
    chunks st ++ [_create_chunk (Py.strip (current_chunk_text st))
                    heading_path document section (chunk_index st)]
  else chunks st.

Definition _split_large_section (section : Section_)
    (heading_path : list string) (document : ParsedDocument)
  : list ContentChunk :=
  split_flush heading_path document section
    (split_loop heading_path document section
       (_split_into_paragraphs (content section))).

Definition _chunk_section (section : Section_)
    (heading_path : list (Z * string)) (document : ParsedDocument)
  : list ContentChunk :=
  let heading_strings := map snd heading_path in
  let section_tokens := count_tokens (content section) in
  if section_tokens <=? max_chunk_size self then
    [_create_chunk (content section) heading_strings document section 0]
  else
    _split_large_section section heading_strings document.

(** The loop of [chunk_document]: the chunks so far and the heading
    stack. *)
Definition document_step (document : ParsedDocument)
    (st : list ContentChunk * list (Z * string)) (section : Section_)
  : list ContentChunk * list (Z * string) :=
  let heading_stack := _update_heading_stack (snd st) section in
  (fst st ++ _chunk_section section heading_stack document, heading_stack).

Definition document_loop (document : ParsedDocument)
    (sections : list Section_) : list ContentChunk * list (Z * string) :=
  fold_left (document_step document) sections ([], []).

Definition chunk_document (document : ParsedDocument)
  : list ContentChunk :=
  fst (document_loop document (sections document)).

(** [chunk_documents]: the chunks of the documents, in order. The call
    of [chunk_document] stands in [try: ... except Exception: continue],
    so a document on which it raises is logged and skipped, with all its
    sections. [chunk_document] above is a total function because the
    tokenizer of the embedding is one; tiktoken's [encode] raises
    [ValueError] on a text that holds the name of a special token.
    [raises] tells the documents on which the call of [chunk_document]
    raises; on the others the call returns [chunk_document doc]. The
    statistics that follow the loop are only logged. *)
Definition chunk_documents (raises : ParsedDocument -> bool)
    (documents : list ParsedDocument) : list ContentChunk :=
  fold_left (fun all_chunks doc =>
               if raises doc then all_chunks
               else all_chunks ++ chunk_document doc)
            documents [].

End WithChunker.

End Chunker.

(** ** [src/services/retrieval.py] *)

Module Retrieval.

(** A chunk identifier: the 128-bit value of a [UUID]. *)
Definition UUID := N.

(** The keys of a vector-index payload that the retriever reads; an
    absent key is [None]. *)
Record Payload : Type := mkPayload {
  p_content : option string;
  p_chapter : option string;
  p_section : option string;
  p_page : option Z;
  p_url : option string
}.

(** A point returned by the vector index. *)
Record Point : Type := mkPoint {
  id : UUID;
  payload : Payload
}.

Record RetrievedChunk : Type := mkRetrieved {
  chunk_id : UUID;
  content : string;
  score : R;
  chapter : string;
  section : string;
  page : option Z;
  url : string;
  metadata : Payload
}.

(** *** BM25 *)

Record BM25 : Type := mkBM25 {
  k1 : R;
  b : R
}.

(** [BM25()] with its default arguments. *)
Definition BM25_default : BM25 := mkBM25 (3 / 2) (3 / 4).

Definition tokenize (text : string) : list string :=
  Py.split (Py.sub_nonword_space (Py.lower text)).

(** [{doc_id: len(tokens) for doc_id, tokens in doc_tokens}]: a later
    entry with the same identifier replaces an earlier one. *)
Definition doc_lengths_of (doc_tokens : list (UUID * list string))
  : gmap UUID nat :=
  fold_left (fun m dt => <[dt.1 := length dt.2]> m) doc_tokens ∅.

(** [df[token] += 1] on a [defaultdict(int)]. *)
Definition incr (token : string) (d : gmap string nat) : gmap string nat :=
  <[token := S (default 0%nat (d !! token))]> d.

(** The document-frequency loop: for every document, every query token
    found among the document's tokens is counted once per occurrence in
    the query. *)
Definition df_of (query_tokens : list string)
    (doc_tokens : list (UUID * list string)) : gmap string nat :=
  fold_left
    (fun df dt =>
       fold_left
         (fun df token => if bool_decide (token ∈ dt.2) then incr token df
                          else df)
         query_tokens df)
    doc_tokens ∅.

(** The inverse-document-frequency loop. [np.log] is [ln]; its argument
    is positive for every count. *)
Definition idf_of (num_docs : nat) (df : gmap string nat)
    (query_tokens : list string) : result (gmap string R) :=
  Py.for_each
    (fun idf token =>
       let d := INR (default 0%nat (df !! token)) in
       q ← Py.div (INR num_docs - d + 1 / 2) (d + 1 / 2);
       Ok (<[token := ln (q + 1)]> idf))
    query_tokens ∅.

(** The term-frequency loop of one document. *)
Definition tf_of (tokens : list string) : gmap string nat :=
  fold_left (fun tf token => incr token tf) tokens ∅.

(** The score of one document: the loop over the query tokens. *)
Definition score_document (self : BM25) (idf : gmap string R)
    (avg_doc_length : R) (doc_length : nat) (tf : gmap string nat)
    (query_tokens : list string) : result R :=
  Py.for_each
    (fun score query_token =>
       match tf !! query_token with
       | Some term_freq =>
           i ← (match idf !! query_token with
                | Some v => Ok v
                | None => Raise KeyError
                end);
           let numerator := (i * INR term_freq * (k1 self + 1))%R in
           ratio ← Py.div (INR doc_length) avg_doc_length;
           let denominator :=
             (INR term_freq + k1 self * (1 - b self + b self * ratio))%R in
           term ← Py.div numerator denominator;
           Ok (score + term)%R
       | None => Ok score
       end)
    query_tokens 0%R.

Definition score_documents (self : BM25) (query : string)
    (documents : list (UUID * string)) : result (list (UUID * R)) :=
  match documents with
  | [] => Ok []
  | _ :: _ =>
      let query_tokens := tokenize query in
      match query_tokens with
      | [] => Ok (map (fun d => (d.1, 0%R)) documents)
      | _ :: _ =>
          let doc_tokens := map (fun d => (d.1, tokenize d.2)) documents in
          let doc_lengths := doc_lengths_of doc_tokens in
          avg_doc_length ←
            Py.div (INR (sum_list (snd <$> map_to_list doc_lengths)))
                   (INR (size doc_lengths));
          let df := df_of query_tokens doc_tokens in
          let num_docs := length documents in
          idf ← idf_of num_docs df query_tokens;
          scores ←
            Py.for_each
              (fun scores dt =>
                 doc_length ← (match doc_lengths !! dt.1 with
                               | Some n => Ok n
                               | None => Raise KeyError
                               end);
                 score ← score_document self idf avg_doc_length doc_length
                            (tf_of dt.2) query_tokens;
                 Ok (scores ++ [(dt.1, score)]))
              doc_tokens [];
          Ok (Py.sort_desc snd scores)
      end
  end.

(** *** The lexical path *)

(** The equality conditions built from the optional filters; a filter
    that is [None] or empty adds none. *)
Definition filter_conditions (chapter_filter section_filter : option string)
  : list (string * string) :=
  (match chapter_filter with
   | Some c => if Py.truthy c then [("chapter"%string, c)] else []
   | None => []
   end)
  ++
  (match section_filter with
   | Some s => if Py.truthy s then [("section"%string, s)] else []
   | None => []
   end).

Definition query_filter (chapter_filter section_filter : option string)
  : option (list (string * string)) :=
  match filter_conditions chapter_filter section_filter with
  | [] => None
  | cs => Some cs
  end.

Definition chunk_of_point (chunk_id : UUID) (score : R) (point : Point)
  : RetrievedChunk :=
  mkRetrieved chunk_id
    (default EmptyString (p_content (payload point)))
    score
    (default EmptyString (p_chapter (payload point)))
    (default EmptyString (p_section (payload point)))
    (p_page (payload point))
    (default EmptyString (p_url (payload point)))
    (payload point).

(** [HybridRetriever.bm25_search]. [scroll] stands for the vector index
    client's [scroll] call with the given filter (limit 1000); it
    returns the first page of points or raises. *)
Definition bm25_search
    (scroll : option (list (string * string)) -> result (list Point))
    (bm25 : BM25) (query : string) (top_k : Z)
    (chapter_filter section_filter : option string)
  : result (list RetrievedChunk) :=
  points ← scroll (query_filter chapter_filter section_filter);
  match points with
  | [] => Ok []
  | _ :: _ =>
      let documents :=
        map (fun p => (id p, default EmptyString (p_content (payload p))))
            points in
      bm25_scores ← score_documents bm25 query documents;
      let point_map : gmap UUID Point :=
        fold_left (fun m p => <[id p := p]> m) points ∅ in
      Py.for_each
        (fun chunks cs =>
           if Rle_dec cs.2 0 then Ok chunks
           else
             match point_map !! cs.1 with
             | Some point => Ok (chunks ++ [chunk_of_point cs.1 cs.2 point])
             | None => Raise KeyError
             end)
        (Py.slice_to top_k bm25_scores) []
  end.

(** *** Rank fusion *)

(** Object identities and the store of [RetrievedChunk] objects. *)
Definition ref := nat.
Definition store := ref -> RetrievedChunk.

(** [chunk.score = s] on the object [r]. *)
Definition set_score (h : store) (r : ref) (s : R) : store :=
  fun r' =>
    if decide (r' = r) then
      let c := h r in
      mkRetrieved (chunk_id c) (content c) s (chapter c) (section c)
                  (page c) (url c) (metadata c)
    else h r'.

(** [{chunk.chunk_id: idx for idx, chunk in enumerate(results)}]. *)
Definition rank_map (h : store) (results : list ref) : gmap UUID nat :=
  fold_left (fun m ir => <[chunk_id (h ir.2) := ir.1]> m)
            (Py.enumerate results) ∅.

(** The two loops that fill [chunk_map]. *)
Definition chunk_map_of (h : store) (vector_results bm25_results : list ref)
  : gmap UUID ref :=
  fold_left (fun m r => <[chunk_id (h r) := r]> m) bm25_results
    (fold_left (fun m r => <[chunk_id (h r) := r]> m) vector_results ∅).

(** The body of the loop that fills [rrf_scores]. *)
Definition rrf_score (vector_ranks bm25_ranks : gmap UUID nat) (k : Z)
    (chunk_id : UUID) : result R :=
  let score := 0%R in
  score ← (match vector_ranks !! chunk_id with
           | Some rank =>
               t ← Py.div 1 (IZR (k + Z.of_nat rank)); Ok (score + t)%R
           | None => Ok score
           end);
  match bm25_ranks !! chunk_id with
  | Some rank => t ← Py.div 1 (IZR (k + Z.of_nat rank)); Ok (score + t)%R
  | None => Ok score
  end.

(** [HybridRetriever.reciprocal_rank_fusion]. [set_iter] is the order
    in which the interpreter iterates over a set of identifiers, which
    the language leaves open. [rrf_scores] is kept as the list of its
    items in insertion order. The result is the updated store and the
    list of returned objects. *)
Definition reciprocal_rank_fusion (set_iter : gset UUID -> list UUID)
    (h : store) (vector_results bm25_results : list ref) (k : Z)
  : result (store * list ref) :=
  let vector_ranks := rank_map h vector_results in
  let bm25_ranks := rank_map h bm25_results in
  let all_chunk_ids := dom vector_ranks ∪ dom bm25_ranks in
  let chunk_map := chunk_map_of h vector_results bm25_results in
  rrf_scores ←
    Py.for_each
      (fun scores chunk_id =>
         s ← rrf_score vector_ranks bm25_ranks k chunk_id;
         Ok (scores ++ [(chunk_id, s)]))
      (set_iter all_chunk_ids) [];
  let sorted_items := Py.sort_desc snd rrf_scores in
  Py.for_each
    (fun (st : store * list ref) (item : UUID * R) =>
       match chunk_map !! item.1 with
       | Some chunk => Ok (set_score st.1 chunk item.2, st.2 ++ [chunk])
       | None => Raise KeyError
       end)
    sorted_items (h, []).

End Retrieval.

(** ** [src/services/embeddings.py] *)

Module Embeddings.

Definition embedding := list R.

(** What one call of the provider's embedding endpoint does. *)
Inductive api_outcome : Type :=
  | Response (data : list embedding)
  | RateLimited
  | Failed
  | Unexpected.

(** The fields of the generator that the batch call reads. The cache
    itself is passed as the map from a text to the vector stored for it
    under the generator's model; collisions of the hashed file names and
    failures to read or write a cache file are not modelled. *)
Record EmbeddingGenerator : Type := mkGenerator {
  batch_size : Z;
  max_retries : Z;
  use_cache : bool
}.

Section WithGenerator.
Variable self : EmbeddingGenerator.

(** The provider's endpoint: the outcome of the call made at a given
    attempt for a given list of texts. *)
Variable create : nat -> list string -> api_outcome.

(** The loop of [_generate_with_retry] over the attempts left. When no
    attempt is left the code reaches its last statement,
    [raise APIError("Failed to generate embeddings after max retries")]:
    the module imports the provider's client in its version 1
    ([from openai import OpenAI, RateLimitError, APIError]), whose
    [APIError] cannot be built from a message alone (its constructor
    also requires the request), so the statement raises [TypeError]. *)
Fixpoint retry_loop (texts : list string) (attempts : list nat)
  : result (list embedding) :=
  match attempts with
  | [] => Raise TypeError
  | attempt :: rest =>
      match create attempt texts with
      | Response data => Ok data
      | RateLimited =>
          if Z.of_nat attempt <? max_retries self - 1
          then retry_loop texts rest
          else Raise RateLimitError
      | Failed =>
          if Z.of_nat attempt <? max_retries self - 1
          then retry_loop texts rest
          else Raise APIError
      | Unexpected => Raise OtherError
      end
  end.

Definition _generate_with_retry (texts : list string)
  : result (list embedding) :=
  retry_loop texts (seq 0 (Z.to_nat (max_retries self))).

(** [self.cache.get(text, self.model)] when the cache is enabled. *)
Definition cache_get (cache : gmap string embedding) (text : string)
  : option embedding :=
  if use_cache self then cache !! text else None.

(** The locals of the first loop of [generate_embeddings_batch]. *)
Record scan_state : Type := mkScan {
  embeddings : list (nat * embedding);
  uncached_indices : list nat;
  uncached_texts : list string
}.

Definition scan_step (cache : gmap string embedding) (st : scan_state)
    (it : nat * string) : scan_state :=
  match cache_get cache it.2 with
  | Some cached =>
      mkScan (embeddings st ++ [(it.1, cached)])
             (uncached_indices st) (uncached_texts st)
  | None =>
      mkScan (embeddings st) (uncached_indices st ++ [it.1])
             (uncached_texts st ++ [it.2])
  end.

(** [range(0, stop, step)]; [fuel] bounds the number of values. *)
Fixpoint range_from (fuel : nat) (start stop step : nat) : list nat :=
  match fuel with
  | O => []
  | S f =>
      if (start <? stop)%nat
      then start :: range_from f (start + step) stop step
      else []
  end.

Definition range_step (stop : nat) (step : Z) : result (list nat) :=
  if step =? 0 then Raise ValueError
  else if step <? 0 then Ok []
  else Ok (range_from stop 0 stop (Z.to_nat step)).

(** The inner loop over one batch of generated vectors. *)
Definition store_step (uncached_indices : list nat)
    (batch_texts : list string) (batch_start : nat)
    (st : list (nat * embedding) * gmap string embedding)
    (ie : nat * embedding)
  : result (list (nat * embedding) * gmap string embedding) :=
  match uncached_indices !! (batch_start + ie.1)%nat with
  | None => Raise IndexError
  | Some original_index =>
      let embeddings := st.1 ++ [(original_index, ie.2)] in
      if use_cache self then
        match batch_texts !! ie.1 with
        | None => Raise IndexError
        | Some t => Ok (embeddings, <[t := ie.2]> st.2)
        end
      else Ok (embeddings, st.2)
  end.

(** The body of the loop over the batches. *)
Definition batch_step (uncached_indices : list nat)
    (uncached_texts : list string)
    (st : list (nat * embedding) * gmap string embedding)
    (batch_start : nat)
  : result (list (nat * embedding) * gmap string embedding) :=
  let batch_end :=
    Z.to_nat (Z.min (Z.of_nat batch_start + batch_size self)
                    (Z.of_nat (length uncached_texts))) in
  let batch_texts :=
    drop batch_start (take batch_end uncached_texts) in
  batch_embeddings ← _generate_with_retry batch_texts;
  Py.for_each (store_step uncached_indices batch_texts batch_start)
              (Py.enumerate batch_embeddings) st.

(** [generate_embeddings_batch]: the vectors in the order of [texts],
    and the cache after the call. *)
Definition generate_embeddings_batch (cache : gmap string embedding)
    (texts : list string)
  : result (list embedding * gmap string embedding) :=
  let st := fold_left (scan_step cache) (Py.enumerate texts)
                      (mkScan [] [] []) in
  filled ←
    (match uncached_texts st with
     | [] => Ok (embeddings st, cache)
     | _ :: _ =>
         starts ← range_step (length (uncached_texts st))
                             (batch_size self);
         Py.for_each
           (batch_step (uncached_indices st) (uncached_texts st))
           starts (embeddings st, cache)
     end);
  Ok (map snd (Py.sort_asc fst filled.1), filled.2).

(** [generate_embedding]: the vector of one text, and the cache after
    the call. *)
Definition generate_embedding (cache : gmap string embedding)
    (text : string) : result (embedding * gmap string embedding) :=
  match cache_get cache text with
  | Some cached => Ok (cached, cache)
  | None =>
      data ← _generate_with_retry [text];
      match data with
      | [] => Raise IndexError
      | e :: _ =>
          Ok (e, if use_cache self then <[text := e]> cache else cache)
      end
  end.

End WithGenerator.

End Embeddings.

(** ** [src/services/retrieval.py]: [HybridRetriever.vector_search] and
    [HybridRetriever.retrieve] *)

Module HybridRetriever.
Import Retrieval Embeddings.

(** A point returned by a similarity search, with its score. As for
    [Point], the identifier is taken to be a well-formed UUID. *)
Record ScoredPoint : Type := mkScored {
  sp_id : UUID;
  sp_payload : Payload;
  sp_score : R
}.

(** The object that a reference outside the store would denote; no
    reference of the retriever is outside. *)
Definition no_chunk : RetrievedChunk :=
  mkRetrieved 0%N EmptyString 0%R EmptyString EmptyString None EmptyString
    (mkPayload None None None None None).

(** The store that holds the chunk objects created by the two searches:
    the vector results first, then the BM25 results. *)
Definition store_of (vector_results bm25_results : list RetrievedChunk)
  : store :=
  fun r => default no_chunk ((vector_results ++ bm25_results) !! r).

Section WithRetriever.

(** The vector index client: [search] with the query vector, the
    filter, the limit and the score threshold, and [scroll] with the
    filter. *)
Variable search :
  embedding -> option (list (string * string)) -> Z -> R ->
  result (list ScoredPoint).
Variable scroll : option (list (string * string)) -> result (list Point).

(** The embedding generator of the retriever and its provider. *)
Variable embedding_generator : EmbeddingGenerator.
Variable create : nat -> list string -> api_outcome.

(** The iteration order of sets, and [settings.retrieval_top_k]. *)
Variable set_iter : gset UUID -> list UUID.
Variable settings_retrieval_top_k : Z.

(** [vector_search]: the chunks, and the embedding cache after the
    call. *)
Definition vector_search (cache : gmap string embedding) (query : string)
    (top_k : Z) (chapter_filter section_filter : option string)
    (min_score : R)
  : result (list RetrievedChunk * gmap string embedding) :=
  qc ← generate_embedding embedding_generator create cache query;
  search_result ←
    search qc.1 (query_filter chapter_filter section_filter) top_k min_score;
  Ok (map (fun point =>
             mkRetrieved (sp_id point)
               (default EmptyString (p_content (sp_payload point)))
               (sp_score point)
               (default EmptyString (p_chapter (sp_payload point)))
               (default EmptyString (p_section (sp_payload point)))
               (p_page (sp_payload point))
               (default EmptyString (p_url (sp_payload point)))
               (sp_payload point))
          search_result,
      qc.2).

(** [retrieve]. The chunk objects of the two searches are put in a
    store, on which rank fusion writes the fused scores; the result is
    read from the store after fusion. The retriever scores with
    [BM25()] and fuses with the default [k = 60]. *)
Definition retrieve (cache : gmap string embedding) (query : string)
    (top_k : Z) (retrieval_top_k : option Z)
    (chapter_filter section_filter : option string) (use_hybrid : bool)
    (min_score : R)
  : result (list RetrievedChunk * gmap string embedding) :=
  let retrieval_top_k := default settings_retrieval_top_k retrieval_top_k in
  vc ← vector_search cache query retrieval_top_k chapter_filter
         section_filter min_score;
  let vector_results := vc.1 in
  if negb use_hybrid then Ok (Py.slice_to top_k vector_results, vc.2)
  else
    bm25_results ← bm25_search scroll BM25_default query retrieval_top_k
                     chapter_filter section_filter;
    let h := store_of vector_results bm25_results in
    fused ← reciprocal_rank_fusion set_iter h
              (seq 0 (length vector_results))
              (seq (length vector_results) (length bm25_results)) 60;
    let final_results := Py.slice_to top_k fused.2 in
    Ok (map fused.1 final_results, vc.2).

End WithRetriever.

End HybridRetriever.

(** ** [src/services/rag.py] *)

Module Rag.

Record ConversationMessage : Type := mkMessage {
  role : string;
  content : string
}.

(** A message in the format of the chat endpoint: the dictionary with
    the keys [role] and [content], as the list of its items. *)
Definition message (role content : string) : list (string * string) :=
  [("role"%string, role); ("content"%string, content)].

Definition to_dict (m : ConversationMessage) : list (string * string) :=
  message (role m) (content m).

(** The double quote. *)
Definition dq : string := String (ascii_of_N 34) EmptyString.

Definition create_system_prompt : string :=
  fold_right (fun line acc => line +:+ Py.nl +:+ acc) EmptyString
   [("You are an expert AI tutor for the Physical AI & Humanoid " +:+
       "Robotics textbook. Your role is to help students understand " +:+
       "complex robotics concepts by providing clear, accurate, and " +:+
       "pedagogical explanations.");
    "";
    "GUIDELINES:";
    "1. Answer based PRIMARILY on the provided textbook context";
    ("2. If the context doesn't contain enough information, " +:+
       "acknowledge the limitation and provide general guidance");
    "3. Use analogies and examples to make concepts accessible";
    ("4. When referencing specific information, cite the chunk " +:+
       "number (e.g., " +:+
       dq +:+ "[Chunk 1]" +:+
       dq +:+ ")");
    "5. Be concise but thorough - aim for clarity over verbosity";
    ("6. If asked about topics beyond the textbook scope, " +:+
       "politely redirect to textbook content");
    ("7. Encourage deeper understanding by suggesting related " +:+
       "topics when relevant");
    "";
    "CITATION RULES:";
    ("- When you reference information from a specific chunk, " +:+
       "cite it as [Chunk N]");
    "- You can cite multiple chunks: [Chunk 1, Chunk 3]";
    ("- Citations help students find the source material in the " +:+
       "textbook");
    "";
    "TONE:";
    "- Professional yet approachable";
    "- Patient and encouraging";
    "- Focused on student learning outcomes" ].

(** The parts that the loop of [format_context_for_llm] appends for one
    chunk. A page that is absent or zero is left out. *)
Definition chunk_parts (idx : Z) (chunk : Retrieval.RetrievedChunk)
  : list string :=
  [ Py.nl +:+ "[Chunk " +:+ Py.str idx +:+ "]";
    "Source: " +:+ Retrieval.chapter chunk +:+ " > "
      +:+ Retrieval.section chunk ]
  ++ match Retrieval.page chunk with
     | Some p => if p =? 0 then [] else ["Page: " +:+ Py.str p]
     | None => []
     end
  ++ [ "Content: " +:+ Retrieval.content chunk; EmptyString ].

Definition format_context_for_llm (chunks : list Retrieval.RetrievedChunk)
  : string :=
  match chunks with
  | [] => "No relevant context found in the textbook."
  | _ :: _ =>
      let context_parts :=
        [ "=== TEXTBOOK CONTEXT ===" +:+ Py.nl;
          ("The following excerpts from the Physical AI & Humanoid " +:+
           "Robotics textbook are relevant to the user's question:")
            +:+ Py.nl ] in
      let context_parts :=
        fold_left
          (fun parts ic => parts ++ chunk_parts (Z.of_nat ic.1) ic.2)
          (Py.enumerate_from 1 chunks) context_parts in
      let context_parts := context_parts ++ ["=== END CONTEXT ===" +:+ Py.nl] in
      Py.join Py.nl context_parts
  end.

Definition build_conversation_history (messages : list (string * string))
    (max_history : Z) : list ConversationMessage :=
  let recent_messages :=
    if Z.of_nat (length messages) >? max_history
    then Py.slice_from (- max_history) messages
    else messages in
  map (fun rc => mkMessage rc.1 rc.2) recent_messages.

Definition create_user_prompt (query context : string)
    (selected_text : option string) : string :=
  let prompt_parts := [context] in
  let prompt_parts :=
    match selected_text with
    | Some t =>
        if Py.truthy t then
          prompt_parts ++
          [ Py.nl +:+ "=== USER-SELECTED TEXT ==="; t;
            "=== END SELECTED TEXT ===" +:+ Py.nl ]
        else prompt_parts
    | None => prompt_parts
    end in
  let prompt_parts := prompt_parts ++ ["STUDENT QUESTION: " +:+ query] in
  Py.join Py.nl prompt_parts.

(** [prepare_llm_messages]; the history is built with the default
    [max_history = 5]. *)
Definition prepare_llm_messages (query : string)
    (chunks : list Retrieval.RetrievedChunk)
    (conversation_history : option (list (string * string)))
    (selected_text : option string) : list (list (string * string)) :=
  let messages := [message "system" create_system_prompt] in
  let messages :=
    match conversation_history with
    | Some (m :: ms) =>
        messages ++ map to_dict (build_conversation_history (m :: ms) 5)
    | _ => messages
    end in
  let context := format_context_for_llm chunks in
  let user_prompt := create_user_prompt query context selected_text in
  messages ++ [message "user" user_prompt].

(** The loop of [optimize_context_for_token_budget], which stops at the
    first chunk that does not fit. *)
Fixpoint budget_loop (max_chars : Z) (chunks : list Retrieval.RetrievedChunk)
    (optimized_chunks : list Retrieval.RetrievedChunk) (total_chars : Z)
  : list Retrieval.RetrievedChunk :=
  match chunks with
  | [] => optimized_chunks
  | chunk :: rest =>
      let chunk_chars := Py.len (Retrieval.content chunk) + 200 in
      if total_chars + chunk_chars <=? max_chars
      then budget_loop max_chars rest (optimized_chunks ++ [chunk])
             (total_chars + chunk_chars)
      else optimized_chunks
  end.

Definition optimize_context_for_token_budget
    (chunks : list Retrieval.RetrievedChunk) (max_tokens : Z)
  : list Retrieval.RetrievedChunk :=
  let chars_per_token := 4 in
  let max_chars := max_tokens * chars_per_token in
  budget_loop max_chars chunks [] 0.

Section WithPipeline.

(** The retriever of the pipeline, as in [HybridRetriever], and
    [settings.rerank_top_n]. *)
Variable search :
  Embeddings.embedding -> option (list (string * string)) -> Z -> R ->
  result (list HybridRetriever.ScoredPoint).
Variable scroll :
  option (list (string * string)) -> result (list Retrieval.Point).
Variable embedding_generator : Embeddings.EmbeddingGenerator.
Variable create : nat -> list string -> Embeddings.api_outcome.
Variable set_iter : gset Retrieval.UUID -> list Retrieval.UUID.
Variable settings_retrieval_top_k : Z.
Variable rerank_top_n : Z.

Definition retrieve_context (cache : gmap string Embeddings.embedding)
    (query : string) (selected_text : option string)
    (chapter_filter section_filter : option string) (top_k : option Z)
  : result (list Retrieval.RetrievedChunk
            * gmap string Embeddings.embedding) :=
  let top_k := default rerank_top_n top_k in
  let enhanced_query :=
    match selected_text with
    | Some t =>
        if Py.truthy t
        then t +:+ Py.nl +:+ Py.nl +:+ "Question: " +:+ query
        else query
    | None => query
    end in
  HybridRetriever.retrieve search scroll embedding_generator create set_iter
    settings_retrieval_top_k cache enhanced_query top_k None chapter_filter
    section_filter true 0.

(** [process_query]: the messages, the chunks, and the embedding cache
    after the call. The budget is the default of 4000 tokens. *)
Definition process_query (cache : gmap string Embeddings.embedding)
    (query : string) (selected_text : option string)
    (conversation_history : option (list (string * string)))
    (chapter_filter section_filter : option string) (optimize_tokens : bool)
  : result (list (list (string * string))
            * list Retrieval.RetrievedChunk
            * gmap string Embeddings.embedding) :=
  cc ← retrieve_context cache query selected_text chapter_filter
         section_filter None;
  let chunks :=
    if optimize_tokens then optimize_context_for_token_budget cc.1 4000
    else cc.1 in
  let messages :=
    prepare_llm_messages query chunks conversation_history selected_text in
  Ok (messages, chunks, cc.2).

End WithPipeline.

End Rag.

(** ** [src/ingestion/pipeline.py]: [IngestionPipeline._store_in_qdrant] *)

Module Pipeline.
Import Chunker.

Record PointStruct : Type := mkPointStruct {
  id : string;
  vector : Embeddings.embedding;
  payload : list (string * MetaValue)
}.

(** [d.get(key, default)] on a dictionary kept as the list of its
    items. *)
Definition get (d : list (string * MetaValue)) (key : string)
    (default : MetaValue) : MetaValue :=
  match find (fun kv => String.eqb kv.1 key) d with
  | Some kv => kv.2
  | None => default
  end.

Section WithClient.

(** The collection of the vector index and the client's [upsert] on
    it. *)
Variable collection : Type.
Variable upsert : collection -> list PointStruct -> result collection.

(** [str(uuid.uuid4())] and [datetime.utcnow().isoformat()] as they
    come out at each iteration of the first loop. *)
Variable uuid4 : nat -> string.
Variable utcnow : nat -> string.

Definition point_of (i : nat) (chunk : ContentChunk)
    (embedding : Embeddings.embedding) : PointStruct :=
  let point_id := uuid4 i in
  mkPointStruct point_id embedding
    [ ("text"%string, MStr (text chunk));
      ("chapter"%string, get (metadata chunk) "chapter" (MStr ""));
      ("title"%string, get (metadata chunk) "title" (MStr ""));
      ("section"%string, get (metadata chunk) "section" (MStr ""));
      ("heading_path"%string,
        get (metadata chunk) "heading_path" (MStr ""));
      ("url"%string, get (metadata chunk) "url" (MStr ""));
      ("description"%string, get (metadata chunk) "description" (MStr ""));
      ("keywords"%string, get (metadata chunk) "keywords" (MList []));
      ("source_file"%string, MStr (source_file chunk));
      ("chunk_index"%string, get (metadata chunk) "chunk_index" (MInt 0));
      ("token_count"%string, MInt (token_count chunk));
      ("line_start"%string, MInt (line_start chunk));
      ("line_end"%string, MInt (line_end chunk));
      ("created_at"%string, MStr (utcnow i)) ].

(** The body of the upload loop: the collection and [total_stored]. *)
Definition upload_step (points : list PointStruct)
    (st : collection * Z) (batch_start : nat) : result (collection * Z) :=
  let batch_size := 100 in
  let batch_end :=
    Z.to_nat (Z.min (Z.of_nat batch_start + batch_size)
                    (Z.of_nat (length points))) in
  let batch := drop batch_start (take batch_end points) in
  c ← upsert st.1 batch;
  Ok (c, st.2 + Z.of_nat (length batch)).

(** [_store_in_qdrant]: the collection after the uploads and the number
    of points stored. *)
Definition _store_in_qdrant (c : collection) (chunks : list ContentChunk)
    (embeddings : list Embeddings.embedding) : result (collection * Z) :=
  if negb (length chunks =? length embeddings)%nat then Raise ValueError
  else
    let points :=
      map (fun ice : nat * (ContentChunk * Embeddings.embedding) =>
             point_of ice.1 ice.2.1 ice.2.2)
          (Py.enumerate (Py.zip chunks embeddings)) in
    starts ← Embeddings.range_step (length points) 100;
    Py.for_each (upload_step points) starts (c, 0).

End WithClient.

End Pipeline.

(** ** Sample inputs *)

Module Samples.
Import Chunker.

(** A stand-in for a tiktoken encoding, used to run the chunker on
    concrete texts: every character is one token, and decoding gives the
    characters back. *)

Fixpoint char_encode (s : string) : list token :=
  match s with
  | EmptyString => []
  | String c r => Z.of_N (N_of_ascii c) :: char_encode r
  end.

Fixpoint char_decode (l : list token) : string :=
  match l with
  | [] => EmptyString
  | t :: r => String (ascii_of_N (Z.to_N t)) (char_decode r)
  end.

Definition char_tokenizer : Tokenizer := mkTokenizer char_encode char_decode.

Definition get_char_encoding (name : string) : option Tokenizer :=
  Some char_tokenizer.

Definition plain_document (ss : list Parser.Section_)
  : Parser.ParsedDocument :=
  Parser.mkDocument "book.mdx" [] ss "Book" "Chapter 1" "" [] "/docs/book".

Definition plain_section (h : string) (l : Z) (body : string)
  : Parser.Section_ :=
  Parser.mkSection h l body 0 10 [].

Definition nl2 : string := Chunker.paragraph_sep.

Definition small_section : Parser.Section_ :=
  plain_section "Intro" 1 "Hello world".

Definition forced_section : Parser.Section_ :=
  plain_section "Body" 1 ("abcd" +:+ nl2 +:+ "efghijkl" +:+ nl2 +:+ "mnop").

Definition overlap_section : Parser.Section_ :=
  plain_section "Body" 1 ("abc def" +:+ nl2 +:+ "ghijklm").

Definition sample_points : list Retrieval.Point :=
  [ Retrieval.mkPoint 1%N
      (Retrieval.mkPayload (Some "the robot arm moves") (Some "Kinematics")
         (Some "Arms") None (Some "/docs/arms"));
    Retrieval.mkPoint 2%N
      (Retrieval.mkPayload (Some "a gripper closes") (Some "Kinematics")
         (Some "Grippers") (Some 3) (Some "/docs/grippers"));
    Retrieval.mkPoint 3%N
      (Retrieval.mkPayload (Some "robot robot arm arm") (Some "Control")
         (Some "Arms") None (Some "/docs/control")) ].

Definition sample_scroll (query_filter : option (list (string * string)))
  : result (list Retrieval.Point) :=
  Ok sample_points.

(** A store with the chunks of two result lists: the objects 0, 1, 2 are
    the vector results with identifiers 10, 11, 12 and the objects 3, 4,
    5 are the BM25 results with identifiers 12, 10, 13. *)
Definition sample_chunk (x : Retrieval.UUID) (s : R)
  : Retrieval.RetrievedChunk :=
  Retrieval.mkRetrieved x "text" s "Kinematics" "Arms" None "/docs/arms"
    (Retrieval.mkPayload (Some "text") (Some "Kinematics") (Some "Arms")
       None (Some "/docs/arms")).

Definition sample_store : Retrieval.store :=
  fun r =>
    match r with
    | 0%nat => sample_chunk 10%N (9 / 10)
    | 1%nat => sample_chunk 11%N (8 / 10)
    | 2%nat => sample_chunk 12%N (7 / 10)
    | 3%nat => sample_chunk 12%N 5
    | 4%nat => sample_chunk 10%N 4
    | _ => sample_chunk 13%N 3
    end.

(** A generator with batches of two texts, a provider that answers every
    call with one vector per text, and a cache that knows one text. *)
Definition sample_generator : Embeddings.EmbeddingGenerator :=
  Embeddings.mkGenerator 2 3 true.

Definition sample_embed (t : string) : Embeddings.embedding :=
  [INR (String.length t)].

Definition sample_create (attempt : nat) (ts : list string)
  : Embeddings.api_outcome :=
  Embeddings.Response (map sample_embed ts).

Definition sample_cache : gmap string Embeddings.embedding :=
  {[ "bb" := [7%R] ]}.

(** A provider that is rate-limited at its first two attempts and
    answers the third. *)
Definition flaky_create (attempt : nat) (ts : list string)
  : Embeddings.api_outcome :=
  if (attempt <? 2)%nat then Embeddings.RateLimited
  else Embeddings.Response (map sample_embed ts).

(** A generator without cache, and generators whose batch size is not
    positive. *)
Definition plain_generator : Embeddings.EmbeddingGenerator :=
  Embeddings.mkGenerator 2 3 false.

Definition zero_batch_generator : Embeddings.EmbeddingGenerator :=
  Embeddings.mkGenerator 0 3 true.

Definition negative_batch_generator : Embeddings.EmbeddingGenerator :=
  Embeddings.mkGenerator (-1) 3 true.

(** The answer of the vector index to a similarity search: two of the
    sample points with their similarity scores. *)
Definition sample_search (query_vector : Embeddings.embedding)
    (query_filter : option (list (string * string))) (limit : Z)
    (score_threshold : R) : result (list HybridRetriever.ScoredPoint) :=
  Ok [ HybridRetriever.mkScored 3%N
         (Retrieval.mkPayload (Some "robot robot arm arm") (Some "Control")
            (Some "Arms") None (Some "/docs/control")) (9 / 10);
       HybridRetriever.mkScored 2%N
         (Retrieval.mkPayload (Some "a gripper closes") (Some "Kinematics")
            (Some "Grippers") (Some 3) (Some "/docs/grippers")) (8 / 10) ].

(** A section whose first paragraph alone has six tokens. *)
Definition long_first_section : Parser.Section_ :=
  plain_section "Body" 1 ("abcdef" +:+ nl2 +:+ "x").

(** A text with two headings and a code block. *)
Definition sample_markdown : string :=
  Py.join Py.nl
    [ "# Guide"; "Welcome."; "## Setup"; "```sh"; "make"; "```"; "Done." ].

End Samples.

(** ** The properties of the design document, as predicates *)

Module Spec.
Import Chunker.

(** The heading path grows strictly in level from the root to the
    leaf. *)
Definition strictly_increasing (stack : list (Z * string)) : Prop :=
  StronglySorted (fun a b => a.1 < b.1) stack.

(** The heading stack that [chunk_document] holds when it has processed
    the first [n] sections of the document. *)
Definition path_after (self : SemanticChunker)
    (document : Parser.ParsedDocument) (n : nat) : list (Z * string) :=
  snd (document_loop self document (take n (Parser.sections document))).

(** A section that does not fit in one chunk. *)
Definition oversized (self : SemanticChunker) (section : Parser.Section_)
  : Prop :=
  max_chunk_size self < count_tokens self (Parser.content section).

(** The size invariant of the design document for the chunks of one
    section: every token count is at most the maximum, and at least the
    minimum unless the chunk is the last one of an oversized section. *)
Definition sizes_within_bounds (self : SemanticChunker)
    (section : Parser.Section_) (cs : list ContentChunk) : Prop :=
  forall i ck, cs !! i = Some ck ->
    token_count ck <= max_chunk_size self /\
    (min_chunk_size self <= token_count ck \/
     (oversized self section /\ S i = length cs)).


(** The bounds that the design document requires of a configuration. *)
Definition valid_bounds (min_chunk_size max_chunk_size overlap_size : Z)
  : Prop :=
  min_chunk_size < max_chunk_size /\ overlap_size < min_chunk_size.

(** Descending and ascending order of keys. *)
Definition desc {A : Type} (key : A -> R) : relation A :=
  fun a b => (key b <= key a)%R.

Definition asc {A : Type} (key : A -> nat) : relation A :=
  fun a b => (key a <= key b)%nat.

(** [next] is a buffer seeded with the overlap taken from [prev]. *)
Definition seeded_from (self : SemanticChunker) (prev next : string)
  : Prop :=
  exists rest,
    next = _get_overlap_text self prev +:+ paragraph_sep +:+ rest.

(** [buffers] are the successive loop buffers from which the chunks
    [cs] were cut, each seeded from the one before. *)
Definition cut_from (self : SemanticChunker) (buffers : list string)
    (cs : list ContentChunk) : Prop :=
  map text cs = map Py.strip buffers /\
  forall i prev next,
    buffers !! i = Some prev -> buffers !! S i = Some next ->
    seeded_from self prev next.

(** The claim that construction rejects invalid bounds. *)
Definition construction_rejects
    (get_encoding : string -> option Tokenizer)
    (min_chunk_size max_chunk_size overlap_size : Z) (name : string)
  : Prop :=
  ~ valid_bounds min_chunk_size max_chunk_size overlap_size ->
  exists e,
    __init__ get_encoding min_chunk_size max_chunk_size overlap_size name
    = Raise e.

(** The inverse document frequency of the design document for a term
    found in [d] of [num_docs] documents. *)
Definition idf_value (num_docs d : nat) : R :=
  ln ((INR num_docs - INR d + 1 / 2) / (INR d + 1 / 2) + 1).

(** The fused score of the identifier [x]: the term of the vector list,
    then the term of the BM25 list, each present only if the list ranks
    [x]. *)
Definition rrf_value (vector_ranks bm25_ranks : gmap Retrieval.UUID nat)
    (k : Z) (x : Retrieval.UUID) : R :=
  let s := match vector_ranks !! x with
           | Some rank => (0 + 1 / IZR (k + Z.of_nat rank))%R
           | None => 0%R
           end in
  match bm25_ranks !! x with
  | Some rank => (s + 1 / IZR (k + Z.of_nat rank))%R
  | None => s
  end.

(** The identifiers of a list of chunk objects in a store. *)
Definition ids (h : Retrieval.store) (l : list Retrieval.ref)
  : list Retrieval.UUID :=
  (fun r => Retrieval.chunk_id (h r)) <$> l.

(** The order in which a set is iterated lists every member once. *)
Definition iteration_order
  (set_iter : gset Retrieval.UUID -> list Retrieval.UUID)
  : Prop :=
  forall X, NoDup (set_iter X) /\ forall x, x ∈ set_iter X <-> x ∈ X.

(** Two chunk objects agree on every field but the score. *)
Definition same_but_score (c c' : Retrieval.RetrievedChunk) : Prop :=
  Retrieval.chunk_id c' = Retrieval.chunk_id c /\
  Retrieval.content c' = Retrieval.content c /\
  Retrieval.chapter c' = Retrieval.chapter c /\
  Retrieval.section c' = Retrieval.section c /\
  Retrieval.page c' = Retrieval.page c /\
  Retrieval.url c' = Retrieval.url c /\
  Retrieval.metadata c' = Retrieval.metadata c.

(** The items of [rrf_scores] after sorting, and the object that
    [chunk_map] holds for an item. *)
Definition fused_items (set_iter : gset Retrieval.UUID -> list Retrieval.UUID)
    (h : Retrieval.store) (vs bs : list Retrieval.ref) (k : Z)
  : list (Retrieval.UUID * R) :=
  Py.sort_desc snd
    (map (fun x => (x, rrf_value (Retrieval.rank_map h vs)
                         (Retrieval.rank_map h bs) k x))
         (set_iter (dom (Retrieval.rank_map h vs)
                    ∪ dom (Retrieval.rank_map h bs)))).

Definition fused_ref (h : Retrieval.store) (vs bs : list Retrieval.ref)
    (item : Retrieval.UUID * R) : Retrieval.ref :=
  default 0%nat (Retrieval.chunk_map_of h vs bs !! item.1).

(** The first loop of [generate_embeddings_batch] splits the enumerated
    texts into the cache hits, paired with the cached vector, and the
    misses. *)
Definition cache_hits (self : Embeddings.EmbeddingGenerator)
    (cache : gmap string Embeddings.embedding) (its : list (nat * string))
  : list (nat * Embeddings.embedding) :=
  omap (fun it => match Embeddings.cache_get self cache it.2 with
                  | Some e => Some (it.1, e)
                  | None => None
                  end) its.

Definition cache_misses (self : Embeddings.EmbeddingGenerator)
    (cache : gmap string Embeddings.embedding) (its : list (nat * string))
  : list (nat * string) :=
  omap (fun it => match Embeddings.cache_get self cache it.2 with
                  | Some _ => None
                  | None => Some it
                  end) its.


(** The characters of a string that are not white space, in order. *)
Definition nonspace (s : string) : list ascii :=
  List.filter (fun c => negb (Py.is_space c)) (list_ascii_of_string s).

(** The chunk [ck] was made from [section] of [document]: it carries
    the document's file and the section's lines, and its heading path
    ends with the section's heading. *)
Definition chunk_from (document : Parser.ParsedDocument)
    (section : Parser.Section_) (ck : ContentChunk) : Prop :=
  source_file ck = Parser.file_path document /\
  line_start ck = Parser.line_start section /\
  line_end ck = Parser.line_end section /\
  last (heading_path ck) = Some (Parser.heading section).

(** The size that [optimize_context_for_token_budget] estimates for a
    list of chunks: the characters of the contents and 200 more per
    chunk. *)
Definition estimated_chars (chunks : list Retrieval.RetrievedChunk) : Z :=
  fold_right (fun c acc => Py.len (Retrieval.content c) + 200 + acc) 0 chunks.

(** The successive batches of at most [n] elements of a list; [fuel]
    bounds their number. *)
Fixpoint batches_of {A : Type} (fuel n : nat) (l : list A) : list (list A) :=
  match fuel with
  | O => []
  | S f =>
      match l with
      | [] => []
      | _ :: _ => take n l :: batches_of f n (drop n l)
      end
  end.

End Spec.

(* ===================================================================== *)
(** * Part II: properties                                                 *)
(* ===================================================================== *)

(** ** Sorting *)

Lemma sublist_StronglySorted {A : Type} (R : relation A) l1 l2 :
  l1 `sublist_of` l2 -> StronglySorted R l2 -> StronglySorted R l1.
Proof.
  induction 1 as [|x l1 l2 Hsub IH|x l1 l2 Hsub IH]; intros Hs.
  - constructor.
  - apply StronglySorted_cons in Hs as [Hx Hs].
    constructor; [by apply IH|].
    apply Forall_forall. intros y Hy.
    rewrite Forall_forall in Hx. apply Hx.
    by eapply elem_of_sublist.
  - apply StronglySorted_cons in Hs as [_ Hs]. by apply IH.
Qed.

Section SortDescFacts.
Context {A : Type} (key : A -> R).

Lemma insert_desc_perm x l : Py.insert_desc key x l ≡ₚ x :: l.
Proof.
  induction l as [|y r IH]; simpl; [done|].
  destruct (Rle_dec (key y) (key x)); [done|].
  rewrite IH. apply Permutation_swap.
Qed.

Lemma sort_desc_perm l : Py.sort_desc key l ≡ₚ l.
Proof.
  induction l as [|x r IH]; simpl; [done|].
  by rewrite insert_desc_perm, IH.
Qed.

Lemma insert_desc_sorted x l :
  StronglySorted (Spec.desc key) l ->
  StronglySorted (Spec.desc key) (Py.insert_desc key x l).
Proof.
  induction 1 as [|y r Hr IH Hy]; simpl.
  - repeat constructor.
  - destruct (Rle_dec (key y) (key x)) as [Hle|Hgt].
    + constructor; [by constructor|].
      constructor; [exact Hle|].
      eapply Forall_impl; [exact Hy|].
      unfold Spec.desc. intros z Hz. simpl in Hz. lra.
    + constructor; [exact IH|].
      rewrite insert_desc_perm. constructor; [|exact Hy].
      unfold Spec.desc. lra.
Qed.

Lemma sort_desc_sorted l : StronglySorted (Spec.desc key) (Py.sort_desc key l).
Proof.
  induction l as [|x r IH]; simpl; [constructor|].
  by apply insert_desc_sorted.
Qed.
End SortDescFacts.

Section SortAscFacts.
Context {A : Type} (key : A -> nat).




End SortAscFacts.

(** ** Loops that may raise *)

Lemma for_each_app {S A : Type} (body : S -> A -> result S) l1 l2 st :
  Py.for_each body (l1 ++ l2) st =
  match Py.for_each body l1 st with
  | Ok st' => Py.for_each body l2 st'
  | Raise e => Raise e
  end.
Proof.
  revert st. induction l1 as [|x r IH]; intros st; simpl; [done|].
  destruct (body st x); [apply IH|done].
Qed.

(** A loop that appends one computed item per element builds the image of
    the list. *)
Lemma for_each_collect {A B : Type} (body : list B -> A -> result (list B))
    (f : A -> B) l acc :
  (forall acc x, x ∈ l -> body acc x = Ok (acc ++ [f x])) ->
  Py.for_each body l acc = Ok (acc ++ map f l).
Proof.
  revert acc. induction l as [|x r IH]; intros acc Hg; simpl.
  - by rewrite app_nil_r.
  - rewrite (Hg acc x) by left. rewrite IH.
    + by rewrite <- app_assoc.
    + intros acc' y Hy. apply Hg. by right.
Qed.

(** ** The heading path *)

Section HeadingPath.
Import Parser Chunker Spec.

Lemma strictly_increasing_snoc stack e :
  strictly_increasing (stack ++ [e]) <->
  strictly_increasing stack /\ Forall (fun a => a.1 < e.1) stack.
Proof.
  unfold strictly_increasing. rewrite StronglySorted_app, Forall_forall.
  split.
  - intros (Hlt & Hs & _). split; [done|].
    intros a Ha. apply Hlt; [done|]. by apply list_elem_of_singleton.
  - intros (Hs & Hlt). split_and!; [|done|repeat constructor].
    intros a b' Ha Hb. apply list_elem_of_singleton in Hb as ->. by apply Hlt.
Qed.

(** On a strictly increasing stack, popping from the top while the top
    is at least as deep as [lvl] leaves exactly the entries above
    [lvl]. *)
Lemma pop_deeper_filter lvl stack :
  strictly_increasing stack ->
  rev (pop_deeper lvl (rev stack)) = filter (fun e => e.1 < lvl) stack.
Proof.
  induction stack as [|e stack IH] using rev_ind; intros Hs; [done|].
  apply strictly_increasing_snoc in Hs as [Hs Hlt].
  rewrite rev_unit, filter_app. destruct e as [l h]. simpl.
  destruct (Z.geb_spec l lvl) as [Hge|Hlow].
  - rewrite IH by done.
    rewrite filter_cons_False by (simpl; lia).
    by rewrite filter_nil, app_nil_r.
  - simpl. rewrite rev_involutive.
    rewrite filter_cons_True by (simpl; lia). rewrite filter_nil.
    f_equal. symmetry. clear IH Hs.
    induction Hlt as [|a r Ha Hr IHr]; [done|].
    rewrite filter_cons_True by (simpl in *; lia). by f_equal.
Qed.

Lemma update_heading_stack_spec stack section :
  strictly_increasing stack ->
  _update_heading_stack stack section
  = filter (fun e => e.1 < level section) stack
      ++ [(level section, heading section)]
  /\ strictly_increasing (_update_heading_stack stack section).
Proof.
  intros Hs. unfold _update_heading_stack.
  rewrite pop_deeper_filter by done. split; [done|].
  apply strictly_increasing_snoc. split.
  - unfold strictly_increasing.
    eapply sublist_StronglySorted; [apply sublist_filter|done].
  - apply Forall_forall. intros a Ha.
    apply list_elem_of_filter in Ha as [Ha _]. exact Ha.
Qed.

Lemma document_loop_snoc self document ss section :
  document_loop self document (ss ++ [section])
  = document_step self document (document_loop self document ss) section.
Proof. unfold document_loop. by rewrite fold_left_app. Qed.

Lemma document_loop_stack_increasing self document ss :
  strictly_increasing (document_loop self document ss).2.
Proof.
  induction ss as [|section ss IH] using rev_ind.
  - constructor.
  - rewrite document_loop_snoc. simpl.
    by apply update_heading_stack_spec.
Qed.

End HeadingPath.

(** ** Construction of the chunker *)

Section Construction.
Import Chunker Spec.

(** C3, as amended. [__init__] stores the three bounds as given without
    checking them: whatever their values, construction succeeds as soon
    as the requested encoding or the fallback encoding loads, and the
    only exception it can raise is the failure to load both. *)
Theorem init_stores_bounds_unchecked
    (get_encoding : string -> option Tokenizer)
    (mn mx ov : Z) (name : string) :
  (forall t, get_encoding name = Some t ->
     __init__ get_encoding mn mx ov name = Ok (mkChunker mn mx ov t)) /\
  (forall t, get_encoding name = None ->
     get_encoding "cl100k_base" = Some t ->
     __init__ get_encoding mn mx ov name = Ok (mkChunker mn mx ov t)) /\
  (forall e, __init__ get_encoding mn mx ov name = Raise e ->
     e = TokenizerError /\ get_encoding name = None /\
     get_encoding "cl100k_base" = None).
Proof.
  unfold __init__. split_and!.
  - by intros t ->.
  - by intros t -> ->.
  - intros e. destruct (get_encoding name); [done|].
    destruct (get_encoding "cl100k_base"); [done|].
    by intros [= <-].
Qed.

End Construction.

(** ** Chunk sizes *)

Section ChunkSizes.
Import Parser Chunker Spec.
Variable self : SemanticChunker.
Variable heading_path : list string.
Variable document : ParsedDocument.
Variable section : Section_.

Lemma split_loop_snoc ps p :
  split_loop self heading_path document section (ps ++ [p])
  = split_step self heading_path document section
      (split_loop self heading_path document section ps) p.
Proof. unfold split_loop. by rewrite fold_left_app. Qed.

(** Every chunk that the loop has closed was closed from the buffer of
    an earlier iteration whose running token counter had reached the
    minimum. *)
Lemma split_loop_chunks ps :
  Forall
    (fun ck =>
       token_count ck = count_tokens self (text ck) /\
       exists n, (n <= length ps)%nat /\
         let st := split_loop self heading_path document section
                     (take n ps) in
         text ck = Py.strip (current_chunk_text st) /\
         min_chunk_size self <= current_tokens st)
    (chunks (split_loop self heading_path document section ps)).
Proof.
  induction ps as [|p ps IH] using rev_ind; [constructor|].
  rewrite split_loop_snoc.
  assert (Hold :
    Forall
      (fun ck =>
         token_count ck = count_tokens self (text ck) /\
         exists n, (n <= length (ps ++ [p]))%nat /\
           let st := split_loop self heading_path document section
                       (take n (ps ++ [p])) in
           text ck = Py.strip (current_chunk_text st) /\
           min_chunk_size self <= current_tokens st)
      (chunks (split_loop self heading_path document section ps))).
  { eapply Forall_impl; [exact IH|].
    intros ck (Htc & n & Hn & Ht). split; [done|].
    exists n. rewrite length_app. split; [lia|].
    by rewrite take_app_le. }
  unfold split_step.
  destruct (_ >? _); [|exact Hold].
  destruct (Z.geb_spec
              (current_tokens
                 (split_loop self heading_path document section ps))
              (min_chunk_size self)) as [Hge|Hlt]; [|exact Hold].
  simpl. apply Forall_app. split; [exact Hold|].
  constructor; [|constructor]. split; [done|].
  exists (length ps). rewrite length_app. split; [lia|].
  rewrite take_app_length. simpl. split; [done|lia].
Qed.

Lemma split_flush_lookup st i ck :
  split_flush self heading_path document section st !! i = Some ck ->
  (S i < length (split_flush self heading_path document section st))%nat ->
  chunks st !! i = Some ck.
Proof.
  unfold split_flush. destruct (Py.truthy _).
  - rewrite length_app. simpl. intros Hl Hi.
    rewrite lookup_app_l in Hl by lia. exact Hl.
  - done.
Qed.

Lemma split_flush_token_count st :
  Forall (fun ck => token_count ck = count_tokens self (text ck))
         (chunks st) ->
  Forall (fun ck => token_count ck = count_tokens self (text ck))
         (split_flush self heading_path document section st).
Proof.
  intros H. unfold split_flush. destruct (Py.truthy _); [|done].
  apply Forall_app. split; [done|]. by repeat constructor.
Qed.

End ChunkSizes.

Section ChunkSizesTheorem.
Import Parser Chunker Spec.

(** C1, as amended. Every chunk records the token count of its own
    text. A section that fits ([count_tokens content <= max_chunk_size])
    yields exactly one chunk, the whole section, whose token count is at
    most [max_chunk_size] (and may be below [min_chunk_size]). In an
    oversized section every chunk but the last was closed from a loop
    buffer whose running token counter had reached [min_chunk_size];
    its text is that buffer, stripped. *)
Theorem chunk_section_sizes
    (self : SemanticChunker) (section : Section_)
    (heading_path : list (Z * string)) (document : ParsedDocument) :
  let cs := _chunk_section self section heading_path document in
  let paragraphs := _split_into_paragraphs (content section) in
  (forall ck, ck ∈ cs -> token_count ck = count_tokens self (text ck)) /\
  (~ oversized self section ->
     cs = [_create_chunk self (content section) (map snd heading_path)
             document section 0] /\
     forall ck, ck ∈ cs -> token_count ck <= max_chunk_size self) /\
  (oversized self section ->
     forall i ck, cs !! i = Some ck -> (S i < length cs)%nat ->
       exists n,
         let st := split_loop self (map snd heading_path) document section
                     (take n paragraphs) in
         text ck = Py.strip (current_chunk_text st) /\
         min_chunk_size self <= current_tokens st).
Proof.
  intros cs paragraphs. subst cs paragraphs.
  unfold _chunk_section, oversized.
  destruct (Z.leb_spec (count_tokens self (content section))
                       (max_chunk_size self)) as [Hfit|Hbig].
  - split_and!.
    + intros ck Hck. apply list_elem_of_singleton in Hck as ->. done.
    + intros _. split; [done|].
      intros ck Hck. apply list_elem_of_singleton in Hck as ->. done.
    + intros Hbig. lia.
  - unfold _split_large_section.
    pose proof (split_loop_chunks self (map snd heading_path) document
                  section (_split_into_paragraphs (content section)))
      as Hchunks.
    split_and!.
    + apply Forall_forall, split_flush_token_count.
      eapply Forall_impl; [exact Hchunks|]. by intros ck [? _].
    + intros Hfit. lia.
    + intros _ i ck Hl Hi.
      apply split_flush_lookup in Hl; [|done].
      rewrite Forall_forall in Hchunks.
      destruct (Hchunks ck) as (_ & n & _ & Hn).
      { by eapply list_elem_of_lookup_2. }
      by exists n.
Qed.

End ChunkSizesTheorem.

(** ** Overlap between consecutive chunks *)

Lemma string_app_assoc (a b c : string) : (a +:+ b) +:+ c = a +:+ b +:+ c.
Proof.
  induction a as [|x a IH]; [done|].
  change (String x ((a +:+ b) +:+ c) = String x (a +:+ b +:+ c)).
  by rewrite IH.
Qed.

Section Overlap.
Import Parser Chunker Spec.
Variable self : SemanticChunker.
Variable heading_path : list string.
Variable document : ParsedDocument.
Variable section : Section_.

Lemma seeded_from_extend prev next more :
  seeded_from self prev next -> seeded_from self prev (next +:+ more).
Proof.
  intros [rest ->]. exists (rest +:+ more).
  by rewrite !string_app_assoc.
Qed.

Lemma cut_from_snoc buffers cs buffer ck :
  cut_from self buffers cs ->
  (forall prev, last buffers = Some prev -> seeded_from self prev buffer) ->
  text ck = Py.strip buffer ->
  cut_from self (buffers ++ [buffer]) (cs ++ [ck]).
Proof.
  intros [Htext Hseed] Hlast Hck. split.
  - rewrite !map_app, Htext. simpl. by rewrite Hck.
  - intros i prev next Hi HSi.
    apply lookup_snoc_Some in HSi as [[HSi Hnext]|[HSi ->]].
    + rewrite lookup_app_l in Hi by lia. by eapply Hseed.
    + apply Hlast. rewrite last_lookup.
      rewrite lookup_app_l in Hi by lia.
      replace (Init.Nat.pred (length buffers)) with i by lia. exact Hi.
Qed.

(** The loop invariant: the chunks closed so far were cut from a chain
    of buffers, and the current buffer is seeded from the last of
    them. *)
Lemma split_loop_cut_from ps :
  let st := split_loop self heading_path document section ps in
  exists buffers,
    cut_from self buffers (chunks st) /\
    forall prev, last buffers = Some prev ->
      seeded_from self prev (current_chunk_text st).
Proof.
  induction ps as [|p ps IH] using rev_ind.
  - exists []. split; [|done]. split; [done|]. by intros i ? ? [=].
  - simpl in *. rewrite split_loop_snoc.
    destruct IH as (buffers & Hcut & Hlast).
    unfold split_step.
    destruct (_ >? _).
    + destruct (_ >=? _); simpl.
      * exists (buffers ++ [current_chunk_text
                   (split_loop self heading_path document section ps)]).
        split; [by apply cut_from_snoc|].
        intros prev. rewrite last_snoc. intros [= <-]. by eexists.
      * exists buffers. split; [done|].
        intros prev Hprev. by apply seeded_from_extend, Hlast.
    + simpl. exists buffers. split; [done|].
      intros prev Hprev. specialize (Hlast prev Hprev).
      destruct (Py.truthy _) eqn:Htruthy.
      * by apply seeded_from_extend.
      * destruct Hlast as [rest Hrest]. rewrite Hrest in Htruthy.
        unfold paragraph_sep in Htruthy.
        destruct (_get_overlap_text self prev); discriminate.
Qed.

Lemma split_large_section_cut_from :
  exists buffers,
    cut_from self buffers
      (split_flush self heading_path document section
         (split_loop self heading_path document section
            (_split_into_paragraphs (content section)))).
Proof.
  destruct (split_loop_cut_from (_split_into_paragraphs (content section)))
    as (buffers & Hcut & Hlast).
  unfold split_flush. destruct (Py.truthy _).
  - eexists. by apply cut_from_snoc.
  - by exists buffers.
Qed.

End Overlap.

Section OverlapTheorem.
Import Parser Chunker Spec.


End OverlapTheorem.

(** ** The chunker on concrete inputs *)

Section ChunkerExamples.
Import Parser Chunker Spec Samples.

(** C3 fails as stated: bounds with [min >= max] and [overlap >= min]
    are accepted. *)
Lemma init_accepts_invalid_bounds :
  ~ construction_rejects get_char_encoding 600 400 500 "cl100k_base".
Proof.
  intros Hreject. destruct Hreject as [e He].
  - unfold valid_bounds. lia.
  - discriminate He.
Qed.

(** C1 fails as stated. With the default bounds a short section that
    is not oversized yields one chunk below the minimum; and in an
    oversized section a paragraph appended to a buffer still below the
    minimum yields a chunk above the maximum that is not the last. *)
Lemma chunk_sizes_out_of_bounds :
  (let self := mkChunker 400 600 50 char_tokenizer in
   min_chunk_size self < max_chunk_size self /\
   ~ sizes_within_bounds self small_section
       (_chunk_section self small_section [] (plain_document [])))
  /\
  (let self := mkChunker 5 10 2 char_tokenizer in
   min_chunk_size self < max_chunk_size self /\
   ~ sizes_within_bounds self forced_section
       (_chunk_section self forced_section [] (plain_document []))).
Proof.
  split; simpl; (split; [lia|]); intros H.
  - destruct (H 0%nat _ eq_refl) as [_ [Hmin|[Hover _]]].
    + vm_compute in Hmin. by apply Hmin.
    + vm_compute in Hover. discriminate.
  - destruct (H 0%nat _ eq_refl) as [Hmax _].
    vm_compute in Hmax. by apply Hmax.
Qed.


(** The heading path on the stack of the unit test. *)
Lemma init_stores_bounds_unchecked_witness :
  get_char_encoding "cl100k_base" = Some char_tokenizer /\
  __init__ get_char_encoding 600 400 500 "cl100k_base"
  = Ok (mkChunker 600 400 500 char_tokenizer).
Proof.
  split; [reflexivity|].
  apply (proj1 (init_stores_bounds_unchecked get_char_encoding 600 400 500
                  "cl100k_base")).
  reflexivity.
Defined.

Lemma chunk_section_sizes_witness :
  let self := mkChunker 5 10 2 char_tokenizer in
  let cs := _chunk_section self forced_section [] (plain_document []) in
  oversized self forced_section /\
  (1 < length cs)%nat /\
  exists ck n,
    cs !! 0%nat = Some ck /\
    let st := split_loop self [] (plain_document []) forced_section
                (take n (_split_into_paragraphs (content forced_section))) in
    text ck = Py.strip (current_chunk_text st) /\
    min_chunk_size self <= current_tokens st.
Proof.
  intros self cs.
  assert (Hover : oversized self forced_section) by (by vm_compute).
  assert (Hlen : (1 < length cs)%nat) by (vm_compute; lia).
  split; [exact Hover|]. split; [exact Hlen|].
  destruct (chunk_section_sizes self forced_section [] (plain_document []))
    as (_ & _ & Hclosed).
  destruct (cs !! 0%nat) as [ck|] eqn:Hck; [|by vm_compute in Hck].
  destruct (Hclosed Hover 0%nat ck Hck Hlen) as [n Hn].
  by exists ck, n.
Defined.

End ChunkerExamples.

(** ** Dictionaries filled by a loop *)

Section FoldInsert.
Context {K : Type} `{Countable K} {V X : Type}.
Variable kf : X -> K.
Variable vf : X -> V.

Lemma fill_snoc l x (m : gmap K V) :
  fold_left (fun m x => <[kf x := vf x]> m) (l ++ [x]) m
  = <[kf x := vf x]> (fold_left (fun m x => <[kf x := vf x]> m) l m).
Proof. by rewrite fold_left_app. Qed.

(** An entry of the filled dictionary comes from an element of the list
    or was there before under a key that the list does not touch. *)
Lemma fill_lookup_Some l (m : gmap K V) k v :
  fold_left (fun m x => <[kf x := vf x]> m) l m !! k = Some v ->
  (exists x, x ∈ l /\ kf x = k /\ vf x = v) \/
  (m !! k = Some v /\ k ∉ kf <$> l).
Proof.
  induction l as [|x l IH] using rev_ind; intros Hk.
  - right. split; [done|]. apply not_elem_of_nil.
  - rewrite fill_snoc in Hk.
    destruct (decide (kf x = k)) as [<-|Hne].
    + rewrite lookup_insert_eq in Hk. injection Hk as <-.
      left. exists x. split; [|done]. apply elem_of_app. right. by left.
    + rewrite lookup_insert_ne in Hk by done.
      destruct (IH Hk) as [(y & Hy & Hky & Hvy)|[Hm Hnot]].
      * left. exists y. split; [|done]. apply elem_of_app. by left.
      * right. split; [done|]. rewrite fmap_app. simpl.
        intros Hin. apply elem_of_app in Hin as [Hin|Hin]; [done|].
        apply list_elem_of_singleton in Hin. congruence.
Qed.

Lemma fill_lookup_is_Some l (m : gmap K V) k :
  is_Some (fold_left (fun m x => <[kf x := vf x]> m) l m !! k)
  <-> k ∈ kf <$> l \/ is_Some (m !! k).
Proof.
  induction l as [|x l IH] using rev_ind.
  - simpl. split; [by right|]. intros [Hin|Hm]; [|done].
    by apply elem_of_nil in Hin.
  - rewrite fill_snoc, fmap_app. simpl.
    destruct (decide (kf x = k)) as [<-|Hne].
    + rewrite lookup_insert_eq. split; [|by eauto].
      intros _. left. apply elem_of_app. right. by left.
    + rewrite lookup_insert_ne by done. rewrite IH.
      rewrite elem_of_app, list_elem_of_singleton.
      split; [intros [?|?]; auto|intros [[?|?]|?]; auto; congruence].
Qed.

(** When the keys of the list are pairwise distinct, every element is
    found under its own key. *)
Lemma fill_lookup_NoDup l (m : gmap K V) x :
  NoDup (kf <$> l) -> x ∈ l ->
  fold_left (fun m x => <[kf x := vf x]> m) l m !! kf x = Some (vf x).
Proof.
  induction l as [|y l IH] using rev_ind; intros Hnd Hx.
  - by apply elem_of_nil in Hx.
  - rewrite fill_snoc. rewrite fmap_app in Hnd. simpl in Hnd.
    apply NoDup_app in Hnd as (Hnd & Hdisj & _).
    apply elem_of_app in Hx as [Hx|Hx].
    + rewrite lookup_insert_ne; [by apply IH|].
      intros Heq. apply (Hdisj (kf x)).
      * apply list_elem_of_fmap. by exists x.
      * rewrite <- Heq. by left.
    + apply list_elem_of_singleton in Hx as ->. apply lookup_insert_eq.
Qed.

(** A key that the list does not touch keeps its entry. *)
Lemma fill_lookup_notin l (m : gmap K V) k :
  k ∉ kf <$> l ->
  fold_left (fun m x => <[kf x := vf x]> m) l m !! k = m !! k.
Proof.
  induction l as [|x l IH] using rev_ind; intros Hk; [done|].
  rewrite fill_snoc. rewrite fmap_app in Hk. simpl in Hk.
  rewrite lookup_insert_ne.
  - apply IH. intros Hin. apply Hk. apply elem_of_app. by left.
  - intros <-. apply Hk. apply elem_of_app. right. by left.
Qed.

End FoldInsert.

(** ** Float division and pure loops *)

Lemma Rdiv_nonneg x y : (0 <= x)%R -> (0 < y)%R -> (0 <= x / y)%R.
Proof.
  intros Hx Hy. unfold Rdiv. apply Rmult_le_pos; [done|].
  left. by apply Rinv_0_lt_compat.
Qed.

Lemma div_ok x y : y <> 0%R -> Py.div x y = Ok (x / y)%R.
Proof. intros Hy. unfold Py.div. by destruct (Req_dec_T y 0). Qed.

Lemma for_each_pure {S A : Type} (body : S -> A -> result S)
    (f : S -> A -> S) l st :
  (forall st x, x ∈ l -> body st x = Ok (f st x)) ->
  Py.for_each body l st = Ok (fold_left f l st).
Proof.
  revert st. induction l as [|x r IH]; intros st Hb; simpl; [done|].
  rewrite Hb by left. apply IH. intros st' y Hy. apply Hb. by right.
Qed.

(** What a loop that appends one computed item per element returns. *)
Lemma for_each_collect_inv {A B : Type} (body : list B -> A -> result (list B))
    (g : A -> result B) l acc out :
  (forall acc x, body acc x = (y ← g x; Ok (acc ++ [y]))) ->
  Py.for_each body l acc = Ok out ->
  exists ys, out = acc ++ ys /\ Forall2 (fun x y => g x = Ok y) l ys.
Proof.
  intros Hbody. revert acc.
  induction l as [|x r IH]; intros acc Hout; simpl in Hout.
  - injection Hout as <-. exists []. by rewrite app_nil_r.
  - rewrite Hbody in Hout. destruct (g x) as [y|e] eqn:Hg; [|done].
    simpl in Hout. destruct (IH _ Hout) as (ys & -> & Hys).
    exists (y :: ys). rewrite <- app_assoc. split; [done|].
    by constructor.
Qed.

Lemma constant_keys_sorted {A : Type} (key : A -> R) (c : R) l :
  Forall (fun x => key x = c) l -> StronglySorted (Spec.desc key) l.
Proof.
  induction 1 as [|x r Hx Hr IH]; constructor; [done|].
  eapply Forall_impl; [exact Hr|]. unfold Spec.desc. intros y Hy. lra.
Qed.

(** ** BM25 scoring *)

Section BM25Facts.
Import Retrieval Spec.

Lemma idf_of_ok num_docs df qs :
  idf_of num_docs df qs
  = Ok (fold_left
          (fun idf token =>
             <[token := idf_value num_docs (default 0%nat (df !! token))]> idf)
          qs ∅).
Proof.
  unfold idf_of. apply for_each_pure. intros idf token _.
  rewrite div_ok; [done|].
  pose proof (pos_INR (default 0%nat (df !! token))). lra.
Qed.

(** The inverse document frequency is not negative as long as the count
    does not exceed the number of documents. *)
Lemma idf_value_nonneg num_docs d :
  (d <= num_docs)%nat -> (0 <= idf_value num_docs d)%R.
Proof.
  intros Hd. unfold idf_value. rewrite <- ln_1.
  apply le_INR in Hd. pose proof (pos_INR d) as Hpos.
  assert (Hq : (0 <= (INR num_docs - INR d + 1 / 2) / (INR d + 1 / 2))%R).
  { apply Rdiv_nonneg; lra. }
  destruct (Req_dec ((INR num_docs - INR d + 1 / 2) / (INR d + 1 / 2)) 0)
    as [->|Hne].
  - rewrite Rplus_0_l. lra.
  - left. apply ln_increasing; lra.
Qed.

(** C5. A query without tokens (the empty query, or one made of
    punctuation only) gives every document of the corpus the score 0, in
    the order of the corpus, and raises nothing; an empty corpus gives an
    empty ranking for every query. *)
Theorem empty_query_scores_zero
    (self : BM25) (query : string) (documents : list (UUID * string)) :
  (tokenize query = [] ->
   score_documents self query documents
   = Ok (map (fun d => (d.1, 0%R)) documents)) /\
  score_documents self query [] = Ok [] /\
  tokenize "" = [] /\
  tokenize "?!... --" = [].
Proof.
  split_and!; [|done|done|done].
  intros Hq. unfold score_documents. rewrite Hq. by destruct documents.
Qed.

Lemma empty_query_scores_zero_witness :
  tokenize "?!" = [] /\
  score_documents BM25_default "?!" [(1%N, "robot arm"); (2%N, "gripper")]
  = Ok [(1%N, 0%R); (2%N, 0%R)].
Proof.
  split; [reflexivity|].
  apply (proj1 (empty_query_scores_zero BM25_default "?!"
                  [(1%N, "robot arm"); (2%N, "gripper")])).
  reflexivity.
Defined.

(** C4 fails on the code. A query that repeats a term counts every
    document containing the term once per repetition, so the count
    exceeds the number of documents and the inverse document frequency
    turns negative: for the query "a a" and the single document "a" the
    count is 2 of 1 document and the score is [2 * ln (4/5) < 0]. *)
Theorem repeated_query_term_scores_negative :
  df_of (tokenize "a a") [(1%N, tokenize "a")] !! "a" = Some 2%nat /\
  exists s,
    score_documents BM25_default "a a" [(1%N, "a")] = Ok [(1%N, s)] /\
    s = (2 * ln (4 / 5))%R /\ (s < 0)%R.
Proof.
  split; [reflexivity|].
  exists (2 * ln (4 / 5))%R.
  assert (Hneg : (ln (4 / 5) < 0)%R).
  { rewrite <- ln_1. apply ln_increasing; lra. }
  split; [|split; [done|lra]].
  unfold score_documents.
  change (tokenize "a a") with ["a"; "a"].
  cbv beta iota.
  change (map (fun d : UUID * string => (d.1, tokenize d.2)) [(1%N, "a")])
    with [(1%N, ["a"])].
  assert (Hlen : doc_lengths_of [(1%N, ["a"])] = {[1%N := 1%nat]})
    by reflexivity.
  rewrite Hlen.
  assert (Hsum :
    sum_list (map_to_list ({[1%N := 1%nat]} : gmap UUID nat)).*2 = 1%nat)
    by reflexivity.
  assert (Hsize : size ({[1%N := 1%nat]} : gmap UUID nat) = 1%nat)
    by reflexivity.
  rewrite Hsum, Hsize.
  rewrite div_ok by (simpl; lra).
  cbn [mbind result_bind].
  rewrite idf_of_ok.
  assert (Hdf : df_of ["a"; "a"] [(1%N, ["a"])] !! "a" = Some 2%nat)
    by reflexivity.
  cbn [fold_left]. rewrite Hdf. cbn [default from_option Datatypes.id length].
  rewrite insert_insert_eq.
  cbn [Py.for_each fst snd].
  rewrite lookup_singleton_eq. cbn [mbind result_bind].
  unfold score_document.
  assert (Htf : tf_of ["a"] !! "a" = Some 1%nat) by reflexivity.
  cbn [Py.for_each]. rewrite Htf. rewrite lookup_insert_eq.
  cbn [mbind result_bind].
  assert (Hidf : idf_value 1 2 = ln (4 / 5)).
  { unfold idf_value. f_equal. simpl. lra. }
  rewrite Hidf.
  rewrite (div_ok (INR 1) (INR 1 / INR 1)) by (simpl; lra).
  cbn [mbind result_bind].
  rewrite !div_ok by (simpl; lra).
  cbn [mbind result_bind app Py.sort_desc Py.insert_desc].
  do 3 f_equal. simpl. lra.
Qed.

End BM25Facts.

(** ** The lexical path *)

(** Case analysis on the first step of a computation that returned. *)
Ltac ok_inv H :=
  match type of H with
  | (?m ≫= _) = Ok _ =>
      let E := fresh "E" in
      destruct m eqn:E; [cbn [mbind result_bind] in H|discriminate H]
  end.

Lemma for_each_total {S A : Type} (body : S -> A -> result S) l st :
  (forall st x, x ∈ l -> exists st', body st x = Ok st') ->
  exists out, Py.for_each body l st = Ok out.
Proof.
  revert st. induction l as [|x r IH]; intros st Hb; simpl; [by eexists|].
  destruct (Hb st x) as [st' ->]; [by left|].
  apply IH. intros st'' y Hy. apply Hb. by right.
Qed.

Section LexicalPath.
Import Retrieval Spec.

Lemma score_documents_body_collect self idf avg doc_lengths query_tokens
    (scores : list (UUID * R)) (dt : UUID * list string) :
  (doc_length ← (match doc_lengths !! dt.1 with
                 | Some n => Ok n
                 | None => Raise KeyError
                 end);
   score ← score_document self idf avg doc_length (tf_of dt.2) query_tokens;
   Ok (scores ++ [(dt.1, score)]))
  =
  (y ← (doc_length ← (match (doc_lengths : gmap UUID nat) !! dt.1 with
                      | Some n => Ok n
                      | None => Raise KeyError
                      end);
        score ← score_document self idf avg doc_length (tf_of dt.2)
                  query_tokens;
        Ok (dt.1, score));
   Ok (scores ++ [y])).
Proof.
  destruct (doc_lengths !! dt.1); [|done]. cbn [mbind result_bind].
  by destruct (score_document _ _ _ _ _ _).
Qed.

(** The ranking is in descending score order and ranks exactly the
    documents of the corpus. *)
Lemma score_documents_ranking self query documents out :
  score_documents self query documents = Ok out ->
  StronglySorted (desc snd) out /\ out.*1 ≡ₚ documents.*1.
Proof.
  unfold score_documents. destruct documents as [|d ds].
  { intros [= <-]. split; [constructor|done]. }
  destruct (tokenize query) as [|q qs].
  { intros Hout. injection Hout as <-.
    change (StronglySorted (desc snd)
              (map (fun d0 : UUID * string => (d0.1, 0%R)) (d :: ds)) /\
            (map (fun d0 : UUID * string => (d0.1, 0%R)) (d :: ds)).*1
              ≡ₚ (d :: ds).*1).
    generalize (d :: ds). intros docs. split.
    - apply (constant_keys_sorted _ 0%R).
      induction docs as [|x r IH]; simpl; by constructor.
    - enough (Heq : (map (fun d0 : UUID * string => (d0.1, 0%R)) docs).*1
                    = docs.*1) by (by rewrite Heq).
      induction docs as [|x r IH]; simpl; [done|]. by f_equal. }
  intros Hout. ok_inv Hout. ok_inv Hout. ok_inv Hout.
  injection Hout as <-. split; [apply sort_desc_sorted|].
  rewrite sort_desc_perm.
  eapply for_each_collect_inv in E1 as (ys & -> & Hys);
    [|intros; apply score_documents_body_collect].
  simpl app. clear E E0.
  generalize dependent (d :: ds). intros docs Hys.
  assert (Hfst : ys.*1 = (map (fun d : UUID * string => (d.1, tokenize d.2))
                              docs).*1).
  { induction Hys as [|x y xs ys' Hxy Hrest IH]; [done|].
    simpl. f_equal; [|exact IH].
    destruct (_ !! x.1); [|done]. cbn [mbind result_bind] in Hxy.
    destruct (score_document _ _ _ _ _ _); [|done].
    by injection Hxy as <-. }
  rewrite Hfst. clear.
  enough (Heq : (map (fun d : UUID * string => (d.1, tokenize d.2)) docs).*1
                = docs.*1) by (by rewrite Heq).
  induction docs as [|x r IH]; [done|].
  simpl. by f_equal.
Qed.


Lemma slice_to_nonneg {A : Type} (stop : Z) (l : list A) :
  0 <= stop -> Py.slice_to stop l = take (Z.to_nat stop) l.
Proof.
  intros Hs. unfold Py.slice_to.
  destruct (Z.ltb_spec stop 0); [lia|done].
Qed.


End LexicalPath.

Section LexicalTotality.
Import Retrieval Spec.

Lemma tf_of_lookup tokens t n :
  tf_of tokens !! t = Some n -> (1 <= n)%nat /\ t ∈ tokens.
Proof.
  unfold tf_of. induction tokens as [|x tokens IH] using rev_ind.
  - simpl. by rewrite lookup_empty.
  - rewrite fold_left_app. simpl. unfold incr at 1.
    destruct (decide (x = t)) as [->|Hne].
    + rewrite lookup_insert_eq. intros [= <-]. split; [lia|].
      apply elem_of_app. right. by left.
    + rewrite lookup_insert_ne by done. intros Hn.
      destruct (IH Hn) as [? ?]. split; [done|].
      apply elem_of_app. by left.
Qed.

Lemma score_document_total self idf avg doc_length tf query_tokens :
  (0 <= k1 self)%R -> (0 <= b self <= 1)%R ->
  (forall q, q ∈ query_tokens -> is_Some (idf !! q)) ->
  (forall q n, q ∈ query_tokens -> tf !! q = Some n ->
     (1 <= n)%nat /\ (0 < avg)%R) ->
  exists s, score_document self idf avg doc_length tf query_tokens = Ok s.
Proof.
  intros Hk1 Hb Hidf Htf. unfold score_document.
  apply for_each_total. intros score q Hq.
  destruct (tf !! q) as [n|] eqn:Hn; [|by eexists].
  destruct (Hidf q Hq) as [v ->].
  destruct (Htf q n Hq Hn) as [Hn1 Havg].
  cbn [mbind result_bind]. rewrite div_ok by lra.
  cbn [mbind result_bind].
  rewrite div_ok; [by eexists|].
  apply le_INR in Hn1. simpl in Hn1.
  pose proof (Rdiv_nonneg (INR doc_length) avg (pos_INR _) Havg) as Hratio.
  assert (0 <= b self * (INR doc_length / avg))%R
    by (apply Rmult_le_pos; lra).
  assert (0 <= k1 self * (1 - b self + b self * (INR doc_length / avg)))%R
    by (apply Rmult_le_pos; lra).
  lra.
Qed.

Lemma doc_lengths_lookup (docs : list (UUID * list string)) dt :
  NoDup docs.*1 -> dt ∈ docs ->
  doc_lengths_of docs !! dt.1 = Some (length dt.2).
Proof.
  intros Hnd Hdt. unfold doc_lengths_of.
  by apply (fill_lookup_NoDup fst (fun dt => length dt.2)).
Qed.

Lemma size_nonzero (m : gmap UUID nat) k v :
  m !! k = Some v -> INR (size m) <> 0%R.
Proof.
  intros Hk. apply not_0_INR. apply map_size_non_empty_iff.
  intros ->. by rewrite lookup_empty in Hk.
Qed.

Lemma average_length_positive (m : gmap UUID nat) k v :
  m !! k = Some v -> (1 <= v)%nat ->
  (0 < INR (sum_list (map_to_list m).*2) / INR (size m))%R.
Proof.
  intros Hk Hv. apply Rdiv_pos_pos.
  - apply lt_0_INR.
    assert (Hin : v ∈ (map_to_list m).*2).
    { apply list_elem_of_fmap. exists (k, v). split; [done|].
      by apply elem_of_map_to_list. }
    apply (sum_list_with_in _ Datatypes.id) in Hin.
    unfold Datatypes.id in Hin at 1. fold (sum_list (map_to_list m).*2) in Hin.
    lia.
  - pose proof (size_nonzero m k v Hk) as Hs.
    pose proof (pos_INR (size m)). lra.
Qed.

Lemma score_documents_total self query documents :
  NoDup documents.*1 ->
  (0 <= k1 self)%R -> (0 <= b self <= 1)%R ->
  exists out, score_documents self query documents = Ok out.
Proof.
  intros Hnd Hk1 Hb. unfold score_documents.
  destruct documents as [|d ds] eqn:Hdocs; [by eexists|].
  rewrite <- Hdocs in *.
  destruct (tokenize query) as [|q qs] eqn:Hq; [by eexists|].
  rewrite <- Hq.
  set (doc_tokens := map (fun d : UUID * string => (d.1, tokenize d.2))
                         documents).
  assert (Hfst : doc_tokens.*1 = documents.*1).
  { subst doc_tokens. clear. induction documents as [|x r IH]; [done|].
    simpl. by f_equal. }
  assert (Hnd' : NoDup doc_tokens.*1) by (by rewrite Hfst).
  assert (Hfirst : (d.1, tokenize d.2) ∈ doc_tokens).
  { subst doc_tokens. rewrite Hdocs. simpl. by left. }
  rewrite div_ok.
  2:{ eapply size_nonzero.
      apply (doc_lengths_lookup doc_tokens _ Hnd' Hfirst). }
  cbn [mbind result_bind]. rewrite idf_of_ok. cbn [mbind result_bind].
  match goal with
  | |- exists out, (Py.for_each ?body ?l ?st ≫= _) = Ok out =>
      destruct (for_each_total body l st) as [scores ->]; [|by eexists]
  end.
  intros scores dt Hdt.
  rewrite (doc_lengths_lookup doc_tokens dt Hnd' Hdt).
  cbn [mbind result_bind].
  edestruct (score_document_total self) as [s ->]; [done|done| | |by eexists].
  - intros t Ht.
    apply (fill_lookup_is_Some (fun t : string => t)
             (fun t => idf_value (length documents)
                         (default 0%nat
                            (df_of (tokenize query) doc_tokens !! t)))).
    left. by rewrite list_fmap_id.
  - intros t n Ht Hn. apply tf_of_lookup in Hn as [Hn Hin].
    split; [done|].
    eapply average_length_positive.
    + apply (doc_lengths_lookup doc_tokens dt Hnd' Hdt).
    + destruct dt.2; [by apply elem_of_nil in Hin|simpl; lia].
Qed.

Lemma slice_to_subseteq {A : Type} (stop : Z) (l : list A) x :
  x ∈ Py.slice_to stop l -> x ∈ l.
Proof.
  unfold Py.slice_to. destruct (stop <? 0); intros Hx;
    eapply elem_of_sublist; eauto using sublist_take.
Qed.

Lemma bm25_search_total scroll bm25 query top_k cf sf points :
  scroll (query_filter cf sf) = Ok points ->
  NoDup (id <$> points) ->
  (0 <= k1 bm25)%R -> (0 <= b bm25 <= 1)%R ->
  exists out, bm25_search scroll bm25 query top_k cf sf = Ok out.
Proof.
  intros Hscroll Hnd Hk1 Hb. unfold bm25_search. rewrite Hscroll.
  cbn [mbind result_bind].
  destruct points as [|p ps] eqn:Hpoints; [by eexists|].
  rewrite <- Hpoints in *.
  set (documents :=
         map (fun p => (id p, default EmptyString (p_content (payload p))))
             points).
  assert (Hfst : documents.*1 = id <$> points).
  { subst documents. clear. induction points as [|x r IH]; [done|].
    simpl. by f_equal. }
  destruct (score_documents_total bm25 query documents) as [scores Hscores];
    [by rewrite Hfst|done|done|].
  rewrite Hscores. cbn [mbind result_bind].
  apply score_documents_ranking in Hscores as [_ Hperm].
  apply for_each_total. intros chunks cs Hcs.
  destruct (Rle_dec cs.2 0); [by eexists|].
  apply slice_to_subseteq in Hcs.
  assert (Hin : cs.1 ∈ id <$> points).
  { rewrite <- Hfst, <- Hperm. by apply list_elem_of_fmap_2. }
  destruct (proj2 (fill_lookup_is_Some id (fun p : Point => p) points ∅ cs.1)
              (or_introl Hin)) as [point Hpoint].
  rewrite Hpoint. by eexists.
Qed.


End LexicalTotality.

Section LexicalExamples.
Import Retrieval Spec Samples.


End LexicalExamples.

(** ** BM25 scores of queries without repeated terms *)

Lemma div_Ok_inv x y z : Py.div x y = Ok z -> y <> 0%R /\ z = (x / y)%R.
Proof.
  unfold Py.div. destruct (Req_dec_T y 0); [done|]. by intros [= <-].
Qed.

Lemma for_each_invariant {S A : Type} (P : S -> Prop)
    (body : S -> A -> result S) l st out :
  P st ->
  (forall st x st', P st -> body st x = Ok st' -> P st') ->
  Py.for_each body l st = Ok out -> P out.
Proof.
  intros Hst Hstep. revert st Hst.
  induction l as [|x r IH]; intros st Hst Hout; simpl in Hout.
  - by injection Hout as <-.
  - destruct (body st x) as [st'|] eqn:Hb; [|done]. eauto.
Qed.

Section DistinctQuery.
Import Retrieval Spec.

(** One document adds at most one to the count of a term when the query
    does not repeat it. *)
Lemma df_document_bound (tokens qs : list string) (df : gmap string nat) t :
  NoDup qs ->
  (default 0 (fold_left
                (fun df token =>
                   if bool_decide (token ∈ tokens) then incr token df else df)
                qs df !! t)
   <= default 0 (df !! t) + (if bool_decide (t ∈ qs) then 1 else 0))%nat.
Proof.
  intros Hnd. revert df.
  induction Hnd as [|q qs Hq Hnd IH]; intros df; simpl; [lia|].
  etransitivity; [apply IH|].
  destruct (decide (t = q)) as [->|Hne].
  - rewrite (bool_decide_eq_false_2 (q ∈ qs)) by done.
    rewrite (bool_decide_eq_true_2 (q ∈ q :: qs)) by left.
    destruct (bool_decide (q ∈ tokens)); [|lia].
    unfold incr. rewrite lookup_insert_eq. simpl. lia.
  - assert (Hsame : (if bool_decide (q ∈ tokens) then incr q df else df) !! t
                    = df !! t).
    { destruct (bool_decide (q ∈ tokens)); [|done].
      unfold incr. by rewrite lookup_insert_ne. }
    rewrite Hsame.
    destruct (decide (t ∈ qs)) as [Hin|Hnin].
    + rewrite (bool_decide_eq_true_2 (t ∈ qs)) by done.
      rewrite (bool_decide_eq_true_2 (t ∈ q :: qs)) by (by right). lia.
    + rewrite (bool_decide_eq_false_2 (t ∈ qs)) by done.
      rewrite (bool_decide_eq_false_2 (t ∈ q :: qs)); [lia|].
      rewrite elem_of_cons. tauto.
Qed.

(** Without repeated query terms the document frequency of a term is at
    most the number of documents. *)
Lemma df_of_bound qs (doc_tokens : list (UUID * list string)) t :
  NoDup qs ->
  (default 0 (df_of qs doc_tokens !! t) <= length doc_tokens)%nat.
Proof.
  intros Hnd. unfold df_of.
  induction doc_tokens as [|dt dts IH] using rev_ind.
  - simpl. rewrite lookup_empty. simpl. lia.
  - rewrite fold_left_app, length_app. simpl.
    etransitivity; [by apply df_document_bound|].
    destruct (bool_decide (t ∈ qs)); lia.
Qed.

Lemma score_document_nonneg self idf avg doc_length tf qs s :
  (0 <= k1 self)%R -> (0 <= b self <= 1)%R -> (0 <= avg)%R ->
  (forall q v, idf !! q = Some v -> (0 <= v)%R) ->
  score_document self idf avg doc_length tf qs = Ok s -> (0 <= s)%R.
Proof.
  intros Hk1 Hb Havg Hidf. unfold score_document.
  apply (for_each_invariant (fun s => (0 <= s)%R)); [lra|].
  intros score q score' Hscore Hstep.
  destruct (tf !! q) as [n|]; [|by injection Hstep as <-].
  destruct (idf !! q) as [v|] eqn:Hv; [|done].
  cbn [mbind result_bind] in Hstep.
  destruct (Py.div (INR doc_length) avg) as [ratio|] eqn:Hratio; [|done].
  cbn [mbind result_bind] in Hstep.
  destruct (Py.div _ _) as [term|] eqn:Hterm in Hstep; [|done].
  cbn [mbind result_bind] in Hstep. injection Hstep as <-.
  apply div_Ok_inv in Hratio as [Havg0 ->].
  apply div_Ok_inv in Hterm as [Hden ->].
  specialize (Hidf q v Hv).
  pose proof (pos_INR n) as Hn. pose proof (pos_INR doc_length) as Hdl.
  assert (Hr : (0 <= INR doc_length / avg)%R) by (apply Rdiv_nonneg; lra).
  assert (0 <= b self * (INR doc_length / avg))%R
    by (apply Rmult_le_pos; lra).
  assert (0 <= k1 self * (1 - b self + b self * (INR doc_length / avg)))%R
    by (apply Rmult_le_pos; lra).
  assert (0 <= v * INR n * (k1 self + 1))%R
    by (repeat apply Rmult_le_pos; lra).
  assert (0 <= v * INR n * (k1 self + 1)
               / (INR n + k1 self
                          * (1 - b self + b self * (INR doc_length / avg))))%R
    by (apply Rdiv_nonneg; lra).
  lra.
Qed.

(** When the query does not repeat a term, every score that
    [score_documents] returns is non-negative. *)
Lemma score_documents_nonneg_distinct_query self query documents out :
  NoDup (tokenize query) ->
  (0 <= k1 self)%R -> (0 <= b self <= 1)%R ->
  score_documents self query documents = Ok out ->
  Forall (fun p => (0 <= p.2)%R) out.
Proof.
  intros Hnd Hk1 Hb. unfold score_documents.
  destruct documents as [|d ds].
  { intros [= <-]. constructor. }
  generalize dependent (tokenize query). intros qs Hnd.
  destruct qs as [|q qs'] eqn:Hqs.
  { intros Hout. injection Hout as <-.
    change (Forall (fun p : UUID * R => (0 <= p.2)%R)
              (map (fun d0 : UUID * string => (d0.1, 0%R)) (d :: ds))).
    generalize (d :: ds). intros docs.
    induction docs as [|x r IH]; simpl; constructor; [simpl; lra|done]. }
  rewrite <- Hqs in *. clear Hqs q qs'.
  intros Hout. ok_inv Hout. ok_inv Hout. ok_inv Hout.
  injection Hout as <-. rewrite sort_desc_perm.
  apply div_Ok_inv in E as [Hsize ->].
  rewrite idf_of_ok in E0. injection E0 as <-.
  eapply for_each_collect_inv in E1 as (ys & -> & Hys);
    [|intros; apply score_documents_body_collect].
  simpl app.
  assert (Havg : (0 <= INR (sum_list (map_to_list (doc_lengths_of
                   (map (fun d0 : UUID * string => (d0.1, tokenize d0.2))
                        (d :: ds)))).*2)
                 / INR (size (doc_lengths_of
                   (map (fun d0 : UUID * string => (d0.1, tokenize d0.2))
                        (d :: ds)))))%R).
  { apply Rdiv_nonneg; [apply pos_INR|].
    pose proof (pos_INR (size (doc_lengths_of
                   (map (fun d0 : UUID * string => (d0.1, tokenize d0.2))
                        (d :: ds))))). lra. }
  induction Hys as [|dt y dts ys' Hy Hrest IH]; [constructor|].
  constructor; [|exact IH].
  destruct (_ !! dt.1); [|done]. cbn [mbind result_bind] in Hy.
  destruct (score_document _ _ _ _ _ _) as [s|] eqn:Hs; [|done].
  injection Hy as <-. simpl.
  eapply score_document_nonneg; [exact Hk1|exact Hb|exact Havg| |exact Hs].
  intros t v Hv.
  apply (fill_lookup_Some (fun t : string => t)) in Hv
    as [(t' & _ & _ & <-)|[Hv _]]; [|by rewrite lookup_empty in Hv].
  apply idf_value_nonneg.
  etransitivity; [by apply df_of_bound|].
  simpl. by rewrite length_map.
Qed.

End DistinctQuery.

(** ** Rank fusion *)

Lemma enumerate_from_elem_of {A : Type} n (l : list A) i x :
  (i, x) ∈ Py.enumerate_from n l <->
  (n <= i)%nat /\ l !! (i - n)%nat = Some x.
Proof.
  revert n. induction l as [|y l IH]; intros n; simpl.
  - rewrite elem_of_nil. split; [done|]. by intros [_ ?].
  - rewrite elem_of_cons, IH. split.
    + intros [[= -> ->]|[Hle Hl]].
      * split; [lia|]. by rewrite Nat.sub_diag.
      * split; [lia|]. by replace (i - n)%nat with (S (i - S n)) by lia.
    + intros [Hle Hl]. destruct (decide (i = n)) as [->|Hne].
      * left. rewrite Nat.sub_diag in Hl. simpl in Hl. congruence.
      * right. split; [lia|].
        by replace (i - n)%nat with (S (i - S n)) in Hl by lia.
Qed.

Lemma enumerate_from_snd {A : Type} n (l : list A) :
  (Py.enumerate_from n l).*2 = l.
Proof.
  revert n. induction l as [|y l IH]; intros n; simpl; [done|].
  by rewrite IH.
Qed.

Section RankMaps.
Import Retrieval Spec.
Variable h : store.

Lemma rank_map_keys l :
  (fun ir : nat * ref => chunk_id (h ir.2)) <$> Py.enumerate l = ids h l.
Proof.
  unfold ids, Py.enumerate.
  rewrite <- (enumerate_from_snd 0 l) at 2.
  by rewrite <- list_fmap_compose.
Qed.

Lemma rank_map_is_Some l x : is_Some (rank_map h l !! x) <-> x ∈ ids h l.
Proof.
  unfold rank_map.
  rewrite (fill_lookup_is_Some (fun ir : nat * ref => chunk_id (h ir.2)) fst).
  rewrite rank_map_keys, lookup_empty. split; [|by left].
  intros [?|[? ?]]; done.
Qed.

Lemma rank_map_None l x : x ∉ ids h l -> rank_map h l !! x = None.
Proof.
  intros Hx. apply eq_None_not_Some. by rewrite rank_map_is_Some.
Qed.

(** A rank recorded for an identifier is a position of that identifier
    in the list. *)
Lemma rank_map_Some l x i :
  rank_map h l !! x = Some i -> ids h l !! i = Some x.
Proof.
  unfold rank_map. intros Hx.
  apply (fill_lookup_Some (fun ir : nat * ref => chunk_id (h ir.2)) fst)
    in Hx as [([j r] & Hin & Hk & Hv)|[Hx _]].
  - simpl in *. subst. apply enumerate_from_elem_of in Hin as [_ Hl].
    rewrite Nat.sub_0_r in Hl. unfold ids. by rewrite list_lookup_fmap, Hl.
  - by rewrite lookup_empty in Hx.
Qed.

(** In a list without repeated identifiers the rank of an identifier is
    its position. *)
Lemma rank_map_NoDup l x i :
  NoDup (ids h l) -> ids h l !! i = Some x -> rank_map h l !! x = Some i.
Proof.
  intros Hnd Hi. unfold ids in Hi. rewrite list_lookup_fmap in Hi.
  destruct (l !! i) as [r|] eqn:Hr; [|done]. injection Hi as <-.
  unfold rank_map.
  apply (fill_lookup_NoDup (fun ir : nat * ref => chunk_id (h ir.2)) fst
           (Py.enumerate l) ∅ (i, r)).
  - by rewrite rank_map_keys.
  - apply enumerate_from_elem_of. split; [lia|]. by rewrite Nat.sub_0_r.
Qed.

Lemma chunk_map_Some vs bs x r :
  chunk_map_of h vs bs !! x = Some r ->
  chunk_id (h r) = x /\ (r ∈ bs \/ (r ∈ vs /\ x ∉ ids h bs)).
Proof.
  unfold chunk_map_of. intros Hx.
  apply (fill_lookup_Some (fun r : ref => chunk_id (h r)) (fun r => r))
    in Hx as [(r' & Hin & Hk & ->)|[Hx Hnot]].
  { split; [done|]. by left. }
  apply (fill_lookup_Some (fun r : ref => chunk_id (h r)) (fun r => r))
    in Hx as [(r' & Hin & Hk & ->)|[Hx _]].
  - split; [done|]. right. by split.
  - by rewrite lookup_empty in Hx.
Qed.

Lemma chunk_map_is_Some vs bs x :
  x ∈ ids h vs \/ x ∈ ids h bs -> is_Some (chunk_map_of h vs bs !! x).
Proof.
  intros Hx. unfold chunk_map_of.
  apply (fill_lookup_is_Some (fun r : ref => chunk_id (h r)) (fun r => r)).
  destruct Hx as [Hx|Hx]; [right|by left].
  apply (fill_lookup_is_Some (fun r : ref => chunk_id (h r)) (fun r => r)).
  by left.
Qed.

(** In a BM25 list without repeated identifiers every object is the
    one that [chunk_map] holds for its identifier; so is an object of a
    vector list without repeated identifiers when the BM25 list does not
    have its identifier. *)
Lemma chunk_map_bm25 vs bs r :
  NoDup (ids h bs) -> r ∈ bs ->
  chunk_map_of h vs bs !! chunk_id (h r) = Some r.
Proof.
  intros Hnd Hr. unfold chunk_map_of.
  by apply (fill_lookup_NoDup (fun r : ref => chunk_id (h r)) (fun r => r)).
Qed.

Lemma chunk_map_vector vs bs r :
  NoDup (ids h vs) -> r ∈ vs -> chunk_id (h r) ∉ ids h bs ->
  chunk_map_of h vs bs !! chunk_id (h r) = Some r.
Proof.
  intros Hnd Hr Hnot. unfold chunk_map_of.
  rewrite (fill_lookup_notin (fun r : ref => chunk_id (h r)) (fun r => r))
    by done.
  by apply (fill_lookup_NoDup (fun r : ref => chunk_id (h r)) (fun r => r)).
Qed.

End RankMaps.

Section FusedStore.
Import Retrieval Spec.
Variable f : UUID * R -> ref.

(** Overwriting scores leaves every other field of every object as it
    was. *)
Lemma set_scores_same_but_score items h r :
  same_but_score (h r)
    (fold_left (fun h item => set_score h (f item) item.2) items h r).
Proof.
  induction items as [|item items IH] using rev_ind; [done|].
  rewrite fold_left_app. simpl. unfold set_score at 1.
  destruct (decide (r = f item)) as [->|Hne]; [|exact IH].
  simpl. exact IH.
Qed.

(** An object that is not among the targets is not touched. *)
Lemma set_scores_frame items h r :
  r ∉ f <$> items ->
  fold_left (fun h item => set_score h (f item) item.2) items h r = h r.
Proof.
  induction items as [|item items IH] using rev_ind; [done|].
  rewrite fmap_app, fold_left_app. simpl. intros Hr.
  unfold set_score at 1. destruct (decide (r = f item)) as [->|Hne].
  - exfalso. apply Hr. apply elem_of_app. right. by left.
  - apply IH. intros Hin. apply Hr. apply elem_of_app. by left.
Qed.

(** With distinct targets every target ends with the score of its own
    item. *)
Lemma set_scores_lookup items h item :
  NoDup (f <$> items) -> item ∈ items ->
  score (fold_left (fun h item => set_score h (f item) item.2) items h
           (f item)) = item.2.
Proof.
  induction items as [|item' items IH] using rev_ind; intros Hnd Hin.
  - by apply elem_of_nil in Hin.
  - rewrite fmap_app in Hnd. simpl in Hnd.
    apply NoDup_app in Hnd as (Hnd & Hdisj & _).
    rewrite fold_left_app. simpl. unfold set_score at 1.
    apply elem_of_app in Hin as [Hin|Hin].
    + destruct (decide (f item = f item')) as [Heq|Hne]; [|by apply IH].
      exfalso. apply (Hdisj (f item)).
      * by apply list_elem_of_fmap_2.
      * rewrite Heq. by left.
    + apply list_elem_of_singleton in Hin as ->.
      by rewrite decide_True by done.
Qed.

End FusedStore.

Section RankFusion.
Import Retrieval Spec.
Variable set_iter : gset UUID -> list UUID.
Hypothesis set_iter_order : iteration_order set_iter.
Variable h : store.
Variables vs bs : list ref.
Variable k : Z.
Hypothesis k_pos : 0 < k.

Lemma rrf_score_ok vr br x : rrf_score vr br k x = Ok (rrf_value vr br k x).
Proof.
  unfold rrf_score, rrf_value.
  destruct (vr !! x) as [i|]; destruct (br !! x) as [j|];
    cbn [mbind result_bind];
    rewrite ?div_ok by (apply not_0_IZR; lia); cbn [mbind result_bind];
    rewrite ?div_ok by (apply not_0_IZR; lia); done.
Qed.

Lemma fuse_loop (cm : gmap UUID ref) items (st : store * list ref) :
  (forall item, item ∈ items -> is_Some (cm !! item.1)) ->
  Py.for_each
    (fun (st : store * list ref) (item : UUID * R) =>
       match cm !! item.1 with
       | Some chunk => Ok (set_score st.1 chunk item.2, st.2 ++ [chunk])
       | None => Raise KeyError
       end)
    items st
  = Ok (fold_left
          (fun h item => set_score h (default 0%nat (cm !! item.1)) item.2)
          items st.1,
        st.2 ++ map (fun item => default 0%nat (cm !! item.1)) items).
Proof.
  unfold ref in *. revert st.
  induction items as [|item items IH]; intros st Hcm.
  - simpl. by rewrite app_nil_r; destruct st.
  - destruct (Hcm item) as [r Hr]; [by left|].
    cbn [Py.for_each fold_left map]. rewrite !Hr.
    rewrite IH.
    + cbn [fst snd default from_option Datatypes.id].
      by rewrite <- app_assoc.
    + intros item' Hin. apply Hcm. by right.
Qed.

Lemma order_elem_of x :
  x ∈ set_iter (dom (rank_map h vs) ∪ dom (rank_map h bs)) <->
  x ∈ ids h vs \/ x ∈ ids h bs.
Proof.
  destruct (set_iter_order (dom (rank_map h vs) ∪ dom (rank_map h bs)))
    as [_ Hmem].
  by rewrite Hmem, elem_of_union, !elem_of_dom, !rank_map_is_Some.
Qed.

Lemma fused_items_sorted :
  StronglySorted (desc snd) (fused_items set_iter h vs bs k).
Proof. apply sort_desc_sorted. Qed.

Lemma fused_items_fst :
  (fused_items set_iter h vs bs k).*1
  ≡ₚ set_iter (dom (rank_map h vs) ∪ dom (rank_map h bs)).
Proof.
  unfold fused_items. rewrite sort_desc_perm.
  generalize (set_iter (dom (rank_map h vs) ∪ dom (rank_map h bs))).
  intros l. enough (Heq : (map (fun x => (x, rrf_value (rank_map h vs)
                                   (rank_map h bs) k x)) l).*1 = l)
    by (by rewrite Heq).
  induction l as [|x l IH]; simpl; [done|]. by f_equal.
Qed.

Lemma fused_items_NoDup : NoDup (fused_items set_iter h vs bs k).*1.
Proof. rewrite fused_items_fst. apply set_iter_order. Qed.

Lemma fused_items_elem_of item :
  item ∈ fused_items set_iter h vs bs k ->
  item.2 = rrf_value (rank_map h vs) (rank_map h bs) k item.1 /\
  (item.1 ∈ ids h vs \/ item.1 ∈ ids h bs).
Proof.
  unfold fused_items. rewrite sort_desc_perm. intros Hin.
  apply (list_elem_of_fmap
           (fun x => (x, rrf_value (rank_map h vs) (rank_map h bs) k x)))
    in Hin as (x & -> & Hx).
  split; [done|]. by apply order_elem_of.
Qed.

Lemma fused_ref_spec item :
  item ∈ fused_items set_iter h vs bs k ->
  chunk_map_of h vs bs !! item.1 = Some (fused_ref h vs bs item) /\
  chunk_id (h (fused_ref h vs bs item)) = item.1 /\
  (fused_ref h vs bs item ∈ bs \/
   (fused_ref h vs bs item ∈ vs /\ item.1 ∉ ids h bs)).
Proof.
  intros Hin. apply fused_items_elem_of in Hin as [_ Hids].
  destruct (chunk_map_is_Some h vs bs item.1 Hids) as [r Hr].
  pose proof (chunk_map_Some h vs bs item.1 r Hr) as Hspec.
  unfold fused_ref, ref in *. rewrite Hr. simpl. by split.
Qed.

Lemma fused_refs_NoDup :
  NoDup (fused_ref h vs bs <$> fused_items set_iter h vs bs k).
Proof.
  apply NoDup_fmap_2_strong.
  - intros a c Ha Hc Heq.
    pose proof (fused_ref_spec a Ha) as (_ & Hida & _).
    pose proof (fused_ref_spec c Hc) as (_ & Hidc & _).
    pose proof (fused_items_elem_of a Ha) as [Hsa _].
    pose proof (fused_items_elem_of c Hc) as [Hsc _].
    rewrite Heq, Hidc in Hida.
    destruct a as [xa sa], c as [xc sc]. simpl in *. by subst.
  - eapply NoDup_fmap_1, fused_items_NoDup.
Qed.

(** The call returns: the store with the fused scores written into the
    objects of [chunk_map], and these objects in descending order of
    their fused scores. *)
Lemma rrf_run :
  reciprocal_rank_fusion set_iter h vs bs k
  = Ok (fold_left
          (fun h' item => set_score h' (fused_ref h vs bs item) item.2)
          (fused_items set_iter h vs bs k) h,
        map (fused_ref h vs bs) (fused_items set_iter h vs bs k)).
Proof.
  unfold reciprocal_rank_fusion.
  rewrite (for_each_collect _
             (fun x => (x, rrf_value (rank_map h vs) (rank_map h bs) k x))).
  2:{ intros acc x _. by rewrite rrf_score_ok. }
  cbn [mbind result_bind]. simpl app.
  fold (fused_items set_iter h vs bs k).
  rewrite fuse_loop.
  - done.
  - intros item Hin. destruct (fused_ref_spec item Hin) as [-> _]. by eexists.
Qed.

End RankFusion.

Lemma StronglySorted_fmap_elem_of {A B : Type} (f : A -> B)
    (R1 : relation A) (R2 : relation B) l :
  (forall x y, x ∈ l -> y ∈ l -> R1 x y -> R2 (f x) (f y)) ->
  StronglySorted R1 l -> StronglySorted R2 (f <$> l).
Proof.
  intros Hf Hs. induction Hs as [|x l Hs IH Hx]; [constructor|].
  simpl. constructor.
  - apply IH. intros a c Ha Hc. apply Hf; by right.
  - rewrite Forall_fmap. rewrite Forall_forall in Hx |- *.
    intros y Hy. simpl. apply Hf; [by left|by right|by apply Hx].
Qed.

Section RankFusionResult.
Import Retrieval Spec.
Variable set_iter : gset UUID -> list UUID.
Hypothesis set_iter_order : iteration_order set_iter.
Variable h : store.
Variables vs bs : list ref.
Variable k : Z.
Hypothesis k_pos : 0 < k.

Lemma fused_out_elem_of r :
  r ∈ map (fused_ref h vs bs) (fused_items set_iter h vs bs k) ->
  exists item,
    item ∈ fused_items set_iter h vs bs k /\ r = fused_ref h vs bs item.
Proof.
  intros Hr. apply (list_elem_of_fmap (fused_ref h vs bs)) in Hr
    as (item & -> & Hin). by exists item.
Qed.

(** The object that [chunk_map] holds for its own identifier is
    returned. *)
Lemma fused_out_complete r :
  chunk_map_of h vs bs !! chunk_id (h r) = Some r ->
  r ∈ map (fused_ref h vs bs) (fused_items set_iter h vs bs k).
Proof.
  intros Hr.
  assert (Hid : chunk_id (h r) ∈ (fused_items set_iter h vs bs k).*1).
  { rewrite fused_items_fst. apply order_elem_of; [done|].
    destruct (chunk_map_Some h vs bs _ r Hr) as [_ [Hb|[Hv _]]].
    - right. by apply (list_elem_of_fmap_2 (fun r => chunk_id (h r))).
    - left. by apply (list_elem_of_fmap_2 (fun r => chunk_id (h r))). }
  apply list_elem_of_fmap in Hid as ([x s] & Hx & Hin). simpl in Hx.
  apply (list_elem_of_fmap (fused_ref h vs bs)). exists (x, s).
  split; [|done]. subst x. unfold fused_ref, ref in *. simpl.
  by rewrite Hr.
Qed.

(** The returned objects carry the identifiers of the sorted items. *)
Lemma fused_out_ids h' :
  (forall r, chunk_id (h' r) = chunk_id (h r)) ->
  ids h' (map (fused_ref h vs bs) (fused_items set_iter h vs bs k))
  = (fused_items set_iter h vs bs k).*1.
Proof.
  intros Hid. unfold ids.
  change (map (fused_ref h vs bs) (fused_items set_iter h vs bs k))
    with (fused_ref h vs bs <$> fused_items set_iter h vs bs k).
  rewrite <- list_fmap_compose. apply list_fmap_ext.
  intros i item Hi. apply list_elem_of_lookup_2 in Hi as Hin.
  simpl. rewrite Hid.
  by destruct (fused_ref_spec set_iter set_iter_order h vs bs k item Hin)
    as (_ & -> & _).
Qed.

(** In lists without repeated identifiers the fused score is given by
    the positions of the identifier. *)
Lemma rrf_value_positions x :
  NoDup (ids h vs) -> NoDup (ids h bs) ->
  (forall i j, ids h vs !! i = Some x -> ids h bs !! j = Some x ->
     rrf_value (rank_map h vs) (rank_map h bs) k x
     = (0 + 1 / IZR (k + Z.of_nat i) + 1 / IZR (k + Z.of_nat j))%R) /\
  (forall i, ids h vs !! i = Some x -> x ∉ ids h bs ->
     rrf_value (rank_map h vs) (rank_map h bs) k x
     = (0 + 1 / IZR (k + Z.of_nat i))%R) /\
  (forall j, x ∉ ids h vs -> ids h bs !! j = Some x ->
     rrf_value (rank_map h vs) (rank_map h bs) k x
     = (0 + 1 / IZR (k + Z.of_nat j))%R).
Proof.
  intros Hv Hb. unfold rrf_value. split_and!.
  - intros i j Hi Hj.
    by rewrite (rank_map_NoDup h vs x i Hv Hi), (rank_map_NoDup h bs x j Hb Hj).
  - intros i Hi Hx.
    by rewrite (rank_map_NoDup h vs x i Hv Hi), (rank_map_None h bs x Hx).
  - intros j Hx Hj.
    by rewrite (rank_map_None h vs x Hx), (rank_map_NoDup h bs x j Hb Hj).
Qed.

End RankFusionResult.

(** The denominators [k + rank] of the first three ranks for [k = 60]. *)
Ltac ranks_60 :=
  try change (60 + Z.of_nat 0) with 60;
  try change (60 + Z.of_nat 1) with 61;
  try change (60 + Z.of_nat 2) with 62.

Section RankFusionTheorems.
Import Retrieval Spec.

(** What the call returns, in terms of the input store. *)
Lemma rrf_result
    (set_iter : gset UUID -> list UUID) (h : store)
    (vector_results bm25_results : list ref) (k : Z) :
  iteration_order set_iter -> 0 < k ->
  exists h' out,
    reciprocal_rank_fusion set_iter h vector_results bm25_results k
    = Ok (h', out) /\
    out = map (fused_ref h vector_results bm25_results)
              (fused_items set_iter h vector_results bm25_results k) /\
    (forall r, r ∈ out ->
       (r ∈ vector_results \/ r ∈ bm25_results) /\
       (chunk_id (h r) ∈ ids h bm25_results -> r ∈ bm25_results)) /\
    (forall r, r ∈ out ->
       score (h' r)
       = rrf_value (rank_map h vector_results) (rank_map h bm25_results) k
           (chunk_id (h r))) /\
    (forall r, same_but_score (h r) (h' r)) /\
    (forall r, r ∉ out -> h' r = h r).
Proof.
  intros Hiter Hk. do 2 eexists. split; [by apply rrf_run|].
  split; [done|]. split_and!.
  - intros r Hr. apply fused_out_elem_of in Hr as (item & Hin & ->).
    destruct (fused_ref_spec set_iter Hiter h vector_results bm25_results k
                item Hin) as (_ & Hid & Hwhere).
    rewrite Hid. split; [tauto|]. intros Hb. tauto.
  - intros r Hr. apply fused_out_elem_of in Hr as (item & Hin & ->).
    rewrite (set_scores_lookup (fused_ref h vector_results bm25_results));
      [|by apply fused_refs_NoDup|done].
    destruct (fused_ref_spec set_iter Hiter h vector_results bm25_results k
                item Hin) as (_ & -> & _).
    by apply fused_items_elem_of in Hin as [-> _].
  - intros r. apply set_scores_same_but_score.
  - intros r Hr. by apply set_scores_frame.
Qed.

(** C10. Rank fusion returns objects that it received: each returned
    object belongs to one of the two input lists, and when its identifier
    occurs in the BM25 list it is an object of the BM25 list. Every
    identifier of either list is returned, once. The score of every
    returned object is overwritten in the store with its fused value, so
    the caller's lists see the new scores: in a BM25 list without
    repeated identifiers every object is returned and holds its fused
    score afterwards, and so does every object of a vector list without
    repeated identifiers whose identifier is not in the BM25 list. An
    object of the vector list that shares its identifier with another
    object, of the BM25 list, is not returned and keeps its score. Every
    other field of every object is unchanged, and objects that are not
    returned are not touched at all. *)
Theorem fusion_mutates_returned_objects_in_place
    (set_iter : gset UUID -> list UUID) (h : store)
    (vector_results bm25_results : list ref) (k : Z) :
  iteration_order set_iter -> 0 < k ->
  exists h' out,
    reciprocal_rank_fusion set_iter h vector_results bm25_results k
    = Ok (h', out) /\
    (forall r, r ∈ out ->
       (r ∈ vector_results \/ r ∈ bm25_results) /\
       (chunk_id (h r) ∈ ids h bm25_results -> r ∈ bm25_results)) /\
    (forall r, r ∈ out ->
       score (h' r)
       = rrf_value (rank_map h vector_results) (rank_map h bm25_results) k
           (chunk_id (h r))) /\
    (forall r, same_but_score (h r) (h' r)) /\
    (forall r, r ∉ out -> h' r = h r) /\
    NoDup (ids h' out) /\
    (forall x, x ∈ ids h' out <->
       x ∈ ids h vector_results \/ x ∈ ids h bm25_results) /\
    (NoDup (ids h bm25_results) ->
     forall r, r ∈ bm25_results ->
       r ∈ out /\
       score (h' r)
       = rrf_value (rank_map h vector_results) (rank_map h bm25_results) k
           (chunk_id (h r))) /\
    (NoDup (ids h vector_results) ->
     forall r, r ∈ vector_results -> chunk_id (h r) ∉ ids h bm25_results ->
       r ∈ out /\
       score (h' r)
       = rrf_value (rank_map h vector_results) (rank_map h bm25_results) k
           (chunk_id (h r))) /\
    (forall r, r ∈ vector_results -> r ∉ bm25_results ->
       chunk_id (h r) ∈ ids h bm25_results ->
       (r ∉ out) /\ h' r = h r).
Proof.
  intros Hiter Hk.
  destruct (rrf_result set_iter h vector_results bm25_results k Hiter Hk)
    as (h' & out & Hrun & Hout & Hwhere & Hscore & Hsame & Hframe).
  exists h', out.
  assert (Hid : forall r, chunk_id (h' r) = chunk_id (h r)).
  { intros r. by destruct (Hsame r) as [-> _]. }
  assert (Hids : ids h' out
                 = (fused_items set_iter h vector_results bm25_results k).*1).
  { rewrite Hout. by apply fused_out_ids. }
  split_and!; try done.
  - rewrite Hids. by apply fused_items_NoDup.
  - intros x. rewrite Hids, fused_items_fst. by apply order_elem_of.
  - intros Hnd r Hr.
    assert (Hin : r ∈ out).
    { rewrite Hout. apply fused_out_complete; [done|].
      by apply chunk_map_bm25. }
    split; [exact Hin|by apply Hscore].
  - intros Hnd r Hr Hnot.
    assert (Hin : r ∈ out).
    { rewrite Hout. apply fused_out_complete; [done|].
      by apply chunk_map_vector. }
    split; [exact Hin|by apply Hscore].
  - intros r Hv Hb Hshared.
    assert (Hnot : r ∉ out).
    { intros Hin. apply Hb. by apply (Hwhere r Hin). }
    split; [exact Hnot|by apply Hframe].
Qed.

Lemma fusion_mutates_returned_objects_in_place_witness :
  iteration_order elements /\ 0 < 60 /\
  exists h' out,
    reciprocal_rank_fusion elements Samples.sample_store [0; 1; 2]%nat
      [3; 4; 5]%nat 60 = Ok (h', out) /\
    3%nat ∈ out /\
    score (Samples.sample_store 3%nat) = 5%R /\
    score (h' 3%nat) = (1 / 62 + 1 / 60)%R /\
    (0%nat ∉ out) /\
    h' 0%nat = Samples.sample_store 0%nat.
Proof.
  assert (Hiter : iteration_order elements).
  { intros X. split; [apply NoDup_elements|]. intros x. apply elem_of_elements. }
  split; [exact Hiter|]. split; [lia|].
  destruct (fusion_mutates_returned_objects_in_place elements
              Samples.sample_store [0; 1; 2]%nat [3; 4; 5]%nat 60 Hiter
              ltac:(lia))
    as (h' & out & Hrun & _ & _ & _ & _ & _ & _ & Hbm & _ & Hold).
  exists h', out. split; [exact Hrun|].
  assert (Hnd : NoDup (ids Samples.sample_store [3; 4; 5]%nat)).
  { apply (bool_decide_unpack _). by vm_compute. }
  destruct (Hbm Hnd 3%nat ltac:(by left)) as [Hin Hscore].
  destruct (Hold 0%nat) as [Hnot Hsame].
  { by left. }
  { rewrite !not_elem_of_cons. split_and!; try done. apply not_elem_of_nil. }
  { apply (bool_decide_unpack _). by vm_compute. }
  split_and!; [exact Hin|reflexivity| |exact Hnot|exact Hsame].
  transitivity (0 + 1 / IZR (60 + Z.of_nat 2) + 1 / IZR (60 + Z.of_nat 0))%R;
    [exact Hscore|ranks_60; lra].
Defined.

(** C2. For a positive [k] (60 by default) and lists without repeated
    identifiers, rank fusion returns every identifier of either list
    exactly once; the score of each returned chunk is the sum, over the
    lists that contain its identifier, of [1 / (k + rank)] with the
    0-based rank in that list, an identifier of one list only getting
    that list's term only; and the returned chunks are in descending
    order of this score. For vector identifiers [A, B, C] and BM25
    identifiers [C, A, D] with [k = 60] the returned order is
    [A, C, B, D]. *)
Theorem reciprocal_rank_fusion_scores_and_order
    (set_iter : gset UUID -> list UUID) (h : store)
    (vector_results bm25_results : list ref) (k : Z) :
  iteration_order set_iter -> 0 < k ->
  NoDup (ids h vector_results) -> NoDup (ids h bm25_results) ->
  exists h' out,
    reciprocal_rank_fusion set_iter h vector_results bm25_results k
    = Ok (h', out) /\
    NoDup (ids h' out) /\
    (forall x, x ∈ ids h' out <->
       x ∈ ids h vector_results \/ x ∈ ids h bm25_results) /\
    (forall r, r ∈ out ->
       let x := chunk_id (h' r) in
       (forall i j,
          ids h vector_results !! i = Some x ->
          ids h bm25_results !! j = Some x ->
          score (h' r)
          = (0 + 1 / IZR (k + Z.of_nat i) + 1 / IZR (k + Z.of_nat j))%R) /\
       (forall i,
          ids h vector_results !! i = Some x -> x ∉ ids h bm25_results ->
          score (h' r) = (0 + 1 / IZR (k + Z.of_nat i))%R) /\
       (forall j,
          x ∉ ids h vector_results -> ids h bm25_results !! j = Some x ->
          score (h' r) = (0 + 1 / IZR (k + Z.of_nat j))%R)) /\
    StronglySorted (desc (fun r => score (h' r))) out /\
    (forall A B C D,
       ids h vector_results = [A; B; C] ->
       ids h bm25_results = [C; A; D] ->
       NoDup [A; B; C; D] -> k = 60 ->
       ids h' out = [A; C; B; D]).
Proof.
  intros Hiter Hk Hv Hb.
  destruct (rrf_result set_iter h vector_results bm25_results k Hiter Hk)
    as (h' & out & Hrun & Hout & _ & Hscore & Hsame & _).
  exists h', out. split; [exact Hrun|].
  symmetry in Hout.
  assert (Hid : forall r, chunk_id (h' r) = chunk_id (h r)).
  { intros r. by destruct (Hsame r) as [-> _]. }
  assert (Hids : ids h' out
                 = (fused_items set_iter h vector_results bm25_results k).*1).
  { rewrite <- Hout. by apply fused_out_ids. }
  assert (Hsorted : StronglySorted (desc (fun r => score (h' r))) out).
  { rewrite <- Hout.
    apply (StronglySorted_fmap_elem_of _ (desc snd));
      [|by apply fused_items_sorted].
    intros a c Ha Hc Hac. unfold desc in *.
    assert (Hsc : forall item,
              item ∈ fused_items set_iter h vector_results bm25_results k ->
              score (h' (fused_ref h vector_results bm25_results item))
              = item.2).
    { intros item Hin. rewrite Hscore.
      - destruct (fused_ref_spec set_iter Hiter h vector_results
                    bm25_results k item Hin) as (_ & -> & _).
        by apply fused_items_elem_of in Hin as [-> _].
      - rewrite <- Hout.
        by apply (list_elem_of_fmap_2
                    (fused_ref h vector_results bm25_results)). }
    by rewrite !Hsc. }
  split_and!.
  - rewrite Hids. by apply fused_items_NoDup.
  - intros x. rewrite Hids, fused_items_fst.
    by apply order_elem_of.
  - intros r Hr x. subst x. rewrite (Hscore r Hr), Hid.
    by apply rrf_value_positions.
  - exact Hsorted.
  - intros A B C D HA HB Hnd ->.
    assert (HAB : A <> B /\ A <> C /\ A <> D /\ B <> C /\ B <> D /\ C <> D).
    { apply NoDup_cons in Hnd as [HA' Hnd].
      apply NoDup_cons in Hnd as [HB' Hnd].
      apply NoDup_cons in Hnd as [HC' _].
      rewrite !not_elem_of_cons in HA'. rewrite !not_elem_of_cons in HB'.
      rewrite !not_elem_of_cons in HC'.
      destruct HA' as (? & ? & ? & _), HB' as (? & ? & _), HC' as (? & _).
      done. }
    destruct HAB as (HAB & HAC & HAD & HBC & HBD & HCD).
    set (rv := rrf_value (rank_map h vector_results)
                 (rank_map h bm25_results) 60).
    assert (HrA : rv A = (0 + 1 / 60 + 1 / 61)%R).
    { destruct (rrf_value_positions h vector_results bm25_results 60 A Hv Hb)
        as (Hboth & _ & _).
      unfold rv. rewrite (Hboth 0%nat 1%nat) by (by rewrite ?HA, ?HB).
      ranks_60; lra. }
    assert (HrC : rv C = (0 + 1 / 62 + 1 / 60)%R).
    { destruct (rrf_value_positions h vector_results bm25_results 60 C Hv Hb)
        as (Hboth & _ & _).
      unfold rv. rewrite (Hboth 2%nat 0%nat) by (by rewrite ?HA, ?HB).
      ranks_60; lra. }
    assert (HrB : rv B = (0 + 1 / 61)%R).
    { destruct (rrf_value_positions h vector_results bm25_results 60 B Hv Hb)
        as (_ & Hvec & _).
      unfold rv. rewrite (Hvec 1%nat); [ranks_60; lra|by rewrite HA|].
      rewrite HB, !not_elem_of_cons. split_and!; try done; apply not_elem_of_nil. }
    assert (HrD : rv D = (0 + 1 / 62)%R).
    { destruct (rrf_value_positions h vector_results bm25_results 60 D Hv Hb)
        as (_ & _ & Hbm).
      unfold rv. rewrite (Hbm 2%nat); [ranks_60; lra| |by rewrite HB].
      rewrite HA, !not_elem_of_cons. split_and!; try done; apply not_elem_of_nil. }
    assert (Hmem : forall x,
              x ∈ (fused_items set_iter h vector_results bm25_results 60).*1
              <-> x ∈ [A; C; B; D]).
    { intros x. rewrite fused_items_fst, order_elem_of by done.
      rewrite HA, HB, !elem_of_cons, !elem_of_nil. tauto. }
    rewrite Hids.
    apply (StronglySorted_unique_strong (fun x y => (rv y <= rv x)%R)).
    + intros x1 x2 H1 H2 H12 H21. apply Hmem in H1.
      rewrite !elem_of_cons, !elem_of_nil in H1, H2.
      destruct H1 as [->|[->|[->|[->|[]]]]];
        destruct H2 as [->|[->|[->|[->|[]]]]];
        try done; rewrite ?HrA, ?HrB, ?HrC, ?HrD in H12, H21; lra.
    + apply (StronglySorted_fmap_elem_of _ (desc snd));
        [|by apply fused_items_sorted].
      intros a c Ha Hc Hac. unfold desc in Hac.
      apply fused_items_elem_of in Ha as [Ha _]; [|done].
      apply fused_items_elem_of in Hc as [Hc _]; [|done].
      unfold rv. by rewrite <- Ha, <- Hc.
    + repeat constructor; rewrite ?Forall_cons, ?HrA, ?HrB, ?HrC, ?HrD;
        repeat split; try lra; constructor.
    + apply NoDup_Permutation; [by apply fused_items_NoDup| |exact Hmem].
      repeat constructor; rewrite ?not_elem_of_cons;
        repeat split; try done; try apply not_elem_of_nil; congruence.
Qed.

End RankFusionTheorems.

Section RankFusionExamples.
Import Retrieval Spec Samples.

Lemma reciprocal_rank_fusion_scores_and_order_witness :
  iteration_order elements /\ 0 < 60 /\
  NoDup (ids sample_store [0; 1; 2]%nat) /\
  NoDup (ids sample_store [3; 4; 5]%nat) /\
  exists h' out,
    reciprocal_rank_fusion elements sample_store [0; 1; 2]%nat
      [3; 4; 5]%nat 60 = Ok (h', out) /\
    ids h' out = [10; 12; 11; 13]%N.
Proof.
  assert (Hiter : iteration_order elements).
  { intros X. split; [apply NoDup_elements|]. intros x. apply elem_of_elements. }
  assert (Hv : NoDup (ids sample_store [0; 1; 2]%nat)).
  { apply (bool_decide_unpack _). by vm_compute. }
  assert (Hb : NoDup (ids sample_store [3; 4; 5]%nat)).
  { apply (bool_decide_unpack _). by vm_compute. }
  split_and!; [exact Hiter|lia|exact Hv|exact Hb|].
  destruct (reciprocal_rank_fusion_scores_and_order elements sample_store
              [0; 1; 2]%nat [3; 4; 5]%nat 60 Hiter ltac:(lia) Hv Hb)
    as (h' & out & Hrun & _ & _ & _ & _ & Horder).
  exists h', out. split; [exact Hrun|].
  apply (Horder 10%N 11%N 12%N 13%N); [reflexivity|reflexivity| |reflexivity].
  apply (bool_decide_unpack _). by vm_compute.
Defined.

End RankFusionExamples.

(** ** Batch embedding generation *)


Section BatchEmbeddings.
Import Embeddings Spec.
Variable self : EmbeddingGenerator.
Variable create : nat -> list string -> api_outcome.
Variable embed : string -> embedding.
Hypothesis provider_in_order :
  forall ts, _generate_with_retry self create ts = Ok (map embed ts).
Hypothesis batch_size_pos : 0 < batch_size self.
Variable cache : gmap string embedding.

Lemma scan_spec its e ui ut :
  fold_left (scan_step self cache) its (mkScan e ui ut)
  = mkScan (e ++ cache_hits self cache its)
           (ui ++ (cache_misses self cache its).*1)
           (ut ++ (cache_misses self cache its).*2).
Proof.
  revert e ui ut. induction its as [|it its IH]; intros e ui ut.
  - simpl. by rewrite !app_nil_r.
  - cbn [fold_left]. unfold scan_step at 2, cache_hits, cache_misses.
    cbn [omap list_omap]. fold (cache_hits self cache its).
    fold (cache_misses self cache its).
    destruct (cache_get self cache it.2) as [cached|]; simpl;
      rewrite IH; by rewrite <- ?app_assoc.
Qed.











End BatchEmbeddings.

Section BatchEmbeddingsTheorem.
Import Embeddings Spec.


End BatchEmbeddingsTheorem.

Section BatchEmbeddingsExamples.
Import Embeddings Spec Samples.


End BatchEmbeddingsExamples.

(** ** Strings: stripping and splitting *)

Section Strings.
Import Spec.

Lemma chars_app (a b : string) :
  list_ascii_of_string (a +:+ b)
  = list_ascii_of_string a ++ list_ascii_of_string b.
Proof.
  induction a as [|c a IH]; [done|].
  change (c :: list_ascii_of_string (a +:+ b)
          = c :: (list_ascii_of_string a ++ list_ascii_of_string b)).
  by rewrite IH.
Qed.

Lemma nonspace_app (a b : string) :
  nonspace (a +:+ b) = nonspace a ++ nonspace b.
Proof. unfold nonspace. by rewrite chars_app, List.filter_app. Qed.

Lemma nonspace_cons c s :
  nonspace (String c s)
  = if Py.is_space c then nonspace s else c :: nonspace s.
Proof. unfold nonspace. simpl. by destruct (Py.is_space c). Qed.

Lemma is_empty_true s : Py.is_empty s = true <-> s = EmptyString.
Proof. by destruct s. Qed.

Lemma nonspace_lstrip s : nonspace (Py.lstrip s) = nonspace s.
Proof.
  induction s as [|c s IH]; [done|]. simpl.
  rewrite nonspace_cons. destruct (Py.is_space c) eqn:Hc; [done|].
  by rewrite nonspace_cons, Hc.
Qed.

Lemma nonspace_rstrip s : nonspace (Py.rstrip s) = nonspace s.
Proof.
  induction s as [|c s IH]; [done|]. simpl.
  rewrite nonspace_cons.
  destruct (Py.is_space c) eqn:Hc; simpl.
  - destruct (Py.is_empty (Py.rstrip s)) eqn:He.
    + apply is_empty_true in He. rewrite He in IH. by rewrite <- IH.
    + by rewrite nonspace_cons, Hc.
  - by rewrite nonspace_cons, Hc, IH.
Qed.

(** Stripping keeps the characters that are not white space. *)
Lemma nonspace_strip s : nonspace (Py.strip s) = nonspace s.
Proof. unfold Py.strip. by rewrite nonspace_rstrip, nonspace_lstrip. Qed.

Lemma lstrip_head s :
  Py.lstrip s = EmptyString \/
  exists c r, Py.lstrip s = String c r /\ Py.is_space c = false.
Proof.
  induction s as [|c s IH]; [by left|]. simpl.
  destruct (Py.is_space c) eqn:Hc; [done|]. right. by exists c, s.
Qed.

Lemma lstrip_fixed c r :
  Py.is_space c = false -> Py.lstrip (String c r) = String c r.
Proof. intros Hc. simpl. by rewrite Hc. Qed.

Lemma rstrip_head c r :
  Py.is_space c = false -> Py.rstrip (String c r) = String c (Py.rstrip r).
Proof. intros Hc. simpl. by rewrite Hc. Qed.

Lemma rstrip_idemp s : Py.rstrip (Py.rstrip s) = Py.rstrip s.
Proof.
  induction s as [|c s IH]; [done|]. simpl.
  destruct (Py.is_space c && Py.is_empty (Py.rstrip s)) eqn:Hcond; [done|].
  simpl. by rewrite IH, Hcond.
Qed.

(** A stripped string is empty or starts with a character that is not
    white space. *)
Lemma strip_head s :
  Py.strip s = EmptyString \/
  exists c r, Py.strip s = String c r /\ Py.is_space c = false.
Proof.
  unfold Py.strip. destruct (lstrip_head s) as [->|(c & r & -> & Hc)].
  - by left.
  - right. rewrite rstrip_head by done. by eexists _, _.
Qed.

Lemma strip_idemp s : Py.strip (Py.strip s) = Py.strip s.
Proof.
  destruct (strip_head s) as [->|(c & r & Hs & Hc)]; [done|].
  rewrite Hs. unfold Py.strip at 1. rewrite lstrip_fixed by done.
  rewrite <- Hs. unfold Py.strip. apply rstrip_idemp.
Qed.

(** A string strips to the empty string exactly when all its characters
    are white space. *)
Lemma strip_empty_iff s : Py.strip s = EmptyString <-> nonspace s = [].
Proof.
  split.
  - intros Hs. by rewrite <- nonspace_strip, Hs.
  - intros Hn. destruct (strip_head s) as [Hs|(c & r & Hs & Hc)]; [done|].
    rewrite <- nonspace_strip, Hs, nonspace_cons, Hc in Hn. done.
Qed.

Lemma truthy_strip s : Py.truthy (Py.strip s) = true <-> nonspace s <> [].
Proof.
  rewrite <- strip_empty_iff. unfold Py.truthy.
  destruct (Py.strip s); simpl; split; try done.
Qed.

Lemma is_newline_space c : Py.is_newline c = true -> Py.is_space c = true.
Proof.
  unfold Py.is_newline, Py.is_space. intros Hc.
  apply N.eqb_eq in Hc. by rewrite Hc.
Qed.

(** The characters that a match of the blank-line expression passes
    over are white space. *)
Lemma blank_span_spaces s n :
  Py.blank_span s = Some n ->
  Forall (fun c => Py.is_space c = true) (take n (list_ascii_of_string s)).
Proof.
  revert n. induction s as [|c s IH]; intros n; [done|]. simpl.
  destruct (Py.is_space c) eqn:Hc; [|done].
  destruct (Py.blank_span s) as [m|].
  - intros [= <-]. simpl. constructor; [done|]. by apply IH.
  - destruct (Py.is_newline c); [|done]. intros [= <-].
    cbn [list_ascii_of_string take]. rewrite take_0.
    constructor; [done|constructor].
Qed.

(** Splitting at blank lines keeps, in order, the characters that are
    not white space. *)
Lemma re_split_blank_nonspace skip cur s :
  Forall (fun c => Py.is_space c = true)
         (take skip (list_ascii_of_string s)) ->
  concat (nonspace <$> Py.re_split_blank skip cur s)
  = nonspace cur ++ nonspace s.
Proof.
  revert skip cur. induction s as [|c s IH]; intros skip cur Hskip.
  - by destruct skip; cbn [Py.re_split_blank fmap list_fmap concat].
  - destruct skip as [|n]; cbn [Py.re_split_blank].
    + assert (Hplain :
        concat (nonspace <$>
                  Py.re_split_blank 0 (cur +:+ String c EmptyString) s)
        = nonspace cur ++ nonspace (String c s)).
      { rewrite IH by (rewrite take_0; constructor).
        rewrite nonspace_app, <- app_assoc. f_equal.
        rewrite !nonspace_cons. by destruct (Py.is_space c). }
      destruct (Py.is_newline c) eqn:Hnl; [|exact Hplain].
      destruct (Py.blank_span s) as [n|] eqn:Hspan; [|exact Hplain].
      cbn [fmap list_fmap concat].
      rewrite IH by (by apply blank_span_spaces).
      rewrite nonspace_cons, (is_newline_space c Hnl). done.
    + simpl in Hskip. apply Forall_cons in Hskip as [Hc Hskip].
      rewrite IH by done. by rewrite nonspace_cons, Hc.
Qed.

End Strings.

Section Paragraphs.
Import Chunker Spec.

Lemma split_into_paragraphs_omap (pieces : list string) :
  Forall (fun p => p <> EmptyString /\ Py.strip p = p)
    (omap (fun p => if Py.truthy (Py.strip p) then Some (Py.strip p)
                    else None) pieces) /\
  concat (nonspace <$>
            omap (fun p => if Py.truthy (Py.strip p) then Some (Py.strip p)
                           else None) pieces)
  = concat (nonspace <$> pieces).
Proof.
  induction pieces as [|p pieces [IH1 IH2]]; [by split|].
  cbn [omap list_omap fmap list_fmap concat].
  destruct (Py.truthy (Py.strip p)) eqn:Hp.
  - split.
    + constructor; [|done]. split; [|apply strip_idemp].
      intros He. by rewrite He in Hp.
    + cbn [fmap list_fmap concat]. by rewrite nonspace_strip, IH2.
  - split; [done|]. rewrite IH2.
    assert (Hn : nonspace p = []).
    { apply strip_empty_iff. by destruct (Py.strip p). }
    by rewrite Hn.
Qed.

(** X1. The paragraphs of a text are not empty and carry no white space at
    either end, and together they hold, in order, exactly the characters
    of the text that are not white space: splitting loses and reorders
    nothing but white space. *)
Theorem paragraphs_keep_text (content : string) :
  Forall (fun p => p <> EmptyString /\ Py.strip p = p)
         (_split_into_paragraphs content) /\
  concat (nonspace <$> _split_into_paragraphs content) = nonspace content.
Proof.
  unfold _split_into_paragraphs.
  destruct (split_into_paragraphs_omap
              (Py.re_split_blank 0 EmptyString content)) as [H1 H2].
  split; [exact H1|]. rewrite H2.
  by rewrite re_split_blank_nonspace by (rewrite take_0; constructor).
Qed.

End Paragraphs.

(** ** More on the chunker *)

Section SplitLoopText.
Import Parser Chunker Spec.
Variable self : SemanticChunker.
Variable heading_path : list string.
Variable document : ParsedDocument.
Variable section : Section_.

Lemma split_step_nonblank st p :
  nonspace p <> [] ->
  nonspace (current_chunk_text
              (split_step self heading_path document section st p)) <> [].
Proof.
  intros Hp. unfold split_step.
  destruct (_ >? _); [destruct (_ >=? _)|]; cbn [current_chunk_text];
    try destruct (Py.truthy _);
    rewrite ?nonspace_app; intros He;
    repeat (apply app_eq_nil in He as [? He]); done.
Qed.

Lemma split_loop_nonblank ps :
  ps <> [] -> Forall (fun p => nonspace p <> []) ps ->
  nonspace (current_chunk_text
              (split_loop self heading_path document section ps)) <> [].
Proof.
  destruct ps as [|p ps _] using rev_ind; [done|]. intros _ Hall.
  rewrite split_loop_snoc. apply split_step_nonblank.
  apply Forall_app in Hall as [_ Hp]. by apply Forall_cons in Hp as [Hp _].
Qed.

(** The chunks closed so far stay in place when the loop goes on. *)
Lemma split_loop_chunks_prefix ps qs :
  chunks (split_loop self heading_path document section ps)
  `prefix_of`
  chunks (split_loop self heading_path document section (ps ++ qs)).
Proof.
  induction qs as [|q qs IH] using rev_ind.
  - by rewrite app_nil_r.
  - rewrite app_assoc, split_loop_snoc. etrans; [exact IH|].
    unfold split_step.
    destruct (_ >? _); [destruct (_ >=? _)|]; cbn [chunks];
      try done. by apply prefix_app_r.
Qed.

Lemma split_flush_prefix st :
  chunks st `prefix_of`
  split_flush self heading_path document section st.
Proof.
  unfold split_flush. destruct (Py.truthy _); [|done].
  by apply prefix_app_r.
Qed.

(** Every chunk of a split section is made by [_create_chunk] for this
    section, numbered by its position. *)
Lemma split_loop_created ps :
  let st := split_loop self heading_path document section ps in
  chunk_index st = Z.of_nat (length (chunks st)) /\
  forall i ck, chunks st !! i = Some ck ->
    exists t, ck = _create_chunk self t heading_path document section
                     (Z.of_nat i).
Proof.
  induction ps as [|p ps IH] using rev_ind; [by split|].
  cbn zeta in *. rewrite split_loop_snoc. destruct IH as [Hidx Hall].
  unfold split_step.
  destruct (_ >? _); [destruct (_ >=? _)|]; cbn [chunks chunk_index];
    try (by split).
  split; [rewrite length_app; simpl; lia|].
  intros i ck Hi. apply lookup_snoc_Some in Hi as [[_ Hi]|[-> <-]].
  - by apply Hall.
  - rewrite <- Hidx. by eexists.
Qed.

Lemma split_large_section_created i ck :
  _split_large_section self section heading_path document !! i = Some ck ->
  exists t, ck = _create_chunk self t heading_path document section
                   (Z.of_nat i).
Proof.
  unfold _split_large_section, split_flush.
  destruct (split_loop_created (_split_into_paragraphs (content section)))
    as [Hidx Hall].
  destruct (Py.truthy _); [|by apply Hall].
  intros Hi. apply lookup_snoc_Some in Hi as [[_ Hi]|[-> <-]].
  - by apply Hall.
  - rewrite <- Hidx. by eexists.
Qed.

End SplitLoopText.

Section ChunkSection.
Import Parser Chunker Spec.
Variable self : SemanticChunker.

Lemma paragraphs_nonblank content :
  Forall (fun p => nonspace p <> []) (_split_into_paragraphs content).
Proof.
  destruct (split_into_paragraphs_omap
              (Py.re_split_blank 0 EmptyString content)) as [H1 _].
  eapply Forall_impl; [exact H1|]. intros p [Hne Hs] Hn.
  apply strip_empty_iff in Hn. congruence.
Qed.

Lemma paragraphs_nil_iff content :
  _split_into_paragraphs content = [] <-> nonspace content = [].
Proof.
  pose proof (paragraphs_nonblank content) as Hall.
  assert (Hcat : concat (nonspace <$> _split_into_paragraphs content)
                 = nonspace content).
  { unfold _split_into_paragraphs.
    destruct (split_into_paragraphs_omap
                (Py.re_split_blank 0 EmptyString content)) as [_ H2].
    rewrite H2.
    by rewrite re_split_blank_nonspace by (rewrite take_0; constructor). }
  split.
  - intros Hnil. by rewrite Hnil in Hcat.
  - intros Hn. rewrite Hn in Hcat.
    destruct (_split_into_paragraphs content) as [|p ps]; [done|].
    apply Forall_cons in Hall as [Hp _].
    cbn [fmap list_fmap concat] in Hcat.
    by apply app_eq_nil in Hcat as [? _].
Qed.

Lemma chunk_section_created section heading_path document i ck :
  _chunk_section self section heading_path document !! i = Some ck ->
  exists t, ck = _create_chunk self t (map snd heading_path) document
                   section (Z.of_nat i).
Proof.
  unfold _chunk_section. destruct (_ <=? _).
  - destruct i as [|i]; [|done]. intros [= <-]. by eexists.
  - apply split_large_section_created.
Qed.

Lemma chunk_section_nil_iff section (heading_path : list (Z * string))
    document :
  _chunk_section self section heading_path document = [] <->
  oversized self section /\ Py.strip (content section) = EmptyString.
Proof.
  unfold _chunk_section, oversized.
  destruct (Z.leb_spec (count_tokens self (content section))
                       (max_chunk_size self)) as [Hfit|Hbig].
  { split; [done|]. intros [? _]. lia. }
  rewrite strip_empty_iff, <- paragraphs_nil_iff.
  unfold _split_large_section. split.
  - intros Hnil. split; [done|].
    destruct (_split_into_paragraphs (content section)) as [|p ps] eqn:Hps;
      [done|]. exfalso.
    pose proof (split_loop_nonblank self (map snd heading_path) document
                  section (p :: ps) ltac:(done)) as Hnb.
    rewrite <- Hps in Hnb. specialize (Hnb (paragraphs_nonblank _)).
    rewrite Hps in Hnb.
    apply truthy_strip in Hnb. unfold split_flush in Hnil.
    rewrite Hnb in Hnil. by apply app_eq_nil in Hnil as [_ ?].
  - by intros [_ ->].
Qed.

End ChunkSection.

Section ChunkerTheorems.
Import Parser Chunker Spec.

(** X2. A section yields no chunk at all exactly when it is oversized and
    its content is white space only; every other section yields at least
    one chunk. *)
Theorem chunk_section_empty_iff
    (self : SemanticChunker) (section : Section_)
    (heading_path : list (Z * string)) (document : ParsedDocument) :
  _chunk_section self section heading_path document = [] <->
  oversized self section /\ Py.strip (content section) = EmptyString.
Proof. apply chunk_section_nil_iff. Qed.

(** X3. With a positive minimum size, no chunk of a split section is empty
    and none starts or ends with white space. *)
Theorem split_chunks_not_blank
    (self : SemanticChunker) (section : Section_)
    (heading_path : list string) (document : ParsedDocument) :
  0 < min_chunk_size self ->
  Forall (fun ck => text ck <> EmptyString /\ Py.strip (text ck) = text ck)
         (_split_large_section self section heading_path document).
Proof.
  intros Hmin. unfold _split_large_section.
  set (ps := _split_into_paragraphs (content section)).
  assert (Hclosed :
    Forall (fun ck => text ck <> EmptyString /\ Py.strip (text ck) = text ck)
           (chunks (split_loop self heading_path document section ps))).
  { eapply Forall_impl;
      [apply (split_loop_chunks self heading_path document section ps)|].
    intros ck (_ & n & _ & Htext & Htokens). cbn zeta in *.
    rewrite Htext. split; [|apply strip_idemp].
    destruct (take n ps) as [|q qs] eqn:Htake.
    { simpl in Htokens. lia. }
    rewrite strip_empty_iff. apply split_loop_nonblank; [done|].
    rewrite <- Htake. apply Forall_take, paragraphs_nonblank. }
  unfold split_flush.
  destruct (Py.truthy _) eqn:Htruthy; [|exact Hclosed].
  apply Forall_app. split; [exact Hclosed|].
  constructor; [|constructor]. cbn [_create_chunk text].
  split; [|apply strip_idemp].
  intros He. by rewrite He in Htruthy.
Qed.

(** X4. With a minimum size of zero or less, a split section whose first
    paragraph alone exceeds the maximum starts with a chunk whose text is
    empty. *)
Theorem first_chunk_empty_without_minimum
    (self : SemanticChunker) (section : Section_)
    (heading_path : list string) (document : ParsedDocument)
    (p : string) (ps : list string) :
  min_chunk_size self <= 0 ->
  _split_into_paragraphs (content section) = p :: ps ->
  max_chunk_size self < count_tokens self p ->
  exists rest,
    _split_large_section self section heading_path document
    = _create_chunk self EmptyString heading_path document section 0 :: rest.
Proof.
  intros Hmin Hps Hbig. unfold _split_large_section. rewrite Hps.
  pose proof (split_loop_chunks_prefix self heading_path document section
                [p] ps) as [more Hmore].
  pose proof (split_flush_prefix self heading_path document section
                (split_loop self heading_path document section (p :: ps)))
    as [last Hlast].
  change ([p] ++ ps) with (p :: ps) in Hmore.
  rewrite Hlast, Hmore. clear Hlast Hmore.
  unfold split_loop at 1. cbn [fold_left]. unfold split_step at 1.
  cbn [split_init current_tokens current_chunk_text chunks chunk_index].
  destruct (Z.gtb_spec (0 + count_tokens self p) (max_chunk_size self));
    [|lia].
  destruct (Z.geb_spec 0 (min_chunk_size self)); [|lia].
  cbn [chunks app]. by eexists.
Qed.

(** X5. With [overlap_size] zero and a tokenizer that decodes what it
    encodes, the overlap is the whole buffer, as [tokens[-0:]] is the
    whole list: every chunk of a split section after the first is cut
    from a buffer that starts with the entire buffer of the chunk
    before it. *)
Theorem zero_overlap_repeats_whole_buffer
    (self : SemanticChunker) (section : Section_)
    (heading_path : list string) (document : ParsedDocument) :
  overlap_size self = 0 ->
  (forall s, decode (tokenizer self) (encode (tokenizer self) s) = s) ->
  (forall buffer, _get_overlap_text self buffer = buffer) /\
  exists buffers,
    map text (_split_large_section self section heading_path document)
    = map Py.strip buffers /\
    forall i prev next,
      buffers !! i = Some prev -> buffers !! S i = Some next ->
      exists rest, next = prev +:+ paragraph_sep +:+ rest.
Proof.
  intros Hz Hrt.
  assert (Hov : forall buffer, _get_overlap_text self buffer = buffer).
  { intros buffer. unfold _get_overlap_text. rewrite Hz.
    destruct (_ <=? _); [done|].
    unfold Py.slice_from. simpl. by rewrite drop_0. }
  split; [exact Hov|].
  destruct (split_large_section_cut_from self heading_path document section)
    as (buffers & Htext & Hseed).
  exists buffers. split; [exact Htext|].
  intros i prev next Hi HSi.
  destruct (Hseed i prev next Hi HSi) as [rest Hrest].
  exists rest. by rewrite Hov in Hrest.
Qed.

(** X6. The chunks of a section are numbered from zero in their metadata:
    the [i]-th chunk of a section carries [chunk_index = i], which is the
    value the ingestion pipeline reads back with [get]. *)
Theorem chunks_numbered_within_section
    (self : SemanticChunker) (section : Section_)
    (heading_path : list (Z * string)) (document : ParsedDocument)
    (i : nat) (ck : ContentChunk) :
  _chunk_section self section heading_path document !! i = Some ck ->
  Pipeline.get (metadata ck) "chunk_index" (MInt 0) = MInt (Z.of_nat i).
Proof.
  intros Hi. apply chunk_section_created in Hi as [t ->]. done.
Qed.

End ChunkerTheorems.

(** ** The Markdown parser *)

Section ParserFacts.
Import Parser MarkdownParser Spec.

Lemma match_heading_Some line lvl title :
  match_heading line = Some (lvl, title) ->
  1 <= lvl <= 6 /\ Py.strip title = title.
Proof.
  unfold match_heading.
  destruct (leading_hashes line) as [n rest]. cbn [fst snd].
  destruct rest as [|c [|d rest]]; [done|done|].
  destruct (Nat.leb_spec 1 n); [|done].
  destruct (Nat.leb_spec n 6); [|done].
  destruct (Py.is_space c); [|done].
  intros [= <- <-]. split; [lia|apply strip_idemp].
Qed.

(** The headings found are those of the heading lines, in the order of
    the lines. *)
Lemma headings_of_from n (lines : list string) :
  Forall (fun h : nat * Z * string =>
            (n <= h.1.1 < n + length lines)%nat /\
            1 <= h.1.2 <= 6 /\ Py.strip h.2 = h.2)
    (omap (fun il : nat * string =>
             match match_heading il.2 with
             | Some lt => Some (il.1, lt.1, lt.2)
             | None => None
             end)
          (Py.enumerate_from n lines)) /\
  StronglySorted (fun h h' : nat * Z * string => (h.1.1 < h'.1.1)%nat)
    (omap (fun il : nat * string =>
             match match_heading il.2 with
             | Some lt => Some (il.1, lt.1, lt.2)
             | None => None
             end)
          (Py.enumerate_from n lines)).
Proof.
  revert n. induction lines as [|line lines IH]; intros n.
  - split; constructor.
  - destruct (IH (S n)) as [Hall Hs].
    cbn [Py.enumerate_from omap list_omap]. cbn [fst snd].
    assert (Hall' :
      Forall (fun h : nat * Z * string =>
                (n <= h.1.1 < n + length (line :: lines))%nat /\
                1 <= h.1.2 <= 6 /\ Py.strip h.2 = h.2)
        (omap (fun il : nat * string =>
                 match match_heading il.2 with
                 | Some lt => Some (il.1, lt.1, lt.2)
                 | None => None
                 end)
              (Py.enumerate_from (S n) lines))).
    { eapply Forall_impl; [exact Hall|]. simpl. intros h (? & ? & ?).
      split_and!; try done; lia. }
    destruct (match_heading line) as [[lvl title]|] eqn:Hm; [|done].
    apply match_heading_Some in Hm as [Hlvl Htitle]. split.
    + constructor; [|exact Hall']. simpl. split_and!; try done; lia.
    + constructor; [exact Hs|].
      eapply Forall_impl; [exact Hall|]. simpl. intros h (? & _). lia.
Qed.

Lemma sections_of_length lines hs :
  length (sections_of lines hs) = length hs.
Proof.
  induction hs as [|[[i lvl] title] hs IH]; [done|].
  cbn [sections_of length]. by rewrite IH.
Qed.

(** The sections made from a list of headings that are in line order:
    levels, stripped texts, and line ranges that follow one another up
    to the last line. *)
Lemma sections_of_spec lines hs :
  Forall (fun h : nat * Z * string =>
            (h.1.1 < length lines)%nat /\
            1 <= h.1.2 <= 6 /\ Py.strip h.2 = h.2) hs ->
  StronglySorted (fun h h' : nat * Z * string => (h.1.1 < h'.1.1)%nat) hs ->
  Forall (fun s =>
            1 <= level s <= 6 /\
            Py.strip (heading s) = heading s /\
            Py.strip (content s) = content s /\
            0 <= line_start s < line_end s /\
            line_end s <= Z.of_nat (length lines))
         (sections_of lines hs) /\
  (forall s, head (sections_of lines hs) = Some s ->
     exists h, head hs = Some h /\ line_start s = Z.of_nat h.1.1) /\
  (forall i s s', sections_of lines hs !! i = Some s ->
     sections_of lines hs !! S i = Some s' ->
     line_end s = line_start s') /\
  (forall s, last (sections_of lines hs) = Some s ->
     line_end s = Z.of_nat (length lines)).
Proof.
  induction hs as [|[[i lvl] title] hs IH]; intros Hall Hs.
  - split_and!; [constructor|done|done|done].
  - apply Forall_cons in Hall as [(Hi & Hlvl & Htitle) Hall].
    apply StronglySorted_cons in Hs as [Hlt Hs].
    destruct (IH Hall Hs) as (IHall & IHhead & IHadj & IHlast).
    cbn [fst snd] in *. cbn [sections_of].
    set (end_line := match hs with
                     | (next, _, _) :: _ => next
                     | [] => length lines
                     end).
    assert (Hend : (i < end_line <= length lines)%nat).
    { subst end_line. destruct hs as [|[[j l'] t'] hs']; [lia|].
      apply Forall_cons in Hlt as [Hij _].
      apply Forall_cons in Hall as [(Hj & _) _]. simpl in *. lia. }
    split_and!.
    + constructor; [|exact IHall]. cbn [level heading content line_start
        line_end]. split_and!; try done; try lia. apply strip_idemp.
    + intros s [= <-]. exists (i, lvl, title). by split.
    + intros [|k] s s'.
      * cbn [lookup list_lookup]. intros [= <-] Hs'.
        cbn [line_end].
        destruct (IHhead s') as (h & Hh & ->).
        { by rewrite head_lookup. }
        subst end_line. destruct hs as [|[[j l'] t'] hs']; [done|].
        by injection Hh as <-.
      * cbn [lookup list_lookup]. apply IHadj.
    + intros s. rewrite last_cons.
      destruct (last (sections_of lines hs)) as [s'|] eqn:Hlast.
      * intros [= <-]. by apply IHlast.
      * intros [= <-]. cbn [line_end]. subst end_line.
        destruct hs as [|[[j l'] t'] hs']; [done|].
        cbn [sections_of] in Hlast. by rewrite last_cons in Hlast;
          destruct (last _).
Qed.

Lemma split_on_length sep cur s :
  Z.of_nat (length (Py.split_on sep cur s)) = 1 + Py.count sep s.
Proof.
  revert cur. induction s as [|c s IH]; intros cur; [done|].
  cbn [Py.split_on Py.count]. destruct (Ascii.eqb c sep).
  - cbn [length]. rewrite Nat2Z.inj_succ, IH. lia.
  - rewrite IH. lia.
Qed.

Lemma count_nonneg c s : 0 <= Py.count c s.
Proof.
  induction s as [|d s IH]; [done|].
  cbn [Py.count]. destruct (Ascii.eqb d c); lia.
Qed.

(** What [_parse_sections] returns, in terms of the heading lines. *)
Lemma parse_sections_spec content :
  let lines := Py.split_on Py.LF EmptyString content in
  let ss := _parse_sections content in
  ss <> [] /\
  Forall (fun s =>
            1 <= level s <= 6 /\
            Py.strip (heading s) = heading s /\
            Py.strip (Parser.content s) = Parser.content s /\
            0 <= line_start s < line_end s /\
            line_end s <= Z.of_nat (length lines)) ss /\
  (forall i s s', ss !! i = Some s -> ss !! S i = Some s' ->
     line_end s = line_start s') /\
  (forall s, last ss = Some s -> line_end s = Z.of_nat (length lines)) /\
  (headings_of lines = [] ->
     ss = [mkSection "Introduction" 1 (Py.strip content) 0
             (Z.of_nat (length lines)) (_extract_code_blocks content 0)]) /\
  (headings_of lines <> [] ->
     map (fun s => (line_start s, level s, heading s)) ss
     = map (fun h : nat * Z * string => (Z.of_nat h.1.1, h.1.2, h.2))
           (headings_of lines)).
Proof.
  intros lines ss. subst ss. unfold _parse_sections. fold lines.
  destruct (headings_of_from 0 lines) as [Hall Hsorted].
  fold (Py.enumerate lines) in Hall, Hsorted. fold (headings_of lines) in *.
  destruct (sections_of_spec lines (headings_of lines))
    as (Hss & _ & Hadj & Hlast); [|done|].
  { eapply Forall_impl; [exact Hall|]. simpl. intros h (? & ? & ?).
    split_and!; try done; lia. }
  pose proof (sections_of_length lines (headings_of lines)) as Hlen.
  assert (Hmap :
    map (fun s => (line_start s, level s, heading s))
        (sections_of lines (headings_of lines))
    = map (fun h : nat * Z * string => (Z.of_nat h.1.1, h.1.2, h.2))
          (headings_of lines)).
  { clear. induction (headings_of lines) as [|[[i lvl] title] hs IH];
      [done|]. cbn [sections_of map]. by rewrite IH. }
  destruct (sections_of lines (headings_of lines)) as [|s rest] eqn:Hsec.
  - destruct (headings_of lines) as [|h hs]; [|done].
    pose proof (split_on_length Py.LF EmptyString content) as Hn.
    pose proof (count_nonneg Py.LF content) as Hc. fold lines in Hn.
    split_and!; try done.
    + constructor; [|constructor].
      cbn [level heading Parser.content line_start line_end].
      split_and!; try done; try lia. apply strip_idemp.
    + by intros s [= <-].
  - split_and!; try done.
    intros Hnil. by rewrite Hnil in Hlen.
Qed.

(** The code blocks found from line [i] on. *)
Lemma scan_blocks_spec offset i open lines :
  match open with
  | Some (start, _, _) => (start < i)%nat
  | None => True
  end ->
  Forall (fun b =>
            CodeBlock.language b <> EmptyString /\
            Py.strip (CodeBlock.content b) = CodeBlock.content b /\
            offset + Z.of_nat (match open with
                               | Some (start, _, _) => start
                               | None => i
                               end) <= CodeBlock.line_start b
            /\ CodeBlock.line_start b < CodeBlock.line_end b)
         (scan_blocks offset i open lines) /\
  StronglySorted (fun b b' => CodeBlock.line_start b < CodeBlock.line_start b')
                 (scan_blocks offset i open lines).
Proof.
  revert i open. induction lines as [|line lines IH]; intros i open Hopen.
  - split; constructor.
  - cbn [scan_blocks]. destruct open as [[[start w] body]|].
    + destruct (String.eqb line "```").
      * destruct (IH (S i) None I) as [Hall Hs]. split.
        -- constructor.
           ++ cbn [CodeBlock.language CodeBlock.content CodeBlock.line_start
                CodeBlock.line_end].
              pose proof (count_nonneg Py.LF (Py.strip (body_text body))).
              split_and!; [by destruct w|apply strip_idemp|lia|lia].
           ++ eapply Forall_impl; [exact Hall|]. simpl.
              intros b (? & ? & ? & ?). split_and!; try done. lia.
        -- constructor; [exact Hs|].
           eapply Forall_impl; [exact Hall|]. simpl.
           intros b (_ & _ & ? & _). lia.
      * destruct (IH (S i) (Some (start, w, body ++ [line]))) as [Hall Hs];
          [lia|]. by split.
    + destruct (opening_fence line) as [w|].
      * destruct (IH (S i) (Some (i, w, []))) as [Hall Hs]; [lia|].
        by split.
      * destruct (IH (S i) None I) as [Hall Hs]. split; [|exact Hs].
        eapply Forall_impl; [exact Hall|]. simpl.
        intros b (? & ? & ? & ?). split_and!; try done. lia.
Qed.

End ParserFacts.

Section ParserTheorems.
Import Parser MarkdownParser Spec.

(** X7. Parsing always yields at least one section. Every section has a
    level from 1 to 6, a heading and a content without white space at
    either end, and a line range that is not empty and lies within the
    text. *)
Theorem parse_sections_well_formed (content : string) :
  _parse_sections content <> [] /\
  Forall (fun s =>
            1 <= level s <= 6 /\
            Py.strip (heading s) = heading s /\
            Py.strip (Parser.content s) = Parser.content s /\
            0 <= line_start s < line_end s /\
            line_end s <= 1 + Py.count Py.LF content)
         (_parse_sections content).
Proof.
  destruct (parse_sections_spec content) as (Hne & Hall & _).
  split; [exact Hne|].
  by rewrite split_on_length in Hall.
Qed.

(** X8. The line ranges of the sections follow one another without gap or
    overlap: each section ends where the next one starts, and the last
    one ends with the last line of the text. *)
Theorem parse_sections_tile_lines (content : string) :
  (forall i s s',
     _parse_sections content !! i = Some s ->
     _parse_sections content !! S i = Some s' ->
     line_end s = line_start s') /\
  (forall s, last (_parse_sections content) = Some s ->
     line_end s = 1 + Py.count Py.LF content).
Proof.
  destruct (parse_sections_spec content) as (_ & _ & Hadj & Hlast & _).
  split; [exact Hadj|].
  intros s Hs. rewrite (Hlast s Hs). apply split_on_length.
Qed.

(** X9. The sections are, one for one and in order, the lines that match
    the heading pattern, wherever these lines stand; a text without such
    a line is one section named Introduction that spans all lines. *)
Theorem parse_sections_follow_heading_lines (content : string) :
  let lines := Py.split_on Py.LF EmptyString content in
  (headings_of lines = [] ->
     _parse_sections content
     = [mkSection "Introduction" 1 (Py.strip content) 0
          (Z.of_nat (length lines)) (_extract_code_blocks content 0)]) /\
  (headings_of lines <> [] ->
     map (fun s => (line_start s, level s, heading s))
         (_parse_sections content)
     = map (fun h : nat * Z * string => (Z.of_nat h.1.1, h.1.2, h.2))
           (headings_of lines)).
Proof.
  intros lines.
  destruct (parse_sections_spec content) as (_ & _ & _ & _ & Hnone & Hsome).
  by split.
Qed.

(** X10. Every code block found has a language (the word [text] when the
    fence names none), a content without white space at either end, and
    line numbers with [offset <= line_start < line_end]; the blocks come
    in the order of their first lines. *)
Theorem code_blocks_well_formed (content : string) (offset : Z) :
  Forall (fun b =>
            CodeBlock.language b <> EmptyString /\
            Py.strip (CodeBlock.content b) = CodeBlock.content b /\
            offset <= CodeBlock.line_start b < CodeBlock.line_end b)
         (_extract_code_blocks content offset) /\
  StronglySorted (fun b b' => CodeBlock.line_start b < CodeBlock.line_start b')
                 (_extract_code_blocks content offset).
Proof.
  unfold _extract_code_blocks.
  destruct (scan_blocks_spec offset 0 None
              (Py.split_on Py.LF EmptyString content) I) as [Hall Hs].
  split; [|exact Hs].
  eapply Forall_impl; [exact Hall|]. simpl.
  intros b (? & ? & ? & ?). split_and!; try done. lia.
Qed.

End ParserTheorems.

(** ** Chunks of documents *)

Section DocumentChunks.
Import Parser Chunker Spec.
Variable self : SemanticChunker.

Lemma update_heading_stack_last stack section :
  last (map snd (_update_heading_stack stack section))
  = Some (heading section).
Proof.
  unfold _update_heading_stack. rewrite map_app. cbn [map].
  by rewrite last_snoc.
Qed.

Lemma chunk_section_from section stack document :
  Forall (chunk_from document section)
    (_chunk_section self section (_update_heading_stack stack section)
       document).
Proof.
  apply Forall_forall. intros ck Hck.
  apply list_elem_of_lookup_1 in Hck as [i Hi].
  apply chunk_section_created in Hi as [t ->].
  unfold chunk_from. cbn [_create_chunk source_file line_start line_end
    heading_path]. split_and!; try done. apply update_heading_stack_last.
Qed.

Lemma document_loop_chunks_snoc document ss section :
  (document_loop self document (ss ++ [section])).1
  = (document_loop self document ss).1
    ++ _chunk_section self section
         (_update_heading_stack (document_loop self document ss).2 section)
         document.
Proof. by rewrite document_loop_snoc. Qed.

Lemma document_loop_from document ss :
  Forall (fun ck => exists section,
            section ∈ ss /\ chunk_from document section ck)
         (document_loop self document ss).1.
Proof.
  induction ss as [|section ss IH] using rev_ind; [constructor|].
  rewrite document_loop_chunks_snoc. apply Forall_app. split.
  - eapply Forall_impl; [exact IH|]. intros ck (s & Hs & Hck).
    exists s. split; [|done]. apply elem_of_app. by left.
  - eapply Forall_impl; [apply chunk_section_from|]. intros ck Hck.
    exists section. split; [|done]. apply elem_of_app. right. by left.
Qed.


Lemma chunk_documents_snoc raises docs doc :
  chunk_documents self raises (docs ++ [doc])
  = chunk_documents self raises docs
    ++ (if raises doc then [] else chunk_document self doc).
Proof.
  unfold chunk_documents. rewrite fold_left_app. simpl.
  destruct (raises doc); [by rewrite app_nil_r|done].
Qed.


(** The stack of headings holds levels of sections seen so far. *)
Lemma document_loop_stack_levels document ss (P : Z -> Prop) :
  Forall (fun s => P (level s)) ss ->
  Forall (fun e => P e.1) (document_loop self document ss).2.
Proof.
  induction ss as [|section ss IH] using rev_ind; [constructor|].
  intros Hall. apply Forall_app in Hall as [Hss Hs].
  apply Forall_cons in Hs as [Hs _].
  rewrite document_loop_snoc. cbn [document_step snd].
  destruct (update_heading_stack_spec
              (document_loop self document ss).2 section) as [-> _].
  { apply document_loop_stack_increasing. }
  apply Forall_app. split; [|by repeat constructor].
  apply Forall_forall. intros e He.
  apply list_elem_of_filter in He as [_ He].
  specialize (IH Hss). rewrite Forall_forall in IH. by apply IH.
Qed.

(** A list of entries with strictly increasing levels between [a] and
    [b] has at most [b - a + 1] entries. *)
Lemma strictly_increasing_length (stack : list (Z * string)) a b :
  a <= b + 1 ->
  strictly_increasing stack -> Forall (fun e => a <= e.1 <= b) stack ->
  Z.of_nat (length stack) <= b - a + 1.
Proof.
  revert a. induction stack as [|e stack IH]; intros a Hab Hs Hall.
  - simpl. lia.
  - apply StronglySorted_cons in Hs as [Hlt Hs].
    apply Forall_cons in Hall as [He Hall].
    cbn [length]. rewrite Nat2Z.inj_succ.
    specialize (IH (e.1 + 1) ltac:(lia) Hs).
    enough (Z.of_nat (length stack) <= b - (e.1 + 1) + 1) by lia.
    apply IH. rewrite Forall_forall in Hlt, Hall |- *.
    intros x Hx. specialize (Hlt x Hx). specialize (Hall x Hx). lia.
Qed.

Lemma document_loop_path_lengths document ss :
  Forall (fun s => 1 <= level s <= 6) ss ->
  Forall (fun ck => (1 <= length (heading_path ck) <= 6)%nat)
         (document_loop self document ss).1.
Proof.
  induction ss as [|section ss IH] using rev_ind; [constructor|].
  intros Hall. pose proof Hall as Hall'.
  apply Forall_app in Hall as [Hss Hs].
  rewrite document_loop_chunks_snoc. apply Forall_app.
  split; [by apply IH|].
  apply Forall_forall. intros ck Hck.
  apply list_elem_of_lookup_1 in Hck as [i Hi].
  apply chunk_section_created in Hi as [t ->].
  cbn [_create_chunk heading_path]. rewrite length_map.
  pose proof (document_loop_stack_levels document (ss ++ [section])
                (fun l => 1 <= l <= 6) Hall') as Hlv.
  pose proof (document_loop_stack_increasing self document (ss ++ [section]))
    as Hinc.
  rewrite document_loop_snoc in Hlv, Hinc. cbn [document_step snd] in *.
  pose proof (strictly_increasing_length _ 1 6 ltac:(lia) Hinc Hlv).
  split; [|lia].
  unfold _update_heading_stack. rewrite length_app. simpl. lia.
Qed.

End DocumentChunks.

Section HeadingPathTheorem.
Import Parser Chunker Spec Samples.

(** The chunks of the loop are those of its sections, each cut under
    the heading stack that the loop holds after that section. *)
Lemma document_loop_chunks self document ss :
  (document_loop self document ss).1
  = concat (imap (fun n section =>
                    _chunk_section self section
                      (document_loop self document (take (S n) ss)).2
                      document) ss).
Proof.
  induction ss as [|section ss IH] using rev_ind; [done|].
  rewrite document_loop_chunks_snoc, imap_app, concat_app, IH. f_equal.
  - f_equal. apply imap_ext. intros n s Hn. simpl.
    apply lookup_lt_Some in Hn.
    by rewrite take_app_le by lia.
  - simpl. rewrite Nat.add_0_r, app_nil_r.
    rewrite take_ge by (rewrite length_app; simpl; lia).
    by rewrite document_loop_snoc.
Qed.

Lemma path_after_S self document n section :
  sections document !! n = Some section ->
  path_after self document (S n)
  = _update_heading_stack (path_after self document n) section.
Proof.
  intros Hn. unfold path_after.
  by rewrite (take_S_r _ _ _ Hn), document_loop_snoc.
Qed.

(** C8. [chunk_document] starts from the empty heading path. Processing
    the section at position [n], of level [L], turns the path held
    before it into the result of [_update_heading_stack], which is the
    path before it without its entries of level at least [L], followed
    by the entry [(L, heading)] of the section. The path is strictly
    increasing in level after every section, so no two entries share a
    level. The chunks of the document are those of its sections in
    order, each section cut under the path held after it, and every
    chunk carries the headings of that path. On any strictly increasing
    path, [_update_heading_stack] removes exactly the entries of level at
    least [L], appends the section's entry and keeps the path strictly
    increasing. *)
Theorem heading_path_strictly_increasing
    (self : SemanticChunker) (document : ParsedDocument) :
  path_after self document 0 = [] /\
  (forall n section,
     sections document !! n = Some section ->
     path_after self document (S n)
     = _update_heading_stack (path_after self document n) section /\
     path_after self document (S n)
     = filter (fun e => e.1 < level section) (path_after self document n)
         ++ [(level section, heading section)]) /\
  (forall n, strictly_increasing (path_after self document n)) /\
  chunk_document self document
  = concat (imap (fun n section =>
                    _chunk_section self section
                      (path_after self document (S n)) document)
                 (sections document)) /\
  (forall n section ck,
     sections document !! n = Some section ->
     ck ∈ _chunk_section self section (path_after self document (S n))
            document ->
     heading_path ck = map snd (path_after self document (S n))) /\
  (forall stack section,
     strictly_increasing stack ->
     _update_heading_stack stack section
     = filter (fun e => e.1 < level section) stack
         ++ [(level section, heading section)]
     /\ strictly_increasing (_update_heading_stack stack section)).
Proof.
  split_and!.
  - done.
  - intros n section Hn. rewrite (path_after_S _ _ _ _ Hn).
    split; [done|].
    apply update_heading_stack_spec, document_loop_stack_increasing.
  - intros n. apply document_loop_stack_increasing.
  - unfold chunk_document, path_after. apply document_loop_chunks.
  - intros n section ck Hn Hck.
    apply list_elem_of_lookup_1 in Hck as [i Hi].
    by apply chunk_section_created in Hi as [t ->].
  - apply update_heading_stack_spec.
Qed.

Lemma heading_path_strictly_increasing_witness :
  let self := mkChunker 400 600 50 char_tokenizer in
  let doc := plain_document [ plain_section "Chapter 1" 1 "Content";
                              plain_section "Section 1.1" 2 "Content";
                              plain_section "Chapter 2" 1 "Content" ] in
  path_after self doc 2 = [(1, "Chapter 1"); (2, "Section 1.1")] /\
  path_after self doc 3 = [(1, "Chapter 2")] /\
  map heading_path (chunk_document self doc)
  = [ ["Chapter 1"]; ["Chapter 1"; "Section 1.1"]; ["Chapter 2"] ].
Proof.
  intros self doc.
  destruct (heading_path_strictly_increasing self doc)
    as (_ & Hstep & _ & Hchunks & _).
  split; [reflexivity|]. split.
  - destruct (Hstep 2%nat _ eq_refl) as [_ ->]. reflexivity.
  - rewrite Hchunks. reflexivity.
Defined.

End HeadingPathTheorem.

Section DocumentTheorems.
Import Parser Chunker Spec.

(** X11. Every chunk of [chunk_documents] comes from one section of one of
    the documents, whichever documents are skipped because chunking them
    raises: it carries that document's file, that section's line
    numbers, and a heading path that ends with that section's heading;
    and that document is not one of the skipped ones. *)
Theorem chunk_documents_provenance
    (self : SemanticChunker) (raises : ParsedDocument -> bool)
    (documents : list ParsedDocument) :
  Forall (fun ck => exists doc section,
            doc ∈ documents /\ section ∈ sections doc /\
            chunk_from doc section ck /\ raises doc = false)
         (chunk_documents self raises documents).
Proof.
  induction documents as [|doc docs IH] using rev_ind; [constructor|].
  rewrite chunk_documents_snoc. apply Forall_app. split.
  - eapply Forall_impl; [exact IH|].
    intros ck (d & s & Hd & Hs & Hck & Hr).
    exists d, s. split_and!; try done. apply elem_of_app. by left.
  - destruct (raises doc) eqn:Hr; [constructor|].
    eapply Forall_impl; [apply document_loop_from|].
    intros ck (s & Hs & Hck). exists doc, s.
    split_and!; try done. apply elem_of_app. right. by left.
Qed.


(** X13. Parsing and chunking together: in a document whose sections are
    those that the parser makes from a text, every chunk has a heading
    path of one to six headings. *)
Theorem parsed_heading_paths_bounded
    (self : SemanticChunker) (document : ParsedDocument) (content : string) :
  sections document = MarkdownParser._parse_sections content ->
  Forall (fun ck => (1 <= length (heading_path ck) <= 6)%nat)
         (chunk_document self document).
Proof.
  intros Hsec. unfold chunk_document. apply document_loop_path_lengths.
  rewrite Hsec.
  destruct (parse_sections_spec content) as (_ & Hall & _).
  eapply Forall_impl; [exact Hall|]. by intros s [? _].
Qed.

End DocumentTheorems.

(** ** Tokens and scores of the lexical scorer *)

Section Tokens.
Import Retrieval Spec.

Lemma lower_char_idemp c : Py.lower_char (Py.lower_char c) = Py.lower_char c.
Proof. by destruct c as [[] [] [] [] [] [] [] []]. Qed.

(** The runs that [split] returns are not empty and are made of
    characters of the string that are not white space. *)
Lemma split_ws_tokens (P : ascii -> Prop) cur s :
  Forall P (list_ascii_of_string cur) ->
  Forall (fun c => Py.is_space c = false -> P c) (list_ascii_of_string s) ->
  Forall (fun t => t <> EmptyString /\ Forall P (list_ascii_of_string t))
         (Py.split_ws cur s).
Proof.
  revert cur. induction s as [|c s IH]; intros cur Hcur Hs.
  - destruct cur as [|d cur]; cbn [Py.split_ws Py.is_empty]; [constructor|].
    constructor; [split; [done|exact Hcur]|constructor].
  - cbn [list_ascii_of_string] in Hs. apply Forall_cons in Hs as [Hc Hs].
    cbn [Py.split_ws]. destruct (Py.is_space c) eqn:Hsp.
    + destruct cur as [|d cur]; simpl.
      * by apply IH.
      * constructor; [done|]. apply IH; [constructor|done].
    + apply IH; [|done]. rewrite chars_app. apply Forall_app.
      split; [done|]. repeat constructor. by apply Hc.
Qed.

Lemma sub_nonword_space_chars text :
  Forall (fun c => Py.is_space c = false ->
            Py.is_word c = true /\ Py.is_space c = false /\
            Py.lower_char c = c)
         (list_ascii_of_string (Py.sub_nonword_space (Py.lower text))).
Proof.
  induction text as [|c text IH]; [constructor|].
  cbn [Py.lower Py.sub_nonword_space list_ascii_of_string].
  constructor; [|exact IH].
  destruct (Py.is_word (Py.lower_char c)) eqn:Hw; simpl.
  - intros Hsp. split_and!; [done|done|apply lower_char_idemp].
  - destruct (Py.is_space (Py.lower_char c)) eqn:Hsp; [by rewrite Hsp|].
    by intros.
Qed.

Lemma tf_of_lookup_None tokens t : t ∉ tokens -> tf_of tokens !! t = None.
Proof.
  intros Hnin. destruct (tf_of tokens !! t) as [n|] eqn:Hn; [|done].
  by apply tf_of_lookup in Hn as [_ ?].
Qed.

Lemma score_document_no_match self idf avg doc_length tf qs :
  (forall q, q ∈ qs -> tf !! q = None) ->
  score_document self idf avg doc_length tf qs = Ok 0%R.
Proof.
  intros Hnone. unfold score_document.
  rewrite (for_each_pure _ (fun s _ => s)).
  - f_equal. clear. by induction qs.
  - intros st q Hq. by rewrite (Hnone q Hq).
Qed.

End Tokens.

Section ScoringTheorems.
Import Retrieval Spec.

(** X14. Every token is a non-empty run of word characters, none of which
    is white space or changes when lower-cased. *)
Theorem tokenize_tokens (text : string) :
  Forall (fun t =>
            t <> EmptyString /\
            Forall (fun c => Py.is_word c = true /\ Py.is_space c = false /\
                             Py.lower_char c = c)
                   (list_ascii_of_string t))
         (tokenize text).
Proof.
  unfold tokenize, Py.split.
  apply split_ws_tokens; [constructor|apply sub_nonword_space_chars].
Qed.

(** X15. Scoring does not depend on letter case: a query and documents that
    differ from others only in the case of letters get the same
    result. *)
Theorem score_documents_ignores_case
    (self : BM25) (query query' : string)
    (documents documents' : list (UUID * string)) :
  Py.lower query = Py.lower query' ->
  Forall2 (fun d d' => d.1 = d'.1 /\ Py.lower d.2 = Py.lower d'.2)
          documents documents' ->
  score_documents self query documents
  = score_documents self query' documents'.
Proof.
  intros Hq Hdocs. unfold score_documents.
  assert (Htq : tokenize query = tokenize query')
    by (unfold tokenize; by rewrite Hq).
  assert (Hids : map (fun d : UUID * string => (d.1, 0%R)) documents
                 = map (fun d : UUID * string => (d.1, 0%R)) documents').
  { clear -Hdocs. induction Hdocs as [|d d' ds ds' [Hd _] _ IH]; [done|].
    simpl. by rewrite Hd, IH. }
  assert (Htoks : map (fun d : UUID * string => (d.1, tokenize d.2)) documents
                  = map (fun d : UUID * string => (d.1, tokenize d.2))
                        documents').
  { clear -Hdocs. induction Hdocs as [|d d' ds ds' [Hd Hl] _ IH]; [done|].
    simpl. f_equal; [|exact IH]. unfold tokenize. by rewrite Hd, Hl. }
  assert (Hlen : length documents = length documents')
    by (by eapply Forall2_length).
  rewrite Htq.
  destruct Hdocs as [|d d' ds ds' Hd Hrest]; [done|].
  by rewrite Hids, Htoks, Hlen.
Qed.

(** X16. A document that shares no token with the query gets the score
    zero. *)
Theorem unmatched_document_scores_zero
    (self : BM25) (query : string) (documents : list (UUID * string))
    (out : list (UUID * R)) (d : UUID * string) :
  score_documents self query documents = Ok out ->
  d ∈ documents ->
  (forall q, q ∈ tokenize query -> q ∉ tokenize d.2) ->
  (d.1, 0%R) ∈ out.
Proof.
  intros Hout Hd Hnone. unfold score_documents in Hout.
  destruct documents as [|d0 ds] eqn:Hdocs; [by apply elem_of_nil in Hd|].
  rewrite <- Hdocs in *. clear Hdocs d0 ds.
  destruct (tokenize query) as [|q qs] eqn:Hqs.
  { injection Hout as <-.
    by apply (list_elem_of_fmap_2 (fun d : UUID * string => (d.1, 0%R))). }
  rewrite <- Hqs in *. clear Hqs q qs.
  ok_inv Hout. ok_inv Hout. ok_inv Hout. injection Hout as <-.
  rewrite sort_desc_perm.
  eapply for_each_collect_inv in E1 as (ys & -> & Hys);
    [|intros; apply score_documents_body_collect].
  simpl app.
  assert (Hdt : (d.1, tokenize d.2)
                ∈ map (fun d : UUID * string => (d.1, tokenize d.2))
                      documents).
  { by apply (list_elem_of_fmap_2
                (fun d : UUID * string => (d.1, tokenize d.2))). }
  clear E E0.
  generalize dependent
    (map (fun d : UUID * string => (d.1, tokenize d.2)) documents).
  intros dts0 Hys.
  induction Hys as [|dt y dts ys' Hy Hrest IH]; intros Hdt.
  { by apply elem_of_nil in Hdt. }
  apply elem_of_cons in Hdt as [<-|Hdt]; [|right; by apply IH].
  cbn [fst snd] in Hy.
  destruct (_ !! d.1); [|done]. cbn [mbind result_bind] in Hy.
  rewrite score_document_no_match in Hy.
  - cbn [mbind result_bind] in Hy. injection Hy as <-. by left.
  - intros q Hq. apply tf_of_lookup_None. by apply Hnone.
Qed.

End ScoringTheorems.

(** ** Retries and the cache of the embedding generator *)

Section Retry.
Import Embeddings.
Variable self : EmbeddingGenerator.
Variable create : nat -> list string -> api_outcome.

(** Attempts that fail with a rate limit or an API error before the
    last one are passed over. *)
Lemma retry_loop_skip texts s n i :
  (s <= i)%nat -> (i < s + n)%nat -> Z.of_nat i < max_retries self ->
  (forall j, (s <= j < i)%nat ->
     create j texts = RateLimited \/ create j texts = Failed) ->
  retry_loop self create texts (seq s n)
  = retry_loop self create texts (seq i (s + n - i)).
Proof.
  revert s. induction n as [|n IH]; intros s Hsi Hin Hmax Htr; [lia|].
  destruct (decide (s = i)) as [->|Hne].
  { by replace (i + S n - i)%nat with (S n) by lia. }
  cbn [seq retry_loop].
  assert (Hlt : (Z.of_nat s <? max_retries self - 1) = true)
    by (apply Z.ltb_lt; lia).
  rewrite Hlt.
  replace (s + S n - i)%nat with (S s + n - i)%nat by lia.
  destruct (Htr s ltac:(lia)) as [-> | ->];
    apply IH; try lia; intros j Hj; apply Htr; lia.
Qed.

End Retry.

Section RetryTheorems.
Import Embeddings.

(** X17. The first attempt that is not a rate limit or an API error decides
    the call: when the attempts before attempt [i] all fail in one of
    these two ways and [i] is among the [max_retries] attempts, a
    response at attempt [i] is returned, and any other exception at
    attempt [i] is raised at once, whatever later attempts would give. *)
Theorem retry_first_decisive_attempt
    (self : EmbeddingGenerator) (create : nat -> list string -> api_outcome)
    (texts : list string) (i : nat) :
  Z.of_nat i < max_retries self ->
  (forall j, (j < i)%nat ->
     create j texts = RateLimited \/ create j texts = Failed) ->
  (forall data, create i texts = Response data ->
     _generate_with_retry self create texts = Ok data) /\
  (create i texts = Unexpected ->
     _generate_with_retry self create texts = Raise OtherError).
Proof.
  intros Hi Htr. unfold _generate_with_retry.
  rewrite (retry_loop_skip self create texts 0 _ i); try lia.
  2:{ intros j Hj. apply Htr. lia. }
  destruct (0 + Z.to_nat (max_retries self) - i)%nat as [|m] eqn:Hm; [lia|].
  cbn [seq retry_loop]. split.
  - by intros data ->.
  - by intros ->.
Qed.

(** X18. The call makes at most [max_retries] attempts. With
    [max_retries] zero or negative the provider is not called at all and
    the call ends at the final [raise APIError("...")], which raises
    [TypeError] because that exception cannot be built from a message
    alone. Otherwise, when every one of the [max_retries] attempts fails
    with a rate limit or an API error, the exception of the last attempt
    is the one raised again. *)
Theorem retry_exhausted_raises
    (self : EmbeddingGenerator) (create : nat -> list string -> api_outcome)
    (texts : list string) :
  (max_retries self <= 0 ->
   _generate_with_retry self create texts = Raise TypeError) /\
  (0 < max_retries self ->
   (forall j, Z.of_nat j < max_retries self ->
      create j texts = RateLimited \/ create j texts = Failed) ->
   _generate_with_retry self create texts
   = match create (Z.to_nat (max_retries self - 1)) texts with
     | RateLimited => Raise RateLimitError
     | _ => Raise APIError
     end).
Proof.
  unfold _generate_with_retry. split.
  - intros Hmax.
    by replace (Z.to_nat (max_retries self)) with 0%nat by lia.
  - intros Hmax Htr.
    set (i := Z.to_nat (max_retries self - 1)).
    rewrite (retry_loop_skip self create texts 0 _ i); try lia.
    2:{ intros j Hj. apply Htr. lia. }
    replace (0 + Z.to_nat (max_retries self) - i)%nat with 1%nat by lia.
    cbn [seq retry_loop].
    assert (Hlt : (Z.of_nat i <? max_retries self - 1) = false)
      by (apply Z.ltb_ge; lia).
    rewrite Hlt.
    by destruct (Htr i ltac:(lia)) as [-> | ->].
Qed.

(** X19. With the cache enabled, a text whose embedding was returned once is
    afterwards served from the cache: a second call on the cache left by
    the first returns the same vector and leaves the cache as it is,
    whatever the provider does then. *)
Theorem generate_embedding_cached_afterwards
    (self : EmbeddingGenerator)
    (create create' : nat -> list string -> api_outcome)
    (cache cache' : gmap string embedding) (text : string) (e : embedding) :
  use_cache self = true ->
  generate_embedding self create cache text = Ok (e, cache') ->
  generate_embedding self create' cache' text = Ok (e, cache').
Proof.
  intros Huse. unfold generate_embedding, cache_get. rewrite Huse.
  destruct (cache !! text) as [cached|] eqn:Hc.
  - intros [= <- <-]. by rewrite Hc.
  - destruct (_generate_with_retry self create [text]) as [data|];
      [|done]. cbn [mbind result_bind].
    destruct data as [|v data]; [done|].
    intros [= <- <-]. by rewrite lookup_insert_eq.
Qed.

End RetryTheorems.

Section BatchEdgeCases.
Import Embeddings Spec.
Variable self : EmbeddingGenerator.
Variable create : nat -> list string -> api_outcome.
Variable cache : gmap string embedding.

Lemma cache_hits_sorted n (texts : list string) :
  StronglySorted (asc fst)
    (cache_hits self cache (Py.enumerate_from n texts)) /\
  Forall (fun p => (n <= p.1)%nat)
    (cache_hits self cache (Py.enumerate_from n texts)).
Proof.
  revert n. induction texts as [|t texts IH]; intros n.
  - split; constructor.
  - destruct (IH (S n)) as [Hs Hn].
    unfold cache_hits. cbn [Py.enumerate_from omap list_omap].
    fold (cache_hits self cache (Py.enumerate_from (S n) texts)).
    destruct (cache_get self cache (n, t).2); simpl.
    + split.
      * constructor; [done|].
        eapply Forall_impl; [exact Hn|]. unfold asc. simpl. lia.
      * constructor; [simpl; lia|].
        eapply Forall_impl; [exact Hn|]. simpl. lia.
    + split; [done|]. eapply Forall_impl; [exact Hn|]. simpl. lia.
Qed.

Lemma cache_hits_snd n (texts : list string) :
  map snd (cache_hits self cache (Py.enumerate_from n texts))
  = omap (cache_get self cache) texts.
Proof.
  revert n. induction texts as [|t texts IH]; intros n; [done|].
  unfold cache_hits. cbn [Py.enumerate_from omap list_omap].
  fold (cache_hits self cache (Py.enumerate_from (S n) texts)).
  cbn [snd]. destruct (cache_get self cache t); simpl; by rewrite IH.
Qed.

Lemma sort_asc_sorted_id {A : Type} (key : A -> nat) (l : list A) :
  StronglySorted (asc key) l -> Py.sort_asc key l = l.
Proof.
  induction l as [|x l IH]; [done|]. intros Hs.
  apply StronglySorted_cons in Hs as [Hx Hs].
  simpl. rewrite IH by done.
  destruct l as [|y l]; [done|]. simpl.
  apply Forall_cons in Hx as [Hxy _]. unfold asc in Hxy.
  by rewrite (proj2 (Nat.leb_le _ _) Hxy).
Qed.

(** When the loop over the batches does not run, the call returns the
    cached vectors alone. *)
Lemma only_hits_returned (texts : list string) :
  (batch_size self < 0 \/
   (cache_misses self cache (Py.enumerate texts)).*2 = []) ->
  generate_embeddings_batch self create cache texts
  = Ok (omap (cache_get self cache) texts, cache).
Proof.
  intros Hno. unfold generate_embeddings_batch.
  rewrite (scan_spec self cache (Py.enumerate texts) [] [] []). cbn [app].
  cbn [embeddings uncached_indices uncached_texts].
  assert (Hfilled :
    match (cache_misses self cache (Py.enumerate texts)).*2 with
    | [] => Ok (cache_hits self cache (Py.enumerate texts), cache)
    | _ :: _ =>
        starts ← range_step
                   (length (cache_misses self cache (Py.enumerate texts)).*2)
                   (batch_size self);
        Py.for_each
          (batch_step self create
             (cache_misses self cache (Py.enumerate texts)).*1
             (cache_misses self cache (Py.enumerate texts)).*2)
          starts (cache_hits self cache (Py.enumerate texts), cache)
    end = Ok (cache_hits self cache (Py.enumerate texts), cache)).
  { destruct ((cache_misses self cache (Py.enumerate texts)).*2)
      as [|t ts] eqn:Hm; [done|].
    destruct Hno as [Hneg|Hnil]; [|done].
    unfold range_step.
    destruct (Z.eqb_spec (batch_size self) 0); [lia|].
    destruct (Z.ltb_spec (batch_size self) 0); [|lia]. done. }
  rewrite Hfilled. cbn [mbind result_bind fst snd].
  unfold Py.enumerate.
  rewrite sort_asc_sorted_id by apply cache_hits_sorted.
  by rewrite cache_hits_snd.
Qed.

Lemma cache_misses_nil (its : list (nat * string)) :
  (forall it, it ∈ its -> is_Some (cache_get self cache it.2)) ->
  cache_misses self cache its = [].
Proof.
  induction its as [|it its IH]; intros Hall; [done|].
  unfold cache_misses. cbn [omap list_omap].
  fold (cache_misses self cache its).
  destruct (Hall it) as [e ->]; [by left|].
  apply IH. intros it' Hin. apply Hall. by right.
Qed.

Lemma cache_misses_cons (its : list (nat * string)) it :
  it ∈ its -> cache_get self cache it.2 = None ->
  exists m ms, cache_misses self cache its = m :: ms.
Proof.
  induction its as [|x its IH]; intros Hin Hnone.
  - by apply elem_of_nil in Hin.
  - unfold cache_misses. cbn [omap list_omap].
    fold (cache_misses self cache its).
    apply elem_of_cons in Hin as [<-|Hin].
    + rewrite Hnone. by eexists _, _.
    + destruct (cache_get self cache x.2); [by apply IH|by eexists _, _].
Qed.

Lemma omap_length_le {A B : Type} (f : A -> option B) l :
  (length (omap f l) <= length l)%nat.
Proof.
  induction l as [|x l IH]; [done|].
  cbn [omap list_omap]. destruct (f x); simpl; lia.
Qed.

Lemma omap_all_Some {A B : Type} (f : A -> option B) (g : A -> B) l :
  (forall x, x ∈ l -> f x = Some (g x)) -> omap f l = map g l.
Proof.
  induction l as [|x l IH]; intros Hall; [done|].
  cbn [omap list_omap map]. rewrite (Hall x) by (by left).
  f_equal. apply IH. intros y Hy. apply Hall. by right.
Qed.

End BatchEdgeCases.

Section BatchEdgeTheorems.
Import Embeddings Spec.

(** X20. A batch size of zero makes the batch call raise [ValueError] as
    soon as one text is not served from the cache. *)
Theorem batch_size_zero_raises
    (self : EmbeddingGenerator) (create : nat -> list string -> api_outcome)
    (cache : gmap string embedding) (texts : list string) (t : string) :
  batch_size self = 0 ->
  t ∈ texts -> cache_get self cache t = None ->
  generate_embeddings_batch self create cache texts = Raise ValueError.
Proof.
  intros Hz Ht Hnone. unfold generate_embeddings_batch.
  rewrite (scan_spec self cache (Py.enumerate texts) [] [] []). cbn [app].
  cbn [embeddings uncached_indices uncached_texts].
  apply list_elem_of_lookup_1 in Ht as [i Hi].
  destruct (cache_misses_cons self cache (Py.enumerate texts) (i, t))
    as (m & ms & ->); [|done|].
  { apply enumerate_from_elem_of. split; [lia|].
    by rewrite Nat.sub_0_r. }
  cbn [fmap list_fmap]. unfold range_step. by rewrite Hz.
Qed.

(** X21. With a negative batch size no batch is sent: the call returns the
    vectors of the cached texts only, in input order, and the texts that
    are not cached get no vector, so the result is shorter than the
    input whenever a text is not cached. *)
Theorem negative_batch_size_drops_uncached
    (self : EmbeddingGenerator) (create : nat -> list string -> api_outcome)
    (cache : gmap string embedding) (texts : list string) :
  batch_size self < 0 ->
  generate_embeddings_batch self create cache texts
  = Ok (omap (cache_get self cache) texts, cache) /\
  ((exists t, t ∈ texts /\ cache_get self cache t = None) ->
   (length (omap (cache_get self cache) texts) < length texts)%nat).
Proof.
  intros Hneg. split; [apply only_hits_returned; by left|].
  intros (t & Ht & Hnone).
  induction texts as [|x texts IH]; [by apply elem_of_nil in Ht|].
  cbn [omap list_omap].
  pose proof (omap_length_le (cache_get self cache) texts) as Hle.
  apply elem_of_cons in Ht as [<-|Ht].
  - rewrite Hnone. simpl. lia.
  - specialize (IH Ht). destruct (cache_get self cache x); simpl; lia.
Qed.

(** X22. When every text has a vector in the cache, the call returns the
    cached vectors, one per text and in input order, and leaves the cache
    as it is; the provider and the batch size play no part. *)
Theorem all_cached_needs_no_provider
    (self : EmbeddingGenerator) (create : nat -> list string -> api_outcome)
    (cache : gmap string embedding) (texts : list string) :
  (forall t, t ∈ texts -> is_Some (cache_get self cache t)) ->
  generate_embeddings_batch self create cache texts
  = Ok (map (fun t => default [] (cache_get self cache t)) texts, cache).
Proof.
  intros Hall.
  rewrite only_hits_returned.
  - do 2 f_equal. apply omap_all_Some. intros t Ht.
    by destruct (Hall t Ht) as [e ->].
  - right. rewrite cache_misses_nil; [done|].
    intros it Hin. apply Hall.
    destruct it as [i t]. apply enumerate_from_elem_of in Hin as [_ Hin].
    by eapply list_elem_of_lookup_2.
Qed.

End BatchEdgeTheorems.

(** ** Hybrid retrieval *)

Section FusedScores.
Import Retrieval Spec.

Lemma rank_term_bounds k i :
  0 < k -> (0 < 1 / IZR (k + Z.of_nat i) <= 1 / IZR k)%R.
Proof.
  intros Hk.
  assert (Hk' : (0 < IZR k)%R) by (apply IZR_lt; lia).
  assert (Hki : (IZR k <= IZR (k + Z.of_nat i))%R) by (apply IZR_le; lia).
  split.
  - apply Rdiv_pos_pos; lra.
  - unfold Rdiv. rewrite !Rmult_1_l. apply Rinv_le_contravar; lra.
Qed.

(** A fused score is positive and at most [2 / k]. *)
Lemma rrf_value_bounds (vr br : gmap UUID nat) k x :
  0 < k -> is_Some (vr !! x) \/ is_Some (br !! x) ->
  (0 < rrf_value vr br k x <= 2 / IZR k)%R.
Proof.
  intros Hk Hsome. unfold rrf_value.
  assert (Hk' : (0 < IZR k)%R) by (apply IZR_lt; lia).
  assert (H1 : (0 < 1 / IZR k)%R) by (apply Rdiv_pos_pos; lra).
  assert (H2 : (2 / IZR k = 1 / IZR k + 1 / IZR k)%R) by (field; lra).
  destruct (vr !! x) as [i|]; destruct (br !! x) as [j|];
    try pose proof (rank_term_bounds k i Hk);
    try pose proof (rank_term_bounds k j Hk); try lra.
  destruct Hsome as [[? [=]]|[? [=]]].
Qed.

End FusedScores.

Section Retrieve.
Import Retrieval Spec.
Variable search :
  Embeddings.embedding -> option (list (string * string)) -> Z -> R ->
  result (list HybridRetriever.ScoredPoint).
Variable scroll : option (list (string * string)) -> result (list Point).
Variable embedding_generator : Embeddings.EmbeddingGenerator.
Variable create : nat -> list string -> Embeddings.api_outcome.
Variable set_iter : gset UUID -> list UUID.
Variable settings_retrieval_top_k : Z.
Hypothesis set_iter_order : iteration_order set_iter.

(** What fusion returns on the store of the two result lists, read
    back from the store. *)
Lemma fused_chunks (h : store) (vs bs : list ref) h' refs :
  reciprocal_rank_fusion set_iter h vs bs 60 = Ok (h', refs) ->
  StronglySorted (desc score) (map h' refs) /\
  NoDup (chunk_id <$> map h' refs) /\
  Forall (fun c => (0 < score c <= 1 / 30)%R) (map h' refs).
Proof.
  intros Hrun.
  destruct (rrf_result set_iter h vs bs 60 set_iter_order ltac:(lia))
    as (h'' & out & Hrun' & Hout & _ & Hscore & Hsame & _).
  rewrite Hrun in Hrun'. injection Hrun' as <- <-.
  assert (Hitem : forall item,
            item ∈ fused_items set_iter h vs bs 60 ->
            score (h' (fused_ref h vs bs item)) = item.2 /\
            chunk_id (h' (fused_ref h vs bs item)) = item.1 /\
            (0 < item.2 <= 1 / 30)%R).
  { intros item Hin.
    destruct (fused_ref_spec set_iter set_iter_order h vs bs 60 item Hin)
      as (_ & Hid & _).
    destruct (fused_items_elem_of set_iter set_iter_order h vs bs 60 item
                Hin) as [Hval Hids].
    split; [|split].
    - rewrite Hscore.
      + by rewrite Hid.
      + rewrite Hout. by apply (list_elem_of_fmap_2 (fused_ref h vs bs)).
    - destruct (Hsame (fused_ref h vs bs item)) as [-> _]. exact Hid.
    - rewrite Hval.
      replace (1 / 30)%R with (2 / IZR 60)%R by lra.
      apply rrf_value_bounds; [lia|].
      rewrite !rank_map_is_Some. exact Hids. }
  rewrite Hout, map_map.
  change (map (fun item => h' (fused_ref h vs bs item))
              (fused_items set_iter h vs bs 60))
    with ((fun item => h' (fused_ref h vs bs item))
            <$> fused_items set_iter h vs bs 60).
  split_and!.
  - eapply StronglySorted_fmap_elem_of;
      [|apply (fused_items_sorted set_iter h vs bs 60)].
    intros x y Hx Hy Hxy. unfold desc in *.
    destruct (Hitem x Hx) as [-> _]. by destruct (Hitem y Hy) as [-> _].
  - rewrite <- list_fmap_compose.
    rewrite (list_fmap_ext _ fst (fused_items set_iter h vs bs 60)).
    + by apply fused_items_NoDup.
    + intros i item Hi. simpl. apply list_elem_of_lookup_2 in Hi.
      by destruct (Hitem item Hi) as (_ & -> & _).
  - apply Forall_fmap, Forall_forall. intros item Hin. simpl.
    destruct (Hitem item Hin) as (-> & _ & Hb). exact Hb.
Qed.

Lemma slice_to_map {A B : Type} (f : A -> B) stop (l : list A) :
  map f (Py.slice_to stop l) = Py.slice_to stop (map f l).
Proof.
  unfold Py.slice_to. rewrite length_map.
  destruct (stop <? 0); apply (fmap_take f).
Qed.

Lemma slice_to_sublist {A : Type} stop (l : list A) :
  Py.slice_to stop l `sublist_of` l.
Proof. unfold Py.slice_to. destruct (stop <? 0); apply sublist_take. Qed.

Lemma slice_to_length {A : Type} stop (l : list A) :
  0 <= stop -> Z.of_nat (length (Py.slice_to stop l)) <= stop.
Proof.
  intros Hs. rewrite slice_to_nonneg by done. rewrite length_take. lia.
Qed.

Lemma retrieve_shape cache query top_k retrieval_top_k cf sf use_hybrid
    min_score out cache' :
  0 <= top_k ->
  HybridRetriever.retrieve search scroll embedding_generator create set_iter
    settings_retrieval_top_k cache query top_k retrieval_top_k cf sf
    use_hybrid min_score = Ok (out, cache') ->
  Z.of_nat (length out) <= top_k /\
  (use_hybrid = false ->
   exists vector_results,
     HybridRetriever.vector_search search embedding_generator create cache
       query (default settings_retrieval_top_k retrieval_top_k) cf sf
       min_score = Ok (vector_results, cache') /\
     out = take (Z.to_nat top_k) vector_results) /\
  (use_hybrid = true ->
   StronglySorted (desc score) out /\
   NoDup (chunk_id <$> out) /\
   Forall (fun c => (0 < score c <= 1 / 30)%R) out).
Proof.
  intros Hk Hrun. unfold HybridRetriever.retrieve in Hrun.
  ok_inv Hrun. destruct a as [vs c1]. cbn [fst snd] in Hrun.
  destruct use_hybrid; cbn [negb] in Hrun.
  - ok_inv Hrun. ok_inv Hrun. destruct a0 as [h' refs].
    cbn [fst snd] in Hrun. injection Hrun as <- <-.
    apply fused_chunks in E1 as (Hsorted & Hnd & Hpos).
    rewrite slice_to_map.
    split_and!; [by apply slice_to_length|done|]. intros _. split_and!.
    + eapply sublist_StronglySorted; [apply slice_to_sublist|done].
    + eapply sublist_NoDup; [exact Hnd|].
      apply fmap_sublist, slice_to_sublist.
    + apply Forall_forall. intros c Hc. rewrite Forall_forall in Hpos.
      apply Hpos. by apply slice_to_subseteq in Hc.
  - injection Hrun as <- <-.
    split_and!; [by apply slice_to_length| |done].
    intros _. exists vs. split; [done|]. by apply slice_to_nonneg.
Qed.

Lemma retrieve_total cache query top_k retrieval_top_k cf sf use_hybrid
    min_score e cache' points scored :
  Embeddings.generate_embedding embedding_generator create cache query
  = Ok (e, cache') ->
  search e (query_filter cf sf)
    (default settings_retrieval_top_k retrieval_top_k) min_score
  = Ok scored ->
  scroll (query_filter cf sf) = Ok points ->
  NoDup (id <$> points) ->
  exists out,
    HybridRetriever.retrieve search scroll embedding_generator create set_iter
      settings_retrieval_top_k cache query top_k retrieval_top_k cf sf
      use_hybrid min_score = Ok (out, cache').
Proof.
  intros Hgen Hsearch Hscroll Hnd.
  unfold HybridRetriever.retrieve, HybridRetriever.vector_search.
  rewrite Hgen. cbn [mbind result_bind fst snd]. rewrite Hsearch.
  cbn [mbind result_bind fst snd].
  destruct use_hybrid; cbn [negb]; [|by eexists].
  destruct (bm25_search_total scroll BM25_default query
              (default settings_retrieval_top_k retrieval_top_k) cf sf points
              Hscroll Hnd) as [bs ->]; [simpl; lra|simpl; lra|].
  cbn [mbind result_bind].
  match goal with
  | |- context [reciprocal_rank_fusion set_iter ?h ?vs ?bs 60] =>
      destruct (rrf_result set_iter h vs bs 60 set_iter_order ltac:(lia))
        as (h' & refs & -> & _)
  end.
  cbn [mbind result_bind fst snd]. by eexists.
Qed.

End Retrieve.

Section RetrieveTheorems.
Import Retrieval Spec.

(** X23. [retrieve] returns at most [top_k] chunks. Without the hybrid
    mode they are the first [top_k] results of the vector search as that
    search returned them. In hybrid mode they come in descending order of
    their fused scores, no two of them share an identifier, and every
    fused score is positive and at most 1/30, whatever the similarity and
    BM25 scores were. *)
Theorem retrieve_result_shape
    (search :
       Embeddings.embedding -> option (list (string * string)) -> Z -> R ->
       result (list HybridRetriever.ScoredPoint))
    (scroll : option (list (string * string)) -> result (list Point))
    (embedding_generator : Embeddings.EmbeddingGenerator)
    (create : nat -> list string -> Embeddings.api_outcome)
    (set_iter : gset UUID -> list UUID) (settings_retrieval_top_k : Z)
    (cache cache' : gmap string Embeddings.embedding) (query : string)
    (top_k : Z) (retrieval_top_k : option Z)
    (chapter_filter section_filter : option string) (use_hybrid : bool)
    (min_score : R) (out : list RetrievedChunk) :
  iteration_order set_iter ->
  0 <= top_k ->
  HybridRetriever.retrieve search scroll embedding_generator create set_iter
    settings_retrieval_top_k cache query top_k retrieval_top_k
    chapter_filter section_filter use_hybrid min_score = Ok (out, cache') ->
  Z.of_nat (length out) <= top_k /\
  (use_hybrid = false ->
   exists vector_results,
     HybridRetriever.vector_search search embedding_generator create cache
       query (default settings_retrieval_top_k retrieval_top_k)
       chapter_filter section_filter min_score
     = Ok (vector_results, cache') /\
     out = take (Z.to_nat top_k) vector_results) /\
  (use_hybrid = true ->
   StronglySorted (desc score) out /\
   NoDup (chunk_id <$> out) /\
   Forall (fun c => (0 < score c <= 1 / 30)%R) out).
Proof. intros Hiter. by apply retrieve_shape. Qed.

(** X24. [retrieve] returns whenever the query embedding is obtained, the
    vector search answers, and the scroll answers with points of
    distinct identifiers: scoring and fusion raise nothing. *)
Theorem retrieve_returns_when_index_answers
    (search :
       Embeddings.embedding -> option (list (string * string)) -> Z -> R ->
       result (list HybridRetriever.ScoredPoint))
    (scroll : option (list (string * string)) -> result (list Point))
    (embedding_generator : Embeddings.EmbeddingGenerator)
    (create : nat -> list string -> Embeddings.api_outcome)
    (set_iter : gset UUID -> list UUID) (settings_retrieval_top_k : Z)
    (cache cache' : gmap string Embeddings.embedding) (query : string)
    (top_k : Z) (retrieval_top_k : option Z)
    (chapter_filter section_filter : option string) (use_hybrid : bool)
    (min_score : R) (e : Embeddings.embedding) (points : list Point)
    (scored : list HybridRetriever.ScoredPoint) :
  iteration_order set_iter ->
  Embeddings.generate_embedding embedding_generator create cache query
  = Ok (e, cache') ->
  search e (query_filter chapter_filter section_filter)
    (default settings_retrieval_top_k retrieval_top_k) min_score
  = Ok scored ->
  scroll (query_filter chapter_filter section_filter) = Ok points ->
  NoDup (id <$> points) ->
  exists out,
    HybridRetriever.retrieve search scroll embedding_generator create set_iter
      settings_retrieval_top_k cache query top_k retrieval_top_k
      chapter_filter section_filter use_hybrid min_score = Ok (out, cache').
Proof. intros Hiter. by apply retrieve_total. Qed.

End RetrieveTheorems.

(** ** The question-answering pipeline *)

Section RagFacts.
Import Spec.

Lemma prefix_sublist {A : Type} (l1 l2 : list A) :
  l1 `prefix_of` l2 -> l1 `sublist_of` l2.
Proof. intros [k ->]. by apply sublist_inserts_r. Qed.

Lemma estimated_chars_cons c chunks :
  estimated_chars (c :: chunks)
  = Py.len (Retrieval.content c) + 200 + estimated_chars chunks.
Proof. done. Qed.

(** The loop keeps the longest prefix of the chunks whose estimated
    size fits in what is left of the budget. *)
Lemma budget_loop_spec max_chars chunks acc total :
  exists kept,
    Rag.budget_loop max_chars chunks acc total = acc ++ kept /\
    kept `prefix_of` chunks /\
    (kept <> [] -> total + estimated_chars kept <= max_chars) /\
    (forall c, (kept ++ [c]) `prefix_of` chunks ->
       max_chars < total + estimated_chars (kept ++ [c])).
Proof.
  revert acc total. induction chunks as [|c chunks IH]; intros acc total.
  - exists []. rewrite app_nil_r. split_and!; [done|done|done|].
    intros c Hc. by apply prefix_nil_inv in Hc.
  - cbn [Rag.budget_loop].
    destruct (Z.leb_spec (total + (Py.len (Retrieval.content c) + 200))
                         max_chars) as [Hfit|Hbig].
    + destruct (IH (acc ++ [c]) (total + (Py.len (Retrieval.content c) + 200)))
        as (kept & -> & Hpre & Hbudget & Hmax).
      exists (c :: kept). rewrite <- app_assoc. split_and!.
      * done.
      * by apply prefix_cons.
      * intros _. rewrite estimated_chars_cons.
        destruct kept as [|k kept]; [simpl; lia|].
        specialize (Hbudget ltac:(done)). lia.
      * intros c' Hc'. apply prefix_cons_inv_2 in Hc'.
        specialize (Hmax c' Hc').
        change ((c :: kept) ++ [c']) with (c :: (kept ++ [c'])).
        rewrite estimated_chars_cons. lia.
    + exists []. rewrite app_nil_r. split_and!; [done| |done|].
      * apply prefix_nil.
      * intros c' Hc'. apply prefix_cons_inv_1 in Hc' as ->.
        simpl. unfold estimated_chars. simpl. lia.
Qed.

Lemma build_conversation_history_length messages max_history :
  0 < max_history ->
  Rag.build_conversation_history messages max_history
  = map (fun rc => Rag.mkMessage rc.1 rc.2)
        (drop (length messages - Z.to_nat max_history) messages) /\
  Z.of_nat (length (Rag.build_conversation_history messages max_history))
  = Z.min (Z.of_nat (length messages)) max_history.
Proof.
  intros Hmax. unfold Rag.build_conversation_history.
  destruct (Z.gtb_spec (Z.of_nat (length messages)) max_history) as [Hgt|Hle].
  - unfold Py.slice_from.
    destruct (Z.ltb_spec (- max_history) 0) as [_|?]; [|lia].
    replace (Z.to_nat (Z.max 0 (Z.of_nat (length messages) + - max_history)))
      with (length messages - Z.to_nat max_history)%nat by lia.
    split; [done|]. rewrite length_map, length_drop. lia.
  - replace (length messages - Z.to_nat max_history)%nat with 0%nat by lia.
    rewrite drop_0. split; [done|]. rewrite length_map. lia.
Qed.

Lemma prepare_llm_messages_frame query chunks conversation_history
    selected_text :
  Rag.prepare_llm_messages query chunks conversation_history selected_text
  = [Rag.message "system" Rag.create_system_prompt]
    ++ map Rag.to_dict
         (Rag.build_conversation_history (default [] conversation_history) 5)
    ++ [Rag.message "user"
          (Rag.create_user_prompt query (Rag.format_context_for_llm chunks)
             selected_text)] /\
  (2 <= length (Rag.prepare_llm_messages query chunks conversation_history
                  selected_text) <= 7)%nat.
Proof.
  assert (Heq :
    Rag.prepare_llm_messages query chunks conversation_history selected_text
    = [Rag.message "system" Rag.create_system_prompt]
      ++ map Rag.to_dict
           (Rag.build_conversation_history
              (default [] conversation_history) 5)
      ++ [Rag.message "user"
            (Rag.create_user_prompt query (Rag.format_context_for_llm chunks)
               selected_text)]).
  { unfold Rag.prepare_llm_messages.
    by destruct conversation_history as [[|m ms]|]. }
  split; [exact Heq|]. rewrite Heq.
  destruct (build_conversation_history_length
              (default [] conversation_history) 5 ltac:(lia)) as [_ Hlen].
  rewrite !length_app, length_map. simpl. lia.
Qed.

End RagFacts.

Section RagTheorems.
Import Spec.

(** X25. The chunks kept for the token budget are the longest prefix of the
    given chunks whose estimated size, 200 characters per chunk besides
    its content, is within four characters per token of the budget: the
    first chunk that does not fit ends the selection, even if a later one
    would fit. *)
Theorem token_budget_keeps_longest_prefix
    (chunks : list Retrieval.RetrievedChunk) (max_tokens : Z) :
  let out := Rag.optimize_context_for_token_budget chunks max_tokens in
  out `prefix_of` chunks /\
  (out <> [] -> estimated_chars out <= max_tokens * 4) /\
  (forall c, (out ++ [c]) `prefix_of` chunks ->
     max_tokens * 4 < estimated_chars (out ++ [c])).
Proof.
  intros out. subst out. unfold Rag.optimize_context_for_token_budget.
  destruct (budget_loop_spec (max_tokens * 4) chunks [] 0)
    as (kept & -> & Hpre & Hbudget & Hmax).
  cbn [app]. split_and!; [done| |].
  - intros Hne. specialize (Hbudget Hne). lia.
  - intros c Hc. specialize (Hmax c Hc). lia.
Qed.

(** X26. With a positive limit the history is made of the most recent
    messages, in order: the last [max_history] of them, or all when there
    are fewer. *)
Theorem history_keeps_most_recent
    (messages : list (string * string)) (max_history : Z) :
  0 < max_history ->
  Rag.build_conversation_history messages max_history
  = map (fun rc => Rag.mkMessage rc.1 rc.2)
        (drop (length messages - Z.to_nat max_history) messages) /\
  Z.of_nat (length (Rag.build_conversation_history messages max_history))
  = Z.min (Z.of_nat (length messages)) max_history.
Proof. apply build_conversation_history_length. Qed.

(** X27. A limit of zero does not empty the history: since [messages[-0:]]
    is the whole list, every message is kept. *)
Theorem history_limit_zero_keeps_all (messages : list (string * string)) :
  Rag.build_conversation_history messages 0
  = map (fun rc => Rag.mkMessage rc.1 rc.2) messages.
Proof.
  unfold Rag.build_conversation_history.
  destruct (_ >? _); [|done]. unfold Py.slice_from. simpl.
  by rewrite drop_0.
Qed.

(** X28. The messages prepared for the model are the system prompt, then the
    last five messages of the conversation at most, then one user message
    with the context and the question: between two and seven messages. *)
Theorem llm_messages_frame
    (query : string) (chunks : list Retrieval.RetrievedChunk)
    (conversation_history : option (list (string * string)))
    (selected_text : option string) :
  Rag.prepare_llm_messages query chunks conversation_history selected_text
  = [Rag.message "system" Rag.create_system_prompt]
    ++ map Rag.to_dict
         (Rag.build_conversation_history (default [] conversation_history) 5)
    ++ [Rag.message "user"
          (Rag.create_user_prompt query (Rag.format_context_for_llm chunks)
             selected_text)] /\
  (2 <= length (Rag.prepare_llm_messages query chunks conversation_history
                  selected_text) <= 7)%nat.
Proof. apply prepare_llm_messages_frame. Qed.

(** X29. The whole pipeline keeps its limits: [process_query] returns at
    most [rerank_top_n] chunks, in descending order of fused score and
    with distinct identifiers, and at most seven messages; when the token
    budget is applied, the chunks are empty or their estimated size is at
    most 16000 characters. *)
Theorem process_query_keeps_limits
    (search :
       Embeddings.embedding -> option (list (string * string)) -> Z -> R ->
       result (list HybridRetriever.ScoredPoint))
    (scroll :
       option (list (string * string)) -> result (list Retrieval.Point))
    (embedding_generator : Embeddings.EmbeddingGenerator)
    (create : nat -> list string -> Embeddings.api_outcome)
    (set_iter : gset Retrieval.UUID -> list Retrieval.UUID)
    (settings_retrieval_top_k rerank_top_n : Z)
    (cache cache' : gmap string Embeddings.embedding)
    (query : string) (selected_text : option string)
    (conversation_history : option (list (string * string)))
    (chapter_filter section_filter : option string) (optimize_tokens : bool)
    (messages : list (list (string * string)))
    (chunks : list Retrieval.RetrievedChunk) :
  iteration_order set_iter ->
  0 <= rerank_top_n ->
  Rag.process_query search scroll embedding_generator create set_iter
    settings_retrieval_top_k rerank_top_n cache query selected_text
    conversation_history chapter_filter section_filter optimize_tokens
  = Ok (messages, chunks, cache') ->
  Z.of_nat (length chunks) <= rerank_top_n /\
  (length messages <= 7)%nat /\
  StronglySorted (desc Retrieval.score) chunks /\
  NoDup (Retrieval.chunk_id <$> chunks) /\
  (optimize_tokens = true ->
   chunks = [] \/ estimated_chars chunks <= 16000).
Proof.
  intros Hiter Hn Hrun. unfold Rag.process_query in Hrun.
  ok_inv Hrun. destruct a as [retrieved c1]. cbn [fst snd] in Hrun.
  injection Hrun as <- <- <-.
  unfold Rag.retrieve_context in E. cbn [default from_option] in E.
  apply (retrieve_shape _ _ _ _ _ _ Hiter) in E
    as (Hlen & _ & Hhybrid); [|done].
  destruct (Hhybrid eq_refl) as (Hsorted & Hnd & _).
  destruct (prepare_llm_messages_frame query
              (if optimize_tokens
               then Rag.optimize_context_for_token_budget retrieved 4000
               else retrieved) conversation_history selected_text)
    as [_ [_ Hmsgs]].
  destruct optimize_tokens.
  - unfold Rag.optimize_context_for_token_budget in *.
    destruct (budget_loop_spec (4000 * 4) retrieved [] 0)
      as (kept & Hkept & Hpre & Hbudget & _).
    rewrite Hkept in *. cbn [app] in *.
    pose proof (prefix_sublist _ _ Hpre) as Hsub.
    split_and!.
    + apply sublist_length in Hsub. lia.
    + exact Hmsgs.
    + by eapply sublist_StronglySorted.
    + eapply sublist_NoDup; [exact Hnd|]. by apply fmap_sublist.
    + intros _. destruct kept as [|k kept]; [by left|right].
      specialize (Hbudget ltac:(done)). lia.
  - split_and!; try done.
Qed.

End RagTheorems.

(** ** Storing the points *)

Lemma enumerate_from_length {A : Type} n (l : list A) :
  length (Py.enumerate_from n l) = length l.
Proof.
  revert n. induction l as [|x l IH]; intros n; simpl; [done|].
  by rewrite IH.
Qed.

Lemma zip_length {A B : Type} (l : list A) (k : list B) :
  length l = length k -> length (Py.zip l k) = length l.
Proof.
  revert k. induction l as [|x l IH]; intros [|y k] Hlen; simpl in *;
    try done. f_equal. apply IH. lia.
Qed.

Section Upload.
Import Spec.
Variable collection : Type.
Variable upsert : collection -> list Pipeline.PointStruct -> result collection.
Variable points : list Pipeline.PointStruct.

Lemma upload_batch s :
  drop s (take (Z.to_nat (Z.min (Z.of_nat s + 100)
                                (Z.of_nat (length points)))) points)
  = take 100 (drop s points).
Proof.
  rewrite take_drop_commute.
  destruct (decide (s + 100 <= length points)%nat).
  - by replace (Z.to_nat (Z.min (Z.of_nat s + 100)
                                (Z.of_nat (length points))))
      with (s + 100)%nat by lia.
  - replace (Z.to_nat (Z.min (Z.of_nat s + 100)
                             (Z.of_nat (length points))))
      with (length points) by lia.
    by rewrite !take_ge by lia.
Qed.

(** The upload loop sends the successive batches of a hundred points
    and counts the points sent. *)
Lemma upload_loop fuel s c total :
  (length points - s <= fuel)%nat ->
  Py.for_each (Pipeline.upload_step collection upsert points)
    (Embeddings.range_from fuel s (length points) 100) (c, total)
  = (c' ← Py.for_each upsert (batches_of fuel 100 (drop s points)) c;
     Ok (c', total + Z.of_nat (length points - s))).
Proof.
  revert s c total. induction fuel as [|fuel IH]; intros s c total Hfuel.
  - simpl. do 2 f_equal. lia.
  - cbn [Embeddings.range_from batches_of].
    destruct (Nat.ltb_spec s (length points)) as [Hlt|Hge].
    + destruct (drop s points) as [|p rest] eqn:Hdrop.
      { apply (f_equal length) in Hdrop. rewrite length_drop in Hdrop.
        simpl in Hdrop. lia. }
      rewrite <- Hdrop. cbn [Py.for_each].
      unfold Pipeline.upload_step at 1. cbn [fst snd].
      rewrite upload_batch.
      destruct (upsert c (take 100 (drop s points))) as [c1|e];
        [|done]. cbn [mbind result_bind].
      rewrite IH by lia. rewrite drop_drop.
      destruct (Py.for_each upsert _ c1); [|done].
      cbn [mbind result_bind]. do 2 f_equal.
      rewrite length_take, length_drop. lia.
    + rewrite drop_ge by lia. simpl. do 2 f_equal. lia.
Qed.

Lemma batches_of_spec {A : Type} fuel n (l : list A) :
  (0 < n)%nat -> (length l <= fuel)%nat ->
  concat (batches_of fuel n l) = l /\
  Forall (fun b => (1 <= length b <= n)%nat) (batches_of fuel n l).
Proof.
  intros Hn. revert l. induction fuel as [|fuel IH]; intros l Hfuel.
  - destruct l; [by split|simpl in Hfuel; lia].
  - cbn [batches_of]. destruct l as [|x l]; [by split|].
    destruct (IH (drop n (x :: l))) as [Hcat Hall].
    { rewrite length_drop. simpl in *. lia. }
    split.
    + cbn [concat]. rewrite Hcat. apply take_drop.
    + constructor; [|exact Hall]. rewrite length_take.
      simpl. lia.
Qed.

End Upload.

Section PipelineTheorems.
Import Spec.

(** X30. [_store_in_qdrant] raises [ValueError] before any upload when the
    numbers of chunks and of embeddings differ. Otherwise it pairs the
    [i]-th chunk with the [i]-th embedding and sends the points in
    successive batches, each of one to a hundred points, that together
    are all the points in order; when every upload succeeds it returns
    the number of chunks. *)
Theorem store_in_qdrant_uploads_every_point
    (collection : Type)
    (upsert : collection -> list Pipeline.PointStruct -> result collection)
    (uuid4 utcnow : nat -> string) (c : collection)
    (chunks : list Chunker.ContentChunk)
    (embeddings : list Embeddings.embedding) :
  let points :=
    map (fun ice : nat * (Chunker.ContentChunk * Embeddings.embedding) =>
           Pipeline.point_of uuid4 utcnow ice.1 ice.2.1 ice.2.2)
        (Py.enumerate (Py.zip chunks embeddings)) in
  let batches := batches_of (length points) 100 points in
  (length chunks <> length embeddings ->
   Pipeline._store_in_qdrant collection upsert uuid4 utcnow c chunks
     embeddings = Raise ValueError) /\
  (length chunks = length embeddings ->
   Pipeline._store_in_qdrant collection upsert uuid4 utcnow c chunks
     embeddings
   = (c' ← Py.for_each upsert batches c;
      Ok (c', Z.of_nat (length chunks)))) /\
  concat batches = points /\
  Forall (fun b => (1 <= length b <= 100)%nat) batches.
Proof.
  intros points batches. unfold Pipeline._store_in_qdrant.
  fold points.
  destruct (batches_of_spec (length points) 100 points ltac:(lia)
              ltac:(lia)) as [Hcat Hall].
  split_and!; [| |exact Hcat|exact Hall].
  - intros Hne. by rewrite (proj2 (Nat.eqb_neq _ _) Hne).
  - intros Heq. rewrite (proj2 (Nat.eqb_eq _ _) Heq). cbn [negb].
    unfold Embeddings.range_step. cbn [Z.eqb Z.ltb Z.compare].
    cbn [mbind result_bind].
    change (Z.to_nat 100) with 100%nat.
    rewrite (upload_loop collection upsert points (length points) 0 c 0)
      by lia.
    rewrite drop_0. fold batches.
    assert (Hlen : length points = length chunks).
    { subst points. rewrite length_map. unfold Py.enumerate.
      by rewrite enumerate_from_length, zip_length. }
    destruct (Py.for_each upsert batches c); [|done].
    cbn [mbind result_bind]. do 2 f_equal. lia.
Qed.

End PipelineTheorems.

(** ** Examples *)

Section EmbeddingExamples.
Import Embeddings Spec Samples.

Lemma retry_first_decisive_attempt_witness :
  Z.of_nat 2 < max_retries sample_generator /\
  flaky_create 0 ["a"] = RateLimited /\
  flaky_create 1 ["a"] = RateLimited /\
  _generate_with_retry sample_generator flaky_create ["a"]
  = Ok [sample_embed "a"].
Proof.
  assert (Htr : forall j, (j < 2)%nat ->
            flaky_create j ["a"] = RateLimited \/
            flaky_create j ["a"] = Failed).
  { intros [|[|j]] Hj; [by left|by left|lia]. }
  split; [reflexivity|]. split; [reflexivity|]. split; [reflexivity|].
  apply (proj1 (retry_first_decisive_attempt sample_generator flaky_create
                  ["a"] 2 eq_refl Htr)).
  reflexivity.
Defined.

Lemma generate_embedding_cached_afterwards_witness :
  use_cache sample_generator = true /\
  generate_embedding sample_generator sample_create sample_cache "a"
  = Ok (sample_embed "a", <["a" := sample_embed "a"]> sample_cache) /\
  generate_embedding sample_generator (fun _ _ => Failed)
    (<["a" := sample_embed "a"]> sample_cache) "a"
  = Ok (sample_embed "a", <["a" := sample_embed "a"]> sample_cache).
Proof.
  assert (Hfirst :
    generate_embedding sample_generator sample_create sample_cache "a"
    = Ok (sample_embed "a", <["a" := sample_embed "a"]> sample_cache))
    by reflexivity.
  split; [reflexivity|]. split; [exact Hfirst|].
  exact (generate_embedding_cached_afterwards sample_generator sample_create
           (fun _ _ => Failed) sample_cache _ "a" _ eq_refl Hfirst).
Defined.

Lemma batch_size_zero_raises_witness :
  batch_size zero_batch_generator = 0 /\
  cache_get zero_batch_generator sample_cache "a" = None /\
  generate_embeddings_batch zero_batch_generator sample_create sample_cache
    ["bb"; "a"] = Raise ValueError.
Proof.
  split; [reflexivity|]. split; [reflexivity|].
  apply (batch_size_zero_raises zero_batch_generator sample_create
           sample_cache ["bb"; "a"] "a" eq_refl).
  - right. left.
  - reflexivity.
Defined.

Lemma negative_batch_size_drops_uncached_witness :
  batch_size negative_batch_generator < 0 /\
  generate_embeddings_batch negative_batch_generator sample_create
    sample_cache ["a"; "bb"; "ccc"]
  = Ok (omap (cache_get negative_batch_generator sample_cache)
          ["a"; "bb"; "ccc"], sample_cache).
Proof.
  split; [reflexivity|].
  apply (proj1 (negative_batch_size_drops_uncached negative_batch_generator
                  sample_create sample_cache ["a"; "bb"; "ccc"] eq_refl)).
Defined.

Lemma all_cached_needs_no_provider_witness :
  is_Some (cache_get sample_generator sample_cache "bb") /\
  generate_embeddings_batch sample_generator (fun _ _ => Failed)
    sample_cache ["bb"; "bb"]
  = Ok (map (fun t => default [] (cache_get sample_generator sample_cache t))
          ["bb"; "bb"], sample_cache).
Proof.
  assert (Hbb : is_Some (cache_get sample_generator sample_cache "bb"))
    by (by eexists).
  split; [exact Hbb|].
  apply (all_cached_needs_no_provider sample_generator (fun _ _ => Failed)
           sample_cache ["bb"; "bb"]).
  intros t Ht.
  apply elem_of_cons in Ht as [->|Ht]; [exact Hbb|].
  apply elem_of_cons in Ht as [->|Ht]; [exact Hbb|].
  by apply elem_of_nil in Ht.
Defined.

End EmbeddingExamples.

Section ChunkerMoreExamples.
Import Parser Chunker Spec Samples.

Lemma char_tokenizer_round_trip s :
  decode char_tokenizer (encode char_tokenizer s) = s.
Proof.
  induction s as [|c s IH]; [done|]. simpl in *.
  by rewrite IH, N2Z.id, ascii_N_embedding.
Qed.

Lemma split_chunks_not_blank_witness :
  let self := mkChunker 5 10 4 char_tokenizer in
  0 < min_chunk_size self /\
  Forall (fun ck => text ck <> EmptyString /\ Py.strip (text ck) = text ck)
         (_split_large_section self overlap_section [] (plain_document [])).
Proof.
  intros self. split; [reflexivity|].
  apply (split_chunks_not_blank self overlap_section [] (plain_document [])).
  reflexivity.
Defined.

Lemma first_chunk_empty_without_minimum_witness :
  let self := mkChunker 0 3 1 char_tokenizer in
  min_chunk_size self <= 0 /\
  _split_into_paragraphs (content long_first_section) = ["abcdef"; "x"] /\
  max_chunk_size self < count_tokens self "abcdef" /\
  exists rest,
    _split_large_section self long_first_section [] (plain_document [])
    = _create_chunk self EmptyString [] (plain_document [])
        long_first_section 0 :: rest.
Proof.
  intros self.
  assert (Hmin : min_chunk_size self <= 0) by (subst self; simpl; lia).
  assert (Hps : _split_into_paragraphs (content long_first_section)
                = ["abcdef"; "x"]) by reflexivity.
  assert (Hbig : max_chunk_size self < count_tokens self "abcdef")
    by reflexivity.
  split; [exact Hmin|]. split; [exact Hps|]. split; [exact Hbig|].
  exact (first_chunk_empty_without_minimum self long_first_section []
           (plain_document []) "abcdef" ["x"] Hmin Hps Hbig).
Defined.

Lemma zero_overlap_repeats_whole_buffer_witness :
  let self := mkChunker 5 10 0 char_tokenizer in
  overlap_size self = 0 /\
  _get_overlap_text self "abc def" = "abc def".
Proof.
  intros self. split; [reflexivity|].
  apply (proj1 (zero_overlap_repeats_whole_buffer self overlap_section []
                  (plain_document []) eq_refl char_tokenizer_round_trip)).
Defined.

Lemma chunks_numbered_within_section_witness :
  let self := mkChunker 5 10 4 char_tokenizer in
  exists ck,
    _chunk_section self overlap_section [] (plain_document []) !! 1%nat
    = Some ck /\
    Pipeline.get (metadata ck) "chunk_index" (MInt 0) = MInt 1.
Proof.
  intros self.
  destruct (_chunk_section self overlap_section [] (plain_document [])
              !! 1%nat) as [ck|] eqn:Hck; [|by vm_compute in Hck].
  exists ck. split; [reflexivity|].
  exact (chunks_numbered_within_section self overlap_section []
           (plain_document []) 1 ck Hck).
Defined.


Lemma parsed_heading_paths_bounded_witness :
  let self := mkChunker 5 10 4 char_tokenizer in
  let doc := plain_document (MarkdownParser._parse_sections sample_markdown) in
  sections doc = MarkdownParser._parse_sections sample_markdown /\
  Forall (fun ck => (1 <= length (heading_path ck) <= 6)%nat)
         (chunk_document self doc).
Proof.
  intros self doc. split; [reflexivity|].
  apply (parsed_heading_paths_bounded self doc sample_markdown).
  reflexivity.
Defined.

End ChunkerMoreExamples.

Section ScoringExamples.
Import Retrieval Spec Samples.

Lemma score_documents_ignores_case_witness :
  Py.lower "Robot ARM" = Py.lower "robot arm" /\
  score_documents BM25_default "Robot ARM"
    [(1%N, "The Robot arm"); (2%N, "Gripper")]
  = score_documents BM25_default "robot arm"
      [(1%N, "the robot ARM"); (2%N, "gripper")].
Proof.
  split; [reflexivity|].
  apply (score_documents_ignores_case BM25_default "Robot ARM" "robot arm"
           [(1%N, "The Robot arm"); (2%N, "Gripper")]
           [(1%N, "the robot ARM"); (2%N, "gripper")] eq_refl).
  repeat constructor.
Defined.

Lemma unmatched_document_scores_zero_witness :
  exists out,
    score_documents BM25_default "robot arm"
      [(1%N, "the robot arm moves"); (2%N, "a gripper closes")] = Ok out /\
    (2%N, 0%R) ∈ out.
Proof.
  destruct (score_documents_total BM25_default "robot arm"
              [(1%N, "the robot arm moves"); (2%N, "a gripper closes")])
    as [out Hout].
  { apply (bool_decide_unpack _). by vm_compute. }
  { simpl. lra. }
  { simpl. lra. }
  exists out. split; [exact Hout|].
  apply (unmatched_document_scores_zero BM25_default "robot arm"
           [(1%N, "the robot arm moves"); (2%N, "a gripper closes")] out
           (2%N, "a gripper closes") Hout).
  - right. left.
  - intros q Hq Hd.
    change (tokenize "robot arm") with ["robot"; "arm"] in Hq.
    change (tokenize (2%N, "a gripper closes").2)
      with ["a"; "gripper"; "closes"] in Hd.
    apply elem_of_cons in Hq as [->|Hq].
    { apply (bool_decide_pack _) in Hd. by vm_compute in Hd. }
    apply elem_of_cons in Hq as [->|Hq].
    { apply (bool_decide_pack _) in Hd. by vm_compute in Hd. }
    by apply elem_of_nil in Hq.
Defined.

End ScoringExamples.

Section RetrieveExamples.
Import Retrieval Spec Samples.

Lemma elements_order : iteration_order elements.
Proof.
  intros X. split; [apply NoDup_elements|]. intros x. apply elem_of_elements.
Qed.

Lemma sample_points_distinct : NoDup (id <$> sample_points).
Proof. apply (bool_decide_unpack _). by vm_compute. Qed.

Lemma retrieve_result_shape_witness :
  iteration_order elements /\ 0 <= 2 /\
  exists out,
    HybridRetriever.retrieve sample_search sample_scroll plain_generator
      sample_create elements 20 ∅ "robot arm" 2 None None None true 0
    = Ok (out, ∅) /\
    Z.of_nat (length out) <= 2 /\
    StronglySorted (desc score) out /\
    NoDup (chunk_id <$> out).
Proof.
  split; [exact elements_order|]. split; [lia|].
  destruct (retrieve_total sample_search sample_scroll plain_generator
              sample_create elements 20 elements_order ∅ "robot arm" 2 None
              None None true 0 (sample_embed "robot arm") ∅ sample_points
              _ eq_refl eq_refl eq_refl sample_points_distinct)
    as [out Hout].
  exists out. split; [exact Hout|].
  destruct (retrieve_result_shape sample_search sample_scroll plain_generator
              sample_create elements 20 ∅ ∅ "robot arm" 2 None None None true
              0 out elements_order ltac:(lia) Hout)
    as (Hlen & _ & Hhybrid).
  destruct (Hhybrid eq_refl) as (Hsorted & Hnd & _).
  by split_and!.
Defined.

Lemma retrieve_returns_when_index_answers_witness :
  iteration_order elements /\
  NoDup (id <$> sample_points) /\
  exists out,
    HybridRetriever.retrieve sample_search sample_scroll plain_generator
      sample_create elements 20 ∅ "robot arm" 2 None None None true 0
    = Ok (out, ∅).
Proof.
  split; [exact elements_order|]. split; [exact sample_points_distinct|].
  exact (retrieve_returns_when_index_answers sample_search sample_scroll
           plain_generator sample_create elements 20 ∅ ∅ "robot arm" 2 None
           None None true 0 (sample_embed "robot arm") sample_points _
           elements_order eq_refl eq_refl eq_refl sample_points_distinct).
Defined.

End RetrieveExamples.

Section RagExamples.
Import Spec Samples.

Lemma history_keeps_most_recent_witness :
  0 < 2 /\
  Rag.build_conversation_history
    [("user", "one"); ("assistant", "two"); ("user", "three")]%string 2
  = [Rag.mkMessage "assistant" "two"; Rag.mkMessage "user" "three"].
Proof.
  split; [lia|].
  apply (proj1 (history_keeps_most_recent
                  [("user", "one"); ("assistant", "two"); ("user", "three")]
                  %string 2 ltac:(lia))).
Defined.

Lemma process_query_keeps_limits_witness :
  iteration_order elements /\ 0 <= 5 /\
  exists messages chunks,
    Rag.process_query sample_search sample_scroll plain_generator
      sample_create elements 20 5 ∅ "robot arm" None None None None true
    = Ok (messages, chunks, ∅) /\
    Z.of_nat (length chunks) <= 5 /\ (length messages <= 7)%nat.
Proof.
  split; [exact elements_order|]. split; [lia|].
  destruct (retrieve_total sample_search sample_scroll plain_generator
              sample_create elements 20 elements_order ∅ "robot arm" 5 None
              None None true 0 (sample_embed "robot arm") ∅ sample_points
              _ eq_refl eq_refl eq_refl sample_points_distinct)
    as [out Hout].
  assert (Hrun :
    Rag.process_query sample_search sample_scroll plain_generator
      sample_create elements 20 5 ∅ "robot arm" None None None None true
    = Ok (Rag.prepare_llm_messages "robot arm"
            (Rag.optimize_context_for_token_budget out 4000) None None,
          Rag.optimize_context_for_token_budget out 4000, ∅)).
  { unfold Rag.process_query, Rag.retrieve_context.
    cbn [default from_option]. by rewrite Hout. }
  eexists _, _. split; [exact Hrun|].
  destruct (process_query_keeps_limits sample_search sample_scroll
              plain_generator sample_create elements 20 5 ∅ ∅ "robot arm"
              None None None None true _ _ elements_order ltac:(lia) Hrun)
    as (Hlen & Hmsgs & _).
  by split.
Defined.

End RagExamples.
